(** * cert-monitor: the certificate expiry pipeline of cmd/cert-monitor/main.go

    The program dials every configured domain over TLS, reads the leaf
    certificate, decides whether it expires within the configured number of
    days, renders a summary per domain and mails (or prints) the results.

    The embedding follows main.go function by function: [isDateWithinDays],
    [getDomain], [sendEmail] and the body of [main] after the configuration
    has been loaded.  The collaborators of the program (the network, the
    clock, the SMTP server) are an interface, [Host]; everything the program
    does to them, and everything it writes, is recorded in a trace of
    [Event]s.

    The Go packages the program calls are modelled from their code:
    package time on the proleptic Gregorian calendar, with instants as
    (seconds, nanoseconds) since the Unix epoch, its arithmetic in 64 bits
    that wrap around, and a Location known by what its lookup answers (UTC,
    time.FixedZone, and a zone with daylight saving time as time.Local is);
    net.SplitHostPort; strings.Join; the verbs of fmt.Sprintf the program
    uses.  The program does no arithmetic of its own. *)

From Stdlib Require Import ZArith List String Ascii Bool Lia.
Import ListNotations.

Local Open Scope string_scope.
Local Open Scope list_scope.
Local Open Scope Z_scope.

Infix "+++" := String.append (at level 60, right associativity).

(** ** Package time *)

Module GoTime.

Definition secondsPerMinute : Z := 60.
Definition secondsPerHour : Z := 3600.
Definition secondsPerDay : Z := 86400.

Definition daysPer400Years : Z := 146097.
Definition daysPer100Years : Z := 36524.
Definition daysPer4Years : Z := 1461.

(** The epochs of package time: the absolute epoch is January 1 of
    [absoluteZeroYear], a year that is 1 modulo 400; the internal epoch is
    January 1 of year 1; the Unix epoch is January 1 of 1970. *)
Definition absoluteZeroYear : Z := -292277022399.
Definition internalYear : Z := 1.
Definition absoluteToInternal : Z := -9223371966579724800.
Definition internalToAbsolute : Z := - absoluteToInternal.
Definition unixToInternal : Z := 62135596800.
Definition internalToUnix : Z := - unixToInternal.

(** Go's int, int64 and uint64 are 64 bits wide (int as on amd64 and
    arm64) and their arithmetic wraps around.  A value is kept as the Z it
    denotes; [uint64] and [int64] are the conversions, which are also what
    +, - and * come to on each type: an expression of such operations is
    wrapped once, where its value is stored. *)
Definition uint64 (x : Z) : Z := x mod 18446744073709551616.
Definition int64 (x : Z) : Z :=
  (x + 9223372036854775808) mod 18446744073709551616 - 9223372036854775808.

(** year%4 == 0 && (year%100 != 0 || year%400 == 0); a remainder is 0 for
    Go's % exactly when it is for mod. *)
Definition isLeap (year : Z) : bool :=
  (year mod 4 =? 0) && (negb (year mod 100 =? 0) || (year mod 400 =? 0)).

(** daysBefore[m] counts the days of a non-leap year before month m+1. *)
Definition daysBeforeTable : list Z :=
  [0; 31; 59; 90; 120; 151; 181; 212; 243; 273; 304; 334; 365].

Definition daysBefore (m : Z) : Z :=
  nth (Z.to_nat m) daysBeforeTable 0.

Definition daysIn (m year : Z) : Z :=
  if (m =? 2) && isLeap year then 29
  else daysBefore m - daysBefore (m - 1).

(** daysSinceEpoch: the days from the absolute epoch to the first of
    January of [year], a uint64. *)
Definition daysSinceEpoch (year : Z) : Z :=
  let y := uint64 (int64 (year - absoluteZeroYear)) in
  (* Add in days from 400-year cycles. *)
  let n := y / 400 in
  let y := uint64 (y - 400 * n) in
  let d := uint64 (daysPer400Years * n) in
  (* Add in 100-year cycles. *)
  let n := y / 100 in
  let y := uint64 (y - 100 * n) in
  let d := uint64 (d + daysPer100Years * n) in
  (* Add in 4-year cycles. *)
  let n := y / 4 in
  let y := uint64 (y - 4 * n) in
  let d := uint64 (d + daysPer4Years * n) in
  (* Add in non-leap years. *)
  let n := y in
  uint64 (d + 365 * n).

(** norm returns nhi, nlo such that hi * base + lo == nhi * base + nlo
    and 0 <= nlo < base.  Go's / truncates: Z.quot. *)
Definition norm (hi lo base : Z) : Z * Z :=
  let '(hi, lo) :=
    if lo <? 0 then
      let n := int64 (Z.quot (int64 (- lo - 1)) base + 1) in
      (int64 (hi - n), int64 (lo + n * base))
    else (hi, lo) in
  if base <=? lo then
    let n := Z.quot lo base in (int64 (hi + n), int64 (lo - n * base))
  else (hi, lo).

(** A Location, by what its lookup answers for an instant in seconds
    since the Unix epoch: the offset east of UTC in use then, and the
    period [start, end) in which that offset holds.  time.Local, the
    location of time.Now(), is such a Location, with the changes of the
    host's zone. *)
Record Location := { locName : string; lookup : Z -> Z * Z * Z }.

(** The beginning and the end of time. *)
Definition alpha : Z := -9223372036854775808.
Definition omega : Z := 9223372036854775807.

Definition UTC : Location :=
  {| locName := "UTC"; lookup := fun _ => (0, alpha, omega) |}.
Definition FixedZone (name : string) (offset : Z) : Location :=
  {| locName := name; lookup := fun _ => (offset, alpha, omega) |}.

(** An instant, with the location its calendar fields are read in:
    [unixSec] is what t.unixSec() gives and [nsec] what t.nsec() gives.
    The monotonic reading a Time of time.Now() also carries plays no part
    here: AddDate drops it, and After compares it only when both Times have
    one. *)
Record Time := { unixSec : Z; nsec : Z; loc : Location }.

(** t.sec(): the seconds since January 1, year 1. *)
Definition sec (t : Time) : Z := int64 (unixSec t + unixToInternal).

(** The seconds on the wall clock of the location: sec += int64(offset)
    in t.abs(). *)
Definition wallSec (t : Time) : Z :=
  let '(offset, _, _) := lookup (loc t) (unixSec t) in
  int64 (unixSec t + offset).

(** t.abs(): the wall clock as seconds since the absolute epoch. *)
Definition abs (t : Time) : Z :=
  uint64 (wallSec t + (unixToInternal + internalToAbsolute)).

(** absDate, first half: the year and the day within the year, by 400,
    100, 4 and 1 year cycles. *)
Definition yearDay (abs : Z) : Z * Z :=
  (* Split into time and day. *)
  let d := abs / secondsPerDay in
  (* Account for 400 year cycles. *)
  let n := d / daysPer400Years in
  let y := uint64 (400 * n) in
  let d := uint64 (d - daysPer400Years * n) in
  (* Cut off 100-year cycles. *)
  let n := d / daysPer100Years in
  let n := uint64 (n - Z.shiftr n 2) in
  let y := uint64 (y + 100 * n) in
  let d := uint64 (d - daysPer100Years * n) in
  (* Cut off 4-year cycles. *)
  let n := d / daysPer4Years in
  let y := uint64 (y + 4 * n) in
  let d := uint64 (d - daysPer4Years * n) in
  (* Cut off years within a 4-year cycle. *)
  let n := d / 365 in
  let n := uint64 (n - Z.shiftr n 2) in
  let y := uint64 (y + n) in
  let d := uint64 (d - 365 * n) in
  (int64 (int64 y + absoluteZeroYear), int64 d).

(** absDate, second half: month and day of the month from the day of
    the year. *)
Definition monthDay (leap : bool) (yday : Z) : Z * Z :=
  if leap && (yday =? 31 + 29 - 1) then (2, 29)
  else
    let day := if leap && (31 + 29 - 1 <? yday) then yday - 1 else yday in
    let month := day / 31 in
    let end_ := daysBefore (month + 1) in
    let '(month, begin) :=
      if end_ <=? day then (month + 1, end_) else (month, daysBefore month) in
    (month + 1, day - begin + 1).

Definition absDate (abs : Z) : Z * Z * Z :=
  let '(year, yday) := yearDay abs in
  let '(month, day) := monthDay (isLeap year) yday in
  (year, month, day).

Definition absClock (abs : Z) : Z * Z * Z :=
  let sec := int64 (abs mod secondsPerDay) in
  let hour := Z.quot sec secondsPerHour in
  let sec := int64 (sec - hour * secondsPerHour) in
  let min := Z.quot sec secondsPerMinute in
  let sec := int64 (sec - min * secondsPerMinute) in
  (hour, min, sec).

(** t.Date() and t.Clock() *)
Definition DateOf (t : Time) : Z * Z * Z := absDate (abs t).
Definition ClockOf (t : Time) : Z * Z * Z := absClock (abs t).

(** The end of time.Date: [unix] was counted as if the wall clock were
    UTC.  The offset of the location is looked up there, and looked up
    again at the instant it leads to when that is outside the period
    found. *)
Definition zoneUnix (l : Location) (unix : Z) : Z :=
  let '(offset, start, end_) := lookup l unix in
  if negb (offset =? 0) then
    let utc := int64 (unix - offset) in
    (* If utc is valid for the time zone we found, then we have the right
       offset.  If not, we get the correct offset by looking up utc in the
       location. *)
    let offset :=
      if (utc <? start) || (end_ <=? utc)
      then fst (fst (lookup l utc)) else offset in
    int64 (unix - offset)
  else unix.

(** time.Date: out-of-range fields are normalised, month into year and
    nanoseconds up to hours into the day; the day is added as it is. *)
Definition Date (year month day hour min sec nsec : Z) (l : Location) : Time :=
  (* Normalize month, overflowing into year. *)
  let m := int64 (month - 1) in
  let '(year, m) := norm year m 12 in
  let month := int64 (m + 1) in
  (* Normalize nsec, sec, min, hour, overflowing into day. *)
  let '(sec, nsec) := norm sec nsec 1000000000 in
  let '(min, sec) := norm min sec 60 in
  let '(hour, min) := norm hour min 60 in
  let '(day, hour) := norm day hour 24 in
  (* Compute days since the absolute epoch. *)
  let d := daysSinceEpoch year in
  (* Add in days before this month. *)
  let d := uint64 (d + daysBefore (month - 1)) in
  let d := if isLeap year && (3 <=? month) then uint64 (d + 1) else d in
  (* Add in days before today. *)
  let d := uint64 (d + (day - 1)) in
  (* Add in time elapsed today. *)
  let abs := uint64 (d * secondsPerDay) in
  let abs :=
    uint64 (abs + int64 (hour * secondsPerHour + min * secondsPerMinute
                         + sec)) in
  let unix := int64 (abs + (absoluteToInternal + internalToUnix)) in
  (* Look for zone offset for expected time, so we can adjust to UTC. *)
  {| unixSec := zoneUnix l unix; nsec := nsec; loc := l |}.

Definition AddDate (t : Time) (years months days : Z) : Time :=
  let '(year, month, day) := DateOf t in
  let '(hour, min, sec) := ClockOf t in
  Date (int64 (year + years)) (int64 (month + months)) (int64 (day + days))
       hour min sec (nsec t) (loc t).

(** t.After(u): the instant t is after the instant u. *)
Definition After (t u : Time) : bool :=
  let ts := sec t in
  let us := sec u in
  (us <? ts) || ((ts =? us) && (nsec u <? nsec t)).

(** The zero Time: January 1, year 1, 00:00:00 UTC. *)
Definition zeroTime : Time :=
  {| unixSec := internalToUnix; nsec := 0; loc := UTC |}.

End GoTime.

(** ** Strings, fmt and strconv *)

Module GoStrings.

Definition len (s : string) : Z := Z.of_nat (String.length s).

(** s[i:j] *)
Definition slice (s : string) (i j : Z) : string :=
  substring (Z.to_nat i) (Z.to_nat (j - i)) s.

(** s[i:] *)
Definition sliceFrom (s : string) (i : Z) : string := slice s i (len s).

(** s[i], for an index in range. *)
Definition byteAt (s : string) (i : Z) : option ascii :=
  if i <? 0 then None else String.get (Z.to_nat i) s.

Definition byteIs (s : string) (i : Z) (c : ascii) : bool :=
  match byteAt s i with
  | Some b => Ascii.eqb b c
  | None => false
  end.

(** bytealg.IndexByteString: the first index of [c] in [s], or -1. *)
Fixpoint IndexByteString (s : string) (c : ascii) : Z :=
  match s with
  | EmptyString => -1
  | String b s' =>
      if Ascii.eqb b c then 0
      else let i := IndexByteString s' c in
           if i <? 0 then -1 else i + 1
  end.

(** The last index of [c] in [s], or -1. *)
Fixpoint last (s : string) (c : ascii) : Z :=
  match s with
  | EmptyString => -1
  | String b s' =>
      let i := last s' c in
      if 0 <=? i then i + 1
      else if Ascii.eqb b c then 0 else -1
  end.

(** strings.Join *)
Fixpoint Join (elems : list string) (sep : string) : string :=
  match elems with
  | [] => EmptyString
  | [e] => e
  | e :: rest => e +++ sep +++ Join rest sep
  end.

(** The verb %v of fmt on a bool. *)
Definition fmtBool (b : bool) : string := if b then "true" else "false".

Definition isDigitChar (c : ascii) : bool :=
  let n := Z.of_nat (nat_of_ascii c) in (48 <=? n) && (n <=? 57).

(** isDigit of package time: s[i] is in range and a decimal digit. *)
Definition isDigit (s : string) (i : Z) : bool :=
  match byteAt s i with
  | Some c => isDigitChar c
  | None => false
  end.

Definition digitVal (c : ascii) : Z := Z.of_nat (nat_of_ascii c) - 48.

Definition digitChar (d : Z) : ascii := ascii_of_nat (Z.to_nat (48 + d)).

(** The decimal digits of [u >= 0], most significant first. *)
Fixpoint utoaAux (fuel : nat) (u : Z) (acc : string) : string :=
  match fuel with
  | O => acc
  | S fuel' =>
      let acc' := String (digitChar (u mod 10)) acc in
      if u <? 10 then acc' else utoaAux fuel' (u / 10) acc'
  end.

Definition utoa (u : Z) : string :=
  utoaAux (S (Z.to_nat (Z.log2 u))) u EmptyString.

Fixpoint zeros (n : nat) : string :=
  match n with
  | O => EmptyString
  | S n' => String "0" (zeros n')
  end.

(** appendInt of package time: [x] in decimal, zero-padded to [width],
    after a minus sign when negative. *)
Definition appendInt (x : Z) (width : Z) : string :=
  let sign := if x <? 0 then "-" else EmptyString in
  let digits := utoa (Z.abs x) in
  sign +++ zeros (Z.to_nat (width - len digits)) +++ digits.

(** leadingInt of package time: the leading digits of [s] as a number,
    and the rest. *)
Fixpoint leadingInt (s : string) (x : Z) : Z * string :=
  match s with
  | EmptyString => (x, s)
  | String c s' =>
      if isDigitChar c then leadingInt s' (x * 10 + digitVal c)
      else (x, s)
  end.

(** atoi of package time: an optional sign and digits, nothing else. *)
Definition atoi (s : string) : option Z :=
  let '(neg, s) :=
    match s with
    | String "-" s' => (true, s')
    | String "+" s' => (false, s')
    | _ => (false, s)
    end in
  let '(q, rem) := leadingInt s 0 in
  match rem with
  | EmptyString => Some (if neg then - q else q)
  | _ => None
  end.

(** A double quote and a backslash. *)
Definition dquote : string := String (ascii_of_nat 34) EmptyString.
Definition backslash : ascii := ascii_of_nat 92.

Definition lowerhex : string := "0123456789abcdef".

(** lowerhex[n] *)
Definition hexDigit (n : Z) : ascii :=
  match String.get (Z.to_nat n) lowerhex with
  | Some c => c
  | None => "0"%char
  end.

(** The loop of quote of package time.  The source ranges over the runes
    of the string and writes every byte of a rune that is below ' ' or
    from 0x80 on as \xhh, whether the rune is well encoded or not; a byte
    of such a rune is itself from 0x80 on, and every other byte is a rune
    of its own: the loop comes to this one, byte by byte.  A double quote
    and a backslash are written after a backslash. *)
Fixpoint quoteBytes (s : string) : string :=
  match s with
  | EmptyString => EmptyString
  | String c rest =>
      let b := Z.of_nat (nat_of_ascii c) in
      (if (128 <=? b) || (b <? 32) then
         String backslash
           (String "x"
              (String (hexDigit (Z.shiftr b 4))
                 (String (hexDigit (Z.land b 15)) EmptyString)))
       else if Ascii.eqb c (ascii_of_nat 34) || Ascii.eqb c backslash then
         String backslash (String c EmptyString)
       else String c EmptyString)
      +++ quoteBytes rest
  end.

(** quote of package time: the string between double quotes, escaped. *)
Definition quote (s : string) : string := dquote +++ quoteBytes s +++ dquote.

End GoStrings.

(** ** time.Parse and Time.Format with the layout 2006-01-02 *)

Module GoTimeFormat.
Import GoStrings GoTime.

Definition layout : string := "2006-01-02".

Record ParseError := {
  Layout : string;
  Value : string;
  LayoutElem : string;
  ValueElem : string;
  ParseMessage : string
}.

Definition newParseError (value layoutElem valueElem message : string)
  : ParseError :=
  {| Layout := layout; Value := value; LayoutElem := layoutElem;
     ValueElem := valueElem; ParseMessage := message |}.

(** ParseError.Error *)
Definition ErrorText (e : ParseError) : string :=
  match ParseMessage e with
  | EmptyString =>
      "parsing time " +++ quote (Value e) +++ " as " +++ quote (Layout e)
      +++ ": cannot parse " +++ quote (ValueElem e)
      +++ " as " +++ quote (LayoutElem e)
  | m => "parsing time " +++ quote (Value e) +++ m
  end.

(** skip, for the one-byte prefix between the fields of the layout:
    the value without it, or the value as it is and an error. *)
Definition skip (value : string) (prefix : ascii) : string * bool :=
  match value with
  | String c rest => if Ascii.eqb c prefix then (rest, true) else (value, false)
  | EmptyString => (value, false)
  end.

(** getnum: one or two digits; two when [fixed]. *)
Definition getnum (s : string) (fixed : bool) : option (Z * string) :=
  if negb (isDigit s 0) then None
  else
    match s with
    | String c0 rest =>
        if negb (isDigit s 1) then
          if fixed then None else Some (digitVal c0, rest)
        else
          match rest with
          | String c1 rest' => Some (digitVal c0 * 10 + digitVal c1, rest')
          | EmptyString => None
          end
    | EmptyString => None
    end.

(** The element 2006 of the layout: exactly four digits. *)
Definition getLongYear (value : string) : option (Z * string) :=
  if (len value <? 4) || negb (isDigit value 0) then None
  else
    match atoi (slice value 0 4) with
    | Some year => Some (year, sliceFrom value 4)
    | None => None
    end.

(** time.Parse("2006-01-02", value): the parsed time in UTC, or the
    zero Time and an error. *)
Definition Parse (value : string) : Time * option ParseError :=
  let fail layoutElem valueElem message :=
    (zeroTime, Some (newParseError value layoutElem valueElem message)) in
  match getLongYear value with
  | None => fail "2006" value EmptyString
  | Some (year, v1) =>
  match skip v1 "-" with
  | (v, false) => fail "-" v EmptyString
  | (v2, true) =>
  match getnum v2 true with
  | None => fail "01" v2 EmptyString
  | Some (month, v3) =>
  if (month <=? 0) || (12 <? month) then fail "01" v3 ": month out of range"
  else
  match skip v3 "-" with
  | (v, false) => fail "-" v EmptyString
  | (v4, true) =>
  match getnum v4 true with
  | None => fail "02" v4 EmptyString
  | Some (day, v5) =>
  match v5 with
  | String _ _ => fail EmptyString v5 (": extra text: " +++ quote v5)
  | EmptyString =>
  if (day <? 1) || (daysIn month year <? day)
  then fail EmptyString v5 ": day out of range"
  else (Date year month day 0 0 0 0 UTC, None)
  end end end end end end.

(** t.Format("2006-01-02") *)
Definition Format (t : Time) : string :=
  let '(year, month, day) := DateOf t in
  appendInt year 4 +++ "-" +++ appendInt month 2 +++ "-" +++ appendInt day 2.

End GoTimeFormat.

(** ** Errors, and the address syntax of package net *)

Definition error := string.

Inductive Result (A : Type) : Type :=
| Ok (a : A)
| Err (e : error).
Arguments Ok {A} a.
Arguments Err {A} e.

(** The line feed of Go's "\n". *)
Definition nl : string := String (ascii_of_nat 10) EmptyString.

Module GoNet.
Import GoStrings.

Definition missingPort : string := "missing port in address".
Definition tooManyColons : string := "too many colons in address".

(** AddrError.Error *)
Definition addrErr {A} (addr why : string) : Result A :=
  Err (match addr with
       | EmptyString => why
       | _ => "address " +++ addr +++ ": " +++ why
       end).

(** net.SplitHostPort *)
Definition SplitHostPort (hostport : string) : Result (string * string) :=
  (* The port starts after the last colon. *)
  let i := last hostport ":" in
  if i <? 0 then addrErr hostport missingPort
  else
    let bracketed :=
      if byteIs hostport 0 "[" then
        (* Expect the first ']' just before the last ':'. *)
        let end_ := IndexByteString hostport "]" in
        if end_ <? 0 then addrErr hostport "missing ']' in address"
        else if end_ + 1 =? len hostport then addrErr hostport missingPort
        else if end_ + 1 =? i then Ok (slice hostport 1 end_, 1, end_ + 1)
        else if byteIs hostport (end_ + 1) ":"
             then addrErr hostport tooManyColons
             else addrErr hostport missingPort
      else
        let host := slice hostport 0 i in
        if 0 <=? IndexByteString host ":"
        then addrErr hostport tooManyColons
        else Ok (host, 0, 0) in
    match bracketed with
    | Err e => Err e
    | Ok (host, j, k) =>
        if 0 <=? IndexByteString (sliceFrom hostport j) "["
        then addrErr hostport "unexpected '[' in address"
        else if 0 <=? IndexByteString (sliceFrom hostport k) "]"
        then addrErr hostport "unexpected ']' in address"
        else Ok (host, sliceFrom hostport (i + 1))
    end.

(** OpError.Error of a failed dial. *)
Definition dialError (network : string) (e : error) : error :=
  "dial " +++ network +++ ": " +++ e.

End GoNet.

(** ** The data of the program and of its collaborators *)

(** The fields of x509.Certificate the program reads. *)
Record Certificate := {
  SubjectCommonName : string;
  CertDNSNames : list string;
  NotAfter : GoTime.Time
}.

Record ConnectionState := { PeerCertificates : list Certificate }.

Record TLSConfig := { InsecureSkipVerify : bool }.

(** net.Dialer; a Timeout of 0 is no timeout. *)
Record Dialer := { Timeout : Z }.

Record Conn := { RemoteAddr : string; State : ConnectionState }.

(** A gomail message: headers and body. *)
Record Message := {
  From : string;
  To : list string;
  Subject : string;
  ContentType : string;
  Body : string
}.

Record SMTPConfig := {
  Server : string;
  Port : Z;
  SMTPTo : list string;
  SMTPFrom : string
}.

Record Config := {
  SMTP : SMTPConfig;
  Domains : list string;
  Threshold : Z
}.

Record Domain := {
  CommonName : string;
  DNSNames : list string;
  Expires : string;
  IsExpiringSoon : bool;
  Summary : string
}.

(** The command line after flag.Parse. *)
Record Flags := {
  summaryFlag : bool;
  debugFlag : bool;
  jsonFlag : bool;
  printFlag : bool
}.

Inductive Level := LevelDebug | LevelInfo | LevelWarn | LevelError.

Definition levelValue (l : Level) : Z :=
  match l with
  | LevelDebug => -4
  | LevelInfo => 0
  | LevelWarn => 4
  | LevelError => 8
  end.

Inductive AttrValue :=
| AString (s : string)
| ADomain (d : Domain).

(** What the program does to the outside, in order. *)
Inductive Event :=
| EvNow (t : GoTime.Time)
| EvConnect (host port : string) (config : TLSConfig) (dialer : Dialer)
| EvDial (network addr : string) (r : Result ConnectionState)
| EvClose (addr : string)
| EvSend (server : string) (port : Z) (m : Message) (r : option error)
| EvLog (json : bool) (l : Level) (msg : string)
        (attrs : list (string * AttrValue))
| EvStdout (s : string).

(** The collaborators: the clock, the network and the SMTP server, each
    answering from a state [W] of the outside world. *)
Class Host (W : Type) := {
  hostNow : W -> GoTime.Time * W;
  hostConnect :
    W -> string -> string -> TLSConfig -> Dialer -> Result ConnectionState * W;
  hostSend : W -> string -> Z -> Message -> option error * W
}.

(** The state of a run: the outside world, the default logger, the trace. *)
Record St (W : Type) := {
  world : W;
  programLevel : Level;
  handlerJSON : bool;
  trace : list Event
}.
Arguments world {W} s.
Arguments programLevel {W} s.
Arguments handlerJSON {W} s.
Arguments trace {W} s.

(** A call returns or panics. *)
Inductive Outcome (A : Type) : Type :=
| Returns (a : A)
| Panics (msg : string).
Arguments Returns {A} a.
Arguments Panics {A} msg.

Definition M (W A : Type) : Type := St W -> Outcome A * St W.

Definition ret {W A} (a : A) : M W A := fun st => (Returns a, st).

Definition bind {W A B} (c : M W A) (k : A -> M W B) : M W B :=
  fun st =>
    match c st with
    | (Returns a, st') => k a st'
    | (Panics msg, st') => (Panics msg, st')
    end.

Definition panic {W A} (msg : string) : M W A := fun st => (Panics msg, st).

Notation "x <- c1 ;; c2" := (bind c1 (fun x => c2))
  (at level 61, c1 at next level, right associativity).
Notation "c1 ;; c2" := (bind c1 (fun _ => c2))
  (at level 61, right associativity).

Definition emit {W} (e : Event) : M W unit :=
  fun st =>
    (Returns tt,
     {| world := world st; programLevel := programLevel st;
        handlerJSON := handlerJSON st; trace := trace st ++ [e] |}).

(** defer: [d] runs when [body] is left, also by a panic. *)
Definition defer {W A} (d : M W unit) (body : M W A) : M W A :=
  fun st =>
    let '(r, st1) := body st in
    let '(_, st2) := d st1 in
    (r, st2).

(** ** The program *)

Section Program.
Context {W : Type} {H : Host W}.
Import GoStrings GoTime GoTimeFormat GoNet.

(** The calls into the outside world. *)

Definition withWorld {A} (f : W -> A * W) : M W A :=
  fun st =>
    let '(a, w) := f (world st) in
    (Returns a,
     {| world := w; programLevel := programLevel st;
        handlerJSON := handlerJSON st; trace := trace st |}).

(** time.Now *)
Definition timeNow : M W Time :=
  t <- withWorld hostNow ;;
  emit (EvNow t) ;;
  ret t.

(** tls.DialWithDialer: the address is split into host and port before
    anything is sent. *)
Definition tlsDialWithDialer (dialer : Dialer) (network addr : string)
           (config : TLSConfig) : M W (Result Conn) :=
  r <- match SplitHostPort addr with
       | Err e => ret (Err (dialError network e))
       | Ok (host, port) =>
           emit (EvConnect host port config dialer) ;;
           withWorld (fun w => hostConnect w host port config dialer)
       end ;;
  emit (EvDial network addr r) ;;
  match r with
  | Err e => ret (Err e)
  | Ok cs => ret (Ok {| RemoteAddr := addr; State := cs |})
  end.

(** tls.Dial: DialWithDialer with new(net.Dialer). *)
Definition tlsDial (network addr : string) (config : TLSConfig)
  : M W (Result Conn) :=
  tlsDialWithDialer {| Timeout := 0 |} network addr config.

Definition connClose (conn : Conn) : M W unit :=
  emit (EvClose (RemoteAddr conn)).

(** gomail's Dialer.DialAndSend *)
Definition DialAndSend (server : string) (port : Z) (m : Message)
  : M W (option error) :=
  r <- withWorld (fun w => hostSend w server port m) ;;
  emit (EvSend server port m r) ;;
  ret r.

(** fmt.Println *)
Definition Println (s : string) : M W unit := emit (EvStdout (s +++ nl)).

(** The default logger: a record below the level of the handler is
    dropped. *)
Definition slogLog (l : Level) (msg : string)
           (attrs : list (string * AttrValue)) : M W unit :=
  fun st =>
    if levelValue (programLevel st) <=? levelValue l
    then emit (EvLog (handlerJSON st) l msg attrs) st
    else (Returns tt, st).

Definition slogDebug := slogLog LevelDebug.
Definition slogError := slogLog LevelError.

Definition setLevel (l : Level) : M W unit :=
  fun st =>
    (Returns tt,
     {| world := world st; programLevel := l;
        handlerJSON := handlerJSON st; trace := trace st |}).

Definition setHandler (json : bool) : M W unit :=
  fun st =>
    (Returns tt,
     {| world := world st; programLevel := programLevel st;
        handlerJSON := json; trace := trace st |}).

(** s[0] of a slice: a run-time panic when it is empty. *)
Definition first {A} (s : list A) : M W A :=
  match s with
  | a :: _ => ret a
  | [] => panic "runtime error: index out of range [0] with length 0"
  end.

(** func isDateWithinDays(ctx, targetDate string, days int) bool *)
Definition isDateWithinDays (targetDate : string) (days : Z) : M W bool :=
  today <- timeNow ;;
  let '(expires, err) := Parse targetDate in
  match err with
  | Some e =>
      slogError ("failed to parse expiration date: " +++ ErrorText e +++ nl) []
  | None => ret tt
  end ;;
  (* is the cert within days of expiring? *)
  ret (After (AddDate today 0 0 days) expires).

(** The loop of getDomain over d.DNSNames. *)
Fixpoint appendDNSNames (summary : list string) (names : list string)
  : list string :=
  match names with
  | [] => summary
  | dnsName :: rest => appendDNSNames (summary ++ ["    " +++ dnsName]) rest
  end.

(** func getDomain(ctx, domain string), returning a Domain or an error *)
Definition getDomain (config : Config) (domain : string)
  : M W (Result Domain) :=
  let summary : list string := [] in
  let tlsConfig := {| InsecureSkipVerify := true |} in
  r <- tlsDial "tcp" (domain +++ ":443") tlsConfig ;;
  match r with
  | Err err => ret (Err err)
  | Ok conn =>
      defer (connClose conn)
        (cert <- first (PeerCertificates (State conn)) ;;
         let commonName := SubjectCommonName cert in
         let dnsNames := CertDNSNames cert in
         let expires := Format (NotAfter cert) in
         (* If the cert is within configured days of expiry *)
         within <- isDateWithinDays expires (Threshold config) ;;
         let isExpiringSoon := if within then true else false in
         (* build summary *)
         let summary := summary ++ [commonName] in
         let summary :=
           summary ++ ["  Expiring Soon: " +++ fmtBool isExpiringSoon] in
         let summary := summary ++ ["  Expires:       " +++ expires] in
         let summary := summary ++ ["  DNS Alt Names:"] in
         let summary := appendDNSNames summary dnsNames in
         ret (Ok {| CommonName := commonName;
                    DNSNames := dnsNames;
                    Expires := expires;
                    IsExpiringSoon := isExpiringSoon;
                    Summary := Join summary nl |}))
  end.

(** func sendEmail(ctx, subject string, contents string) *)
Definition sendEmail (config : Config) (subject contents : string)
  : M W unit :=
  let m := {| From := SMTPFrom (SMTP config);
              To := SMTPTo (SMTP config);
              Subject := subject;
              ContentType := "text/plain";
              Body := contents |} in
  slogDebug "sending email"
            [("subject", AString subject); ("contents", AString contents)] ;;
  r <- DialAndSend (Server (SMTP config)) (Port (SMTP config)) m ;;
  match r with
  | Some err => slogError "failed to send email" [("error", AString err)]
  | None => ret tt
  end.

(** The first loop of main: check each domain and email if necessary. *)
Fixpoint checkDomains (config : Config) (flags : Flags)
         (cfgDomains : list string) (domains : list Domain)
  : M W (list Domain) :=
  match cfgDomains with
  | [] => ret domains
  | cfgDomain :: rest =>
      slogDebug ("checking domain: " +++ cfgDomain) [] ;;
      r <- getDomain config cfgDomain ;;
      match r with
      | Err err =>
          slogError "failed to dial domain" [("error", AString err)] ;;
          checkDomains config flags rest domains
      | Ok domain =>
          slogDebug "domain" [("domain", ADomain domain)] ;;
          let domains := domains ++ [domain] in
          (if IsExpiringSoon domain && negb (printFlag flags) then
             let subject := "certificate expiration warning: " +++ cfgDomain in
             sendEmail config subject (Summary domain)
           else ret tt) ;;
          checkDomains config flags rest domains
      end
  end.

(** The second loop of main, over the domains that answered. *)
Fixpoint appendSummaries (summaryLines : list string) (domains : list Domain)
  : list string :=
  match domains with
  | [] => summaryLines
  | domain :: rest =>
      appendSummaries ((summaryLines ++ [Summary domain]) ++ [EmptyString]) rest
  end.

(** func main(), from the configuration on: [config] is what was read
    from the file and [flags] the command line. *)
Definition main (config : Config) (flags : Flags) : M W unit :=
  (* Configure logging *)
  setLevel LevelWarn ;;
  setHandler (jsonFlag flags) ;;
  (if debugFlag flags then setLevel LevelDebug else ret tt) ;;
  (* check each domain and email if necessary *)
  domains <- checkDomains config flags (Domains config) [] ;;
  (* email the summary if requested *)
  if summaryFlag flags then
    let summaryLines := appendSummaries [] domains in
    let summary := Join summaryLines nl in
    if printFlag flags then Println summary
    else
      let subject := "certificate summary" in
      sendEmail config subject summary
  else ret tt.

(** The state main starts in: nothing done yet, slog's default logger. *)
Definition start (w : W) : St W :=
  {| world := w; programLevel := LevelInfo; handlerJSON := false;
     trace := [] |}.

End Program.

(** ** A scripted outside world, for the examples *)

(** The clock stands still at [scriptNow]; the hosts of [scriptSites]
    answer on port 443 with a leaf certificate and the rest of the chain,
    every other dial fails; every mail is answered with [scriptMail]. *)
Record Script := {
  scriptNow : GoTime.Time;
  scriptSites : list (string * (Certificate * list Certificate));
  scriptMail : option error
}.

Fixpoint lookupSite (sites : list (string * (Certificate * list Certificate)))
         (host : string) : Result ConnectionState :=
  match sites with
  | [] => Err ("dial tcp: lookup " +++ host +++ ": no such host")
  | (h, (leaf, chain)) :: rest =>
      if String.eqb h host then Ok {| PeerCertificates := leaf :: chain |}
      else lookupSite rest host
  end.

#[export] Instance scriptHost : Host Script := {|
  hostNow w := (scriptNow w, w);
  hostConnect w host port _ _ :=
    (if String.eqb port "443" then lookupSite (scriptSites w) host
     else Err ("dial tcp " +++ host +++ ":" +++ port
               +++ ": connect: connection refused"),
     w);
  hostSend w _ _ _ := (scriptMail w, w)
|}.

Definition certExample : Certificate :=
  {| SubjectCommonName := "example.com";
     CertDNSNames := ["example.com"; "www.example.com"];
     NotAfter := GoTime.Date 2024 1 10 23 59 59 0 GoTime.UTC |}.

Definition certOther : Certificate :=
  {| SubjectCommonName := "other.test";
     CertDNSNames := ["b.other.test"; "a.other.test"];
     NotAfter := GoTime.Date 2025 6 30 12 0 0 0 GoTime.UTC |}.

Definition sitesExample : list (string * (Certificate * list Certificate)) :=
  [("example.com", (certExample, [])); ("other.test", (certOther, []))].

Definition configExample : Config :=
  {| SMTP := {| Server := "smtp.test"; Port := 25;
                SMTPTo := ["ops@example.com"];
                SMTPFrom := "cert-monitor@example.com" |};
     Domains := ["example.com"; "down.test"; "other.test"];
     Threshold := 30 |}.

(** 2023-12-15 12:00:00 UTC *)
Definition noonDec15 : GoTime.Time := GoTime.Date 2023 12 15 12 0 0 0 GoTime.UTC.

Definition scriptExample (mail : option error) : Script :=
  {| scriptNow := noonDec15; scriptSites := sitesExample; scriptMail := mail |}.

(** ** What the properties are stated with *)

Module Calendar.
Import GoTime.

(** Days from 1970-01-01 to the first of January of [year]. *)
Definition yearStart (year : Z) : Z :=
  let y := year - 1 in
  365 * y + y / 4 - y / 100 + y / 400 - 719162.

(** The day number (days since 1970-01-01) of a civil date. *)
Definition dayNumber (year month day : Z) : Z :=
  yearStart year + daysBefore (month - 1)
  + (if isLeap year && (3 <=? month) then 1 else 0) + (day - 1).

Definition yearLength (year : Z) : Z := if isLeap year then 366 else 365.

(** Days from the absolute epoch to 1970-01-01. *)
Definition absoluteUnixDay : Z := 106751991073094.

(** How far from the Unix epoch, in seconds, the properties reach: some
    285 billion years, short of where seconds of 64 bits wrap around. *)
Definition reach : Z := 9000000000000000000.

(** A reading of the clock, within reach. *)
Definition validTime (t : Time) : Prop :=
  0 <= nsec t < 1000000000 /\ - reach <= unixSec t <= reach.

(** [days] days of 24 hours from [t] is within reach. *)
Definition inReach (t : Time) (days : Z) : Prop :=
  - reach <= unixSec t + days * secondsPerDay <= reach.

(** The offsets of the location fit in 32 bits, as those of a zone file
    do. *)
Definition validZone (l : Location) : Prop :=
  forall s, -2147483648 <= fst (fst (lookup l s)) <= 2147483647.

(** The instant AddDate(0, 0, days) makes of [t]: the wall clock of [t],
    [days] times 24 hours on, read back in the location of [t] as
    time.Date reads a wall clock. *)
Definition shifted (t : Time) (days : Z) : Time :=
  {| unixSec := zoneUnix (loc t) (wallSec t + days * secondsPerDay);
     nsec := nsec t; loc := loc t |}.


(** The calendar day of an instant, in UTC and on the wall clock of its
    location. *)
Definition utcDay (t : Time) : Z := unixSec t / secondsPerDay.
Definition localDay (t : Time) : Z := wallSec t / secondsPerDay.


(** [p] holds of n, n+1, ..., n+fuel-1. *)
Fixpoint allFrom (fuel : nat) (n : Z) (p : Z -> bool) : bool :=
  match fuel with
  | O => true
  | S fuel' => p n && allFrom fuel' (n + 1) p
  end.

(** monthDay is right on day [yday] of a year: month and day are in
    range and count back to [yday]. *)
Definition monthDayOk (leap : bool) (yday : Z) : bool :=
  let '(m, d) := monthDay leap yday in
  (1 <=? m) && (m <=? 12) && (1 <=? d)
  && (d <=? (if (m =? 2) && leap then 29
             else daysBefore m - daysBefore (m - 1)))
  && (daysBefore (m - 1) + (if leap && (3 <=? m) then 1 else 0) + (d - 1)
      =? yday).

End Calendar.

(** The decision of isDateWithinDays, without the clock and the log. *)
Definition withinDays (now : GoTime.Time) (targetDate : string) (days : Z)
  : bool :=
  GoTime.After (GoTime.AddDate now 0 0 days)
               (fst (GoTimeFormat.Parse targetDate)).

(** ** Runs, as the properties describe them *)

(** What the default logger writes for a record of level [l] when the
    handler is at [level]. *)
Definition logged (level : Level) (json : bool) (l : Level) (msg : string)
           (attrs : list (string * AttrValue)) : list Event :=
  if levelValue level <=? levelValue l then [EvLog json l msg attrs] else [].

(** The state [st] after the world moved to [w] and [events] happened. *)
Definition after {W} (st : St W) (w : W) (events : list Event) : St W :=
  {| world := w; programLevel := programLevel st;
     handlerJSON := handlerJSON st; trace := trace st ++ events |}.

(** The record isDateWithinDays logs for a date that does not parse. *)
Definition parseLog (level : Level) (json : bool) (targetDate : string)
  : list Event :=
  match snd (GoTimeFormat.Parse targetDate) with
  | Some e =>
      logged level json LevelError
             ("failed to parse expiration date: " +++ GoTimeFormat.ErrorText e
              +++ nl) []
  | None => []
  end.

Fixpoint appendAll (l : list string) : string :=
  match l with
  | [] => EmptyString
  | s :: rest => s +++ appendAll rest
  end.

(** The summary of a domain, written out: four lines, then one line per
    alternate name, in the order given. *)
Definition render (commonName : string) (isExpiringSoon : bool)
           (expires : string) (dnsNames : list string) : string :=
  commonName +++ nl
  +++ "  Expiring Soon: " +++ GoStrings.fmtBool isExpiringSoon +++ nl
  +++ "  Expires:       " +++ expires +++ nl
  +++ "  DNS Alt Names:"
  +++ appendAll (map (fun dnsName => nl +++ "    " +++ dnsName) dnsNames).

(** The Domain getDomain makes of a leaf certificate read at [now]. *)
Definition buildDomain (threshold : Z) (cert : Certificate)
           (now : GoTime.Time) : Domain :=
  let expires := GoTimeFormat.Format (NotAfter cert) in
  let isExpiringSoon := withinDays now expires threshold in
  {| CommonName := SubjectCommonName cert;
     DNSNames := CertDNSNames cert;
     Expires := expires;
     IsExpiringSoon := isExpiringSoon;
     Summary := render (SubjectCommonName cert) isExpiringSoon expires
                       (CertDNSNames cert) |}.

(** The body of the aggregate summary for the domains that answered. *)
Definition summaryBody (domains : list Domain) : string :=
  GoStrings.Join (flat_map (fun d => [Summary d; EmptyString]) domains) nl.

(** One configured endpoint in a run: the dial failed with [err], or the
    handshake presented [leaf :: chain], the clock read [now], and the alert,
    if one was sent, was answered with [delivery]. *)
Inductive Probe :=
| Unreachable (endpoint : string) (err : error)
| Probed (endpoint : string) (leaf : Certificate) (chain : list Certificate)
         (now : GoTime.Time) (delivery : option (option error)).

Definition endpointOf (p : Probe) : string :=
  match p with
  | Unreachable endpoint _ => endpoint
  | Probed endpoint _ _ _ _ => endpoint
  end.

Definition answerOf (p : Probe) : Result ConnectionState :=
  match p with
  | Unreachable _ err => Err err
  | Probed _ leaf chain _ _ => Ok {| PeerCertificates := leaf :: chain |}
  end.

Definition domainOf (threshold : Z) (p : Probe) : list Domain :=
  match p with
  | Unreachable _ _ => []
  | Probed _ leaf _ now _ => [buildDomain threshold leaf now]
  end.

Definition domainsOf (threshold : Z) (probes : list Probe) : list Domain :=
  flat_map (domainOf threshold) probes.

Definition alertSubject (endpoint : string) : string :=
  "certificate expiration warning: " +++ endpoint.

Definition summarySubject : string := "certificate summary".

(** An alert goes out for a domain that expires soon, unless printing. *)
Definition alerted (flags : Flags) (d : Domain) : bool :=
  IsExpiringSoon d && negb (printFlag flags).

(** The probe is one the loop of main can make under [flags]. *)
Definition consistent (config : Config) (flags : Flags) (p : Probe) : Prop :=
  match p with
  | Unreachable _ _ => True
  | Probed _ leaf _ now delivery =>
      alerted flags (buildDomain (Threshold config) leaf now) = true
      <-> delivery <> None
  end.

Definition connectEvents (endpoint : string) : list Event :=
  match GoNet.SplitHostPort (endpoint +++ ":443") with
  | Ok (host, port) =>
      [EvConnect host port {| InsecureSkipVerify := true |} {| Timeout := 0 |}]
  | Err _ => []
  end.

(** The events of one sendEmail answered with [r]. *)
Definition mailEvents (config : Config) (level : Level) (json : bool)
           (subject contents : string) (r : option error) : list Event :=
  logged level json LevelDebug "sending email"
         [("subject", AString subject); ("contents", AString contents)]
  ++ [EvSend (Server (SMTP config)) (Port (SMTP config))
             {| From := SMTPFrom (SMTP config); To := SMTPTo (SMTP config);
                Subject := subject; ContentType := "text/plain";
                Body := contents |} r]
  ++ match r with
     | Some err =>
         logged level json LevelError "failed to send email"
                [("error", AString err)]
     | None => []
     end.

(** The events of one turn of the loop of main. *)
Definition probeEvents (config : Config) (level : Level) (json : bool)
           (p : Probe) : list Event :=
  match p with
  | Unreachable endpoint err =>
      logged level json LevelDebug ("checking domain: " +++ endpoint) []
      ++ connectEvents endpoint
      ++ [EvDial "tcp" (endpoint +++ ":443") (Err err)]
      ++ logged level json LevelError "failed to dial domain"
                [("error", AString err)]
  | Probed endpoint leaf chain now delivery =>
      let d := buildDomain (Threshold config) leaf now in
      logged level json LevelDebug ("checking domain: " +++ endpoint) []
      ++ connectEvents endpoint
      ++ [EvDial "tcp" (endpoint +++ ":443")
                 (Ok {| PeerCertificates := leaf :: chain |})]
      ++ [EvNow now]
      ++ parseLog level json (GoTimeFormat.Format (NotAfter leaf))
      ++ [EvClose (endpoint +++ ":443")]
      ++ logged level json LevelDebug "domain" [("domain", ADomain d)]
      ++ match delivery with
         | Some r =>
             mailEvents config level json (alertSubject endpoint) (Summary d) r
         | None => []
         end
  end.

(** The events of the end of main: the summary, printed or mailed. *)
Definition summaryEvents (config : Config) (flags : Flags) (level : Level)
           (json : bool) (body : string) (r : option error) : list Event :=
  if summaryFlag flags then
    if printFlag flags then [EvStdout (body +++ nl)]
    else mailEvents config level json summarySubject body r
  else [].

(** The level main leaves the logger at. *)
Definition levelOf (flags : Flags) : Level :=
  if debugFlag flags then LevelDebug else LevelWarn.

(** Every handshake that succeeds presents a certificate, as the client
    of crypto/tls has it. *)
Definition presentsChain (W : Type) {H : Host W} : Prop :=
  forall w host port config dialer cs w',
    hostConnect w host port config dialer = (Ok cs, w') ->
    PeerCertificates cs <> [].

(** ** What a trace shows *)

(** The dials, with the answers. *)
Definition dials (tr : list Event) : list (string * Result ConnectionState) :=
  flat_map (fun e => match e with
                     | EvDial _ addr r => [(addr, r)]
                     | _ => []
                     end) tr.

(** The connections asked of the network: host, port, timeout. *)
Definition connects (tr : list Event) : list (string * string * Z) :=
  flat_map (fun e => match e with
                     | EvConnect host port _ dialer =>
                         [(host, port, Timeout dialer)]
                     | _ => []
                     end) tr.

(** The mails handed to the SMTP server: subject and body. *)
Definition mails (tr : list Event) : list (string * string) :=
  flat_map (fun e => match e with
                     | EvSend _ _ m _ => [(Subject m, Body m)]
                     | _ => []
                     end) tr.

(** The errors the SMTP server answered with. *)
Definition deliveryErrors (tr : list Event) : list error :=
  flat_map (fun e => match e with
                     | EvSend _ _ _ (Some err) => [err]
                     | _ => []
                     end) tr.

(** What was written to standard output. *)
Definition printed (tr : list Event) : list string :=
  flat_map (fun e => match e with
                     | EvStdout s => [s]
                     | _ => []
                     end) tr.

(** The error attribute of the records logged at level Error with the
    message [msg]. *)
Definition errorsLogged (msg : string) (tr : list Event) : list error :=
  flat_map (fun e => match e with
                     | EvLog _ LevelError m [(_, AString err)] =>
                         if String.eqb m msg then [err] else []
                     | _ => []
                     end) tr.

(** The errors among the answers to the dials. *)
Definition dialErrors (tr : list Event) : list error :=
  flat_map (fun d => match snd d with
                     | Err err => [err]
                     | Ok _ => []
                     end) (dials tr).

(** The times the clock was read at. *)
Definition clockReads (tr : list Event) : list GoTime.Time :=
  flat_map (fun e => match e with
                     | EvNow t => [t]
                     | _ => []
                     end) tr.

(** The bodies of the mails sent under [subject]. *)
Definition mailedAs (subject : string) (tr : list Event) : list string :=
  flat_map (fun m => if String.eqb (fst m) subject then [snd m] else [])
           (mails tr).

(** What a probe shows in the trace of a run. *)
Definition dialOf (p : Probe) : string * Result ConnectionState :=
  (endpointOf p +++ ":443", answerOf p).

Definition clockOf (p : Probe) : list GoTime.Time :=
  match p with
  | Unreachable _ _ => []
  | Probed _ _ _ now _ => [now]
  end.

(** The endpoints that answered, each with its Domain. *)
Definition answered (threshold : Z) (probes : list Probe)
  : list (string * Domain) :=
  flat_map (fun p => match p with
                     | Unreachable _ _ => []
                     | Probed endpoint leaf _ now _ =>
                         [(endpoint, buildDomain threshold leaf now)]
                     end) probes.

(** The alert for an endpoint that answered. *)
Definition alertFor (ed : string * Domain) : string * string :=
  (alertSubject (fst ed), Summary (snd ed)).

(** No dial of the trace was answered with a connection. *)
Definition allDialsFailed (tr : list Event) : Prop :=
  forall addr cs, ~ In (addr, Ok cs) (dials tr).

(** The run of main from the state [w] of the world: what it returns, and
    its trace. *)
Definition outcomeOf {W} {H : Host W} (config : Config) (flags : Flags) (w : W)
  : Outcome unit :=
  fst (main config flags (start w)).

Definition traceOf {W} {H : Host W} (config : Config) (flags : Flags) (w : W)
  : list Event :=
  trace (snd (main config flags (start w))).

(** The errors of the dials that failed, in a list of probes. *)
Definition probeErrors (probes : list Probe) : list error :=
  flat_map (fun p => match p with
                     | Unreachable _ err => [err]
                     | Probed _ _ _ _ _ => []
                     end) probes.

Definition flagsExample (summary print : bool) : Flags :=
  {| summaryFlag := summary; debugFlag := false; jsonFlag := false;
     printFlag := print |}.

(** A configuration none of whose domains answers in the scripted world. *)
Definition configDown : Config :=
  {| SMTP := SMTP configExample;
     Domains := ["down.test"; "gone.test"];
     Threshold := 30 |}.

(** The scripted world with the clock at [now]. *)
Definition scriptAt (now : GoTime.Time) : Script :=
  {| scriptNow := now; scriptSites := sitesExample; scriptMail := None |}.

(** 2024-01-10 00:00:00.000000000 UTC *)
Definition midnightJan10 : GoTime.Time := GoTime.Date 2024 1 10 0 0 0 0 GoTime.UTC.

(** 2024-01-10 00:30:00 in a zone fourteen hours east of UTC, which is
    2024-01-09 10:30:00 UTC. *)
Definition earlyJan10East : GoTime.Time :=
  GoTime.Date 2024 1 10 0 30 0 0 (GoTime.FixedZone "+14" 50400).

(** A location like America/New_York in 2024: five hours west of UTC,
    and four from 2024-03-10 07:00:00 UTC to 2024-11-03 06:00:00 UTC. *)
Definition newYork2024 : GoTime.Location :=
  {| GoTime.locName := "America/New_York";
     GoTime.lookup := fun sec =>
       if sec <? 1710054000 then (-18000, GoTime.alpha, 1710054000)
       else if sec <? 1730613600 then (-14400, 1710054000, 1730613600)
       else (-18000, 1730613600, GoTime.omega) |}.


(** 2024-03-09 19:30:00 in New York, which is 2024-03-10 00:30:00 UTC, on
    a clock in New York and on a clock that stays five hours west of
    UTC. *)
Definition eveMar9NewYork : GoTime.Time :=
  {| GoTime.unixSec := 1710030600; GoTime.nsec := 0;
     GoTime.loc := newYork2024 |}.

Definition eveMar9EST : GoTime.Time :=
  {| GoTime.unixSec := 1710030600; GoTime.nsec := 0;
     GoTime.loc := GoTime.FixedZone "EST" (-18000) |}.

(** The endpoint is a bare host name: no colon and no bracket. *)
Definition bareHost (endpoint : string) : bool :=
  (GoStrings.IndexByteString endpoint ":" <? 0)
  && (GoStrings.IndexByteString endpoint "[" <? 0)
  && (GoStrings.IndexByteString endpoint "]" <? 0).

(** The endpoint has a colon, as host:port has, and is not an address in
    brackets. *)
Definition hasPort (endpoint : string) : bool :=
  (0 <=? GoStrings.IndexByteString endpoint ":")
  && negb (GoStrings.byteIs endpoint 0 "[").

(** A network where every host answers on every port. *)
Definition openHost : Host unit := {|
  hostNow w := (noonDec15, w);
  hostConnect w host port _ _ :=
    (Ok {| PeerCertificates := [certExample] |}, w);
  hostSend w _ _ _ := (None, w)
|}.

(** The connections closed: their addresses. *)
Definition closes (tr : list Event) : list string :=
  flat_map (fun e => match e with
                     | EvClose addr => [addr]
                     | _ => []
                     end) tr.

(** The addresses of the dials that were answered with a connection. *)
Definition opened (tr : list Event) : list string :=
  flat_map (fun d : string * Result ConnectionState =>
              match snd d with
              | Ok _ => [fst d]
              | Err _ => []
              end) (dials tr).

(** The hand-overs to the SMTP server: server, port and message. *)
Definition sends (tr : list Event) : list (string * Z * Message) :=
  flat_map (fun e => match e with
                     | EvSend server port m _ => [(server, port, m)]
                     | _ => []
                     end) tr.

(** The message is from and to the addresses of the configuration, as
    plain text, and goes to the server of the configuration. *)
Definition configuredMail (config : Config) (s : string * Z * Message) : Prop :=
  fst (fst s) = Server (SMTP config)
  /\ snd (fst s) = Port (SMTP config)
  /\ From (snd s) = SMTPFrom (SMTP config)
  /\ To (snd s) = SMTPTo (SMTP config)
  /\ ContentType (snd s) = "text/plain".

(** The log records: handler format and level. *)
Definition logRecords (tr : list Event) : list (bool * Level) :=
  flat_map (fun e => match e with
                     | EvLog json l _ _ => [(json, l)]
                     | _ => []
                     end) tr.

(** A network whose handshakes present no certificate. *)
Definition emptyChainHost : Host unit := {|
  hostNow w := (noonDec15, w);
  hostConnect w host port _ _ := (Ok {| PeerCertificates := [] |}, w);
  hostSend w _ _ _ := (None, w)
|}.

(** A log record of a run: written by the handler [json], at level
    Error, or at level Debug when the handler lets Debug through. *)
Definition runLog (level : Level) (json : bool) (e : Event) : Prop :=
  match e with
  | EvLog j l _ _ =>
      j = json /\ (l = LevelError \/ (l = LevelDebug /\ level = LevelDebug))
  | _ => True
  end.

(** ** The start of main: the configuration *)

(** What main asks of the operating system and of the YAML library before
    the loop: os.LookupEnv, os.ReadFile, and yaml.Unmarshal into a Config. *)
Record Startup := {
  LookupEnv : string -> option string;
  ReadFile : string -> Result string;
  Unmarshal : string -> Result Config
}.

(** func getConfigPath(configFlag string) string: the flag, then the
    environment, then the default. *)
Definition getConfigPath (os : Startup) (configFlag : string) : string :=
  let defaultConfigFilePath := "/etc/cert-monitor/config.yml" in
  if negb (String.eqb configFlag EmptyString) then configFlag
  else
    match LookupEnv os "CERT_MONITOR_CONFIG_PATH" with
    | Some configFilePath => configFilePath
    | None => defaultConfigFilePath
    end.

(** func main(), whole, after flag.Parse: the value returned is the exit
    status, 1 where the code calls os.Exit(1) and 0 where main returns. *)
Definition mainProcess {W} {H : Host W} (os : Startup) (configFlag : string)
           (flags : Flags) : M W Z :=
  (* Configure logging *)
  setLevel LevelWarn ;;
  setHandler (jsonFlag flags) ;;
  (if debugFlag flags then setLevel LevelDebug else ret tt) ;;
  (* Load config and store in ctx *)
  let configFilePath := getConfigPath os configFlag in
  match ReadFile os configFilePath with
  | Err _ =>
      slogError ("failed to read config file: " +++ configFilePath +++ nl) [] ;;
      ret 1
  | Ok d =>
      match Unmarshal os d with
      | Err err =>
          slogError ("failed to parse config file: " +++ err +++ nl) [] ;;
          ret 1
      | Ok config =>
          (* check each domain and email if necessary *)
          domains <- checkDomains config flags (Domains config) [] ;;
          (* email the summary if requested *)
          (if summaryFlag flags then
             let summaryLines := appendSummaries [] domains in
             let summary := GoStrings.Join summaryLines nl in
             if printFlag flags then Println summary
             else
               let subject := "certificate summary" in
               sendEmail config subject summary
           else ret tt) ;;
          ret 0
      end
  end.

(** The configuration main runs with, when the file is read and parses. *)
Definition loaded (os : Startup) (configFlag : string) : option Config :=
  match ReadFile os (getConfigPath os configFlag) with
  | Ok d =>
      match Unmarshal os d with
      | Ok config => Some config
      | Err _ => None
      end
  | Err _ => None
  end.

(** An operating system with the file at [path] only, which parses to
    configExample, and with the environment [env]. *)
Definition startupExample (path : string) (env : option string) : Startup :=
  {| LookupEnv key :=
       if String.eqb key "CERT_MONITOR_CONFIG_PATH" then env else None;
     ReadFile name :=
       if String.eqb name path then Ok "domains: [example.com]"
       else Err ("open " +++ name +++ ": no such file or directory");
     Unmarshal d :=
       if String.eqb d "domains: [example.com]" then Ok configExample
       else Err "yaml: unmarshal errors" |}.

(** ** Dates in the layout 2006-01-02, digit by digit *)

(** The four digits of a year from 0 to 9999, and the two digits of a
    month or a day. *)
Definition digits4 (y : Z) : string :=
  String (GoStrings.digitChar (y / 1000))
    (String (GoStrings.digitChar (y / 100 mod 10))
       (String (GoStrings.digitChar (y / 10 mod 10))
          (String (GoStrings.digitChar (y mod 10)) EmptyString))).

Definition digits2 (x : Z) : string :=
  String (GoStrings.digitChar (x / 10))
    (String (GoStrings.digitChar (x mod 10)) EmptyString).

(** The year of a Time, on the calendar of its location. *)
Definition yearOf (t : GoTime.Time) : Z := fst (fst (GoTime.DateOf t)).

(** 00:00:00 UTC of the day numbered [day]. *)
Definition midnightUTC (day : Z) : GoTime.Time :=
  {| GoTime.unixSec := day * GoTime.secondsPerDay; GoTime.nsec := 0;
     GoTime.loc := GoTime.UTC |}.

(** The messages of the records logged at level Error. *)
Definition errorMessages (tr : list Event) : list string :=
  flat_map (fun e => match e with
                     | EvLog _ LevelError msg _ => [msg]
                     | _ => []
                     end) tr.

(** Every leaf certificate the dials were answered with has a year of
    four digits, as the validity of an X.509 certificate has. *)
Definition fourDigitYears (tr : list Event) : Prop :=
  forall addr leaf chain,
    In (addr, Ok {| PeerCertificates := leaf :: chain |}) (dials tr) ->
    0 <= yearOf (NotAfter leaf) <= 9999.

(** The host has no bracket in it, as an IPv6 literal has none. *)
Definition noBrackets (host : string) : bool :=
  (GoStrings.IndexByteString host "[" <? 0)
  && (GoStrings.IndexByteString host "]" <? 0).

(** The event is a record of the log. *)
Definition isLog (e : Event) : bool :=
  match e with
  | EvLog _ _ _ _ => true
  | _ => false
  end.

(** What a run did apart from logging: the trace without the records of
    the log. *)
Definition effects (tr : list Event) : list Event :=
  filter (fun e => negb (isLog e)) tr.

(** Two states that differ in the logger and the log at most. *)
Definition sameEffects {W} (st1 st2 : St W) : Prop :=
  world st1 = world st2 /\ effects (trace st1) = effects (trace st2).

(** Two computations that, from such states, end alike in such states. *)
Definition alike {W A} (c1 c2 : M W A) : Prop :=
  forall st1 st2,
    sameEffects st1 st2 ->
    fst (c1 st1) = fst (c2 st2) /\ sameEffects (snd (c1 st1)) (snd (c2 st2)).

(** The command line with -debug and -json. *)
Definition flagsDebugJSON (summary print : bool) : Flags :=
  {| summaryFlag := summary; debugFlag := true; jsonFlag := true;
     printFlag := print |}.

(** * Proofs *)

(** ** The calendar of package time *)

Section WordFacts.
Import GoTime.

Lemma uint64_small (x : Z) : 0 <= x < 18446744073709551616 -> uint64 x = x.
Proof. intros Hx. unfold uint64. now apply Z.mod_small. Qed.

Lemma int64_small (x : Z) :
  -9223372036854775808 <= x < 9223372036854775808 -> int64 x = x.
Proof. intros Hx. unfold int64. rewrite Z.mod_small; lia. Qed.

Lemma uint64_range (x : Z) : 0 <= uint64 x < 18446744073709551616.
Proof. unfold uint64. apply Z.mod_pos_bound. reflexivity. Qed.

Lemma int64_range (x : Z) :
  -9223372036854775808 <= int64 x < 9223372036854775808.
Proof.
  unfold int64.
  pose proof (Z.mod_pos_bound (x + 9223372036854775808) 18446744073709551616
                ltac:(reflexivity)).
  lia.
Qed.
End WordFacts.

Section CalendarFacts.
Import GoTime Calendar.

Lemma norm_in_range (hi lo base : Z) :
  0 <= lo < base -> norm hi lo base = (hi, lo).
Proof.
  intros Hlo. unfold norm.
  destruct (Z.ltb_spec lo 0) as [Hneg|_]; [lia|].
  destruct (Z.leb_spec base lo) as [Hbig|_]; [lia|reflexivity].
Qed.

Lemma allFrom_spec (fuel : nat) :
  forall n p, allFrom fuel n p = true ->
  forall k, n <= k < n + Z.of_nat fuel -> p k = true.
Proof.
  induction fuel as [|fuel IH]; intros n p Hall k Hk.
  - simpl in Hk. lia.
  - cbn [allFrom] in Hall. apply andb_true_iff in Hall as [Hn Hrest].
    destruct (Z.eq_dec k n) as [->|Hne]; [exact Hn|].
    apply (IH (n + 1) p Hrest). lia.
Qed.

(** Every day of a year, leap or not, has its month and day. *)
Lemma monthDay_ok (leap : bool) (yday : Z) :
  0 <= yday < (if leap then 366 else 365) ->
  monthDayOk leap yday = true.
Proof.
  intros Hy.
  destruct leap.
  - apply (allFrom_spec 366 0 (monthDayOk true)); [vm_compute; reflexivity|lia].
  - apply (allFrom_spec 365 0 (monthDayOk false)); [vm_compute; reflexivity|lia].
Qed.

(** The calendar repeats every 400 years. *)
Lemma isLeap_400 (year k : Z) : isLeap (year + 400 * k) = isLeap year.
Proof.
  unfold isLeap.
  replace (year + 400 * k) with (year + (100 * k) * 4) at 1 by lia.
  replace (year + 400 * k) with (year + (4 * k) * 100) at 1 by lia.
  replace (year + 400 * k) with (year + k * 400) by lia.
  now rewrite !Z.mod_add by discriminate.
Qed.

Lemma yearStart_400 (year k : Z) :
  yearStart (year + 400 * k) = yearStart year + 146097 * k.
Proof.
  unfold yearStart. cbv zeta.
  replace (year + 400 * k - 1) with (year - 1 + 400 * k) by lia.
  replace ((year - 1 + 400 * k) / 4) with ((year - 1) / 4 + 100 * k)
    by (replace (year - 1 + 400 * k) with (year - 1 + (100 * k) * 4) by lia;
        now rewrite Z.div_add by discriminate).
  replace ((year - 1 + 400 * k) / 100) with ((year - 1) / 100 + 4 * k)
    by (replace (year - 1 + 400 * k) with (year - 1 + (4 * k) * 100) by lia;
        now rewrite Z.div_add by discriminate).
  replace ((year - 1 + 400 * k) / 400) with ((year - 1) / 400 + k)
    by (replace (year - 1 + 400 * k) with (year - 1 + k * 400) by lia;
        now rewrite Z.div_add by discriminate).
  lia.
Qed.

(** The cycles of 400, 100, 4 and 1 years cut a count of days from the
    first of January of a year that is 1 modulo 400: [y] years and [d]
    days on. *)
Lemma cycles_spec (D : Z) :
  0 <= D ->
  let n400 := D / 146097 in
  let r := D - 146097 * n400 in
  let q100 := r / 36524 in
  let n100 := q100 - q100 / 4 in
  let r1 := r - 36524 * n100 in
  let n4 := r1 / 1461 in
  let r2 := r1 - 1461 * n4 in
  let q1 := r2 / 365 in
  let n1 := q1 - q1 / 4 in
  let y := 400 * n400 + 100 * n100 + 4 * n4 + n1 in
  let d := r2 - 365 * n1 in
  (0 <= n400 /\ 146097 * n400 <= D
   /\ 0 <= r < 146097 /\ 0 <= q100 <= 4 /\ 0 <= n100 <= 3
   /\ 0 <= r1 <= 36524 /\ 0 <= n4 <= 24 /\ 0 <= r2 < 1461 /\ 0 <= q1 <= 4
   /\ 0 <= n1 <= 3)
  /\ yearStart (y + 1) + d = D - 719162
  /\ 0 <= d < yearLength (y + 1).
Proof.
  intros HD. cbv zeta.
  unfold yearStart, yearLength, isLeap. cbv zeta.
  set (n400 := D / 146097).
  set (r := D - 146097 * n400).
  assert (Hn400 : 0 <= n400) by (subst n400; apply Z.div_pos; lia).
  assert (Hr : 0 <= r < 146097)
    by (subst r n400; pose proof (Z.div_mod D 146097);
        pose proof (Z.mod_pos_bound D 146097); lia).
  assert (Er : r = D - 146097 * n400) by reflexivity.
  clearbody r. clearbody n400.
  set (q100 := r / 36524).
  assert (Hq : 0 <= q100 <= 4 /\ 36524 * q100 <= r < 36524 * q100 + 36524)
    by (subst q100; pose proof (Z.div_mod r 36524);
        pose proof (Z.mod_pos_bound r 36524); lia).
  clearbody q100.
  assert (Hn100 : q100 - q100 / 4 = if q100 =? 4 then 3 else q100).
  { assert (q100 = 0 \/ q100 = 1 \/ q100 = 2 \/ q100 = 3 \/ q100 = 4)
      as [->|[->|[->|[->| ->]]]] by lia; reflexivity. }
  rewrite Hn100. set (n100 := if q100 =? 4 then 3 else q100).
  assert (Hn : 0 <= n100 <= 3 /\ 36524 * n100 <= r
               /\ (r < 36524 * n100 + 36524 \/ (n100 = 3 /\ r = 146096))).
  { subst n100. destruct (Z.eqb_spec q100 4); lia. }
  clearbody n100. clear Hn100.
  set (r1 := r - 36524 * n100).
  assert (Hr1 : 0 <= r1 <= 36524 /\ (r1 = 36524 -> n100 = 3)) by lia.
  assert (Er1 : r1 = r - 36524 * n100) by reflexivity.
  clearbody r1.
  set (n4 := r1 / 1461).
  assert (Hn4 : 0 <= n4 <= 24 /\ 1461 * n4 <= r1 < 1461 * n4 + 1461)
    by (subst n4; pose proof (Z.div_mod r1 1461);
        pose proof (Z.mod_pos_bound r1 1461); lia).
  clearbody n4.
  set (r2 := r1 - 1461 * n4).
  assert (Hr2 : 0 <= r2 < 1461 /\ (n4 = 24 -> r2 = 1460 -> n100 = 3)) by lia.
  assert (Er2 : r2 = r1 - 1461 * n4) by reflexivity.
  clearbody r2.
  set (q1 := r2 / 365).
  assert (Hq1 : 0 <= q1 <= 4 /\ 365 * q1 <= r2 < 365 * q1 + 365)
    by (subst q1; pose proof (Z.div_mod r2 365);
        pose proof (Z.mod_pos_bound r2 365); lia).
  clearbody q1.
  assert (Hn1 : q1 - q1 / 4 = if q1 =? 4 then 3 else q1).
  { assert (q1 = 0 \/ q1 = 1 \/ q1 = 2 \/ q1 = 3 \/ q1 = 4)
      as [->|[->|[->|[->| ->]]]] by lia; reflexivity. }
  rewrite Hn1. set (n1 := if q1 =? 4 then 3 else q1).
  assert (Hn' : 0 <= n1 <= 3 /\ 365 * n1 <= r2
                /\ (r2 < 365 * n1 + 365 \/ (n1 = 3 /\ r2 = 1460))).
  { subst n1. destruct (Z.eqb_spec q1 4); lia. }
  clearbody n1. clear Hn1.
  split; [lia|].
  replace (400 * n400 + 100 * n100 + 4 * n4 + n1 + 1 - 1)
    with (400 * n400 + 100 * n100 + 4 * n4 + n1) by lia.
  set (y := 400 * n400 + 100 * n100 + 4 * n4 + n1).
  assert (H4 : y / 4 = 100 * n400 + 25 * n100 + n4)
    by (subst y; symmetry; apply Z.div_unique with (r := n1); lia).
  assert (H100 : y / 100 = 4 * n400 + n100)
    by (subst y; symmetry; apply Z.div_unique with (r := 4 * n4 + n1); lia).
  assert (H400 : y / 400 = n400)
    by (subst y; symmetry;
        apply Z.div_unique with (r := 100 * n100 + 4 * n4 + n1); lia).
  assert (M4 : (y + 1) mod 4 = (n1 + 1) mod 4).
  { subst y.
    replace (400 * n400 + 100 * n100 + 4 * n4 + n1 + 1)
      with ((n1 + 1) + (100 * n400 + 25 * n100 + n4) * 4) by lia.
    apply Z.mod_add. lia. }
  assert (M100 : (y + 1) mod 100 = (4 * n4 + n1 + 1) mod 100).
  { subst y.
    replace (400 * n400 + 100 * n100 + 4 * n4 + n1 + 1)
      with ((4 * n4 + n1 + 1) + (4 * n400 + n100) * 100) by lia.
    apply Z.mod_add. lia. }
  assert (M400 : (y + 1) mod 400 = (100 * n100 + 4 * n4 + n1 + 1) mod 400).
  { subst y.
    replace (400 * n400 + 100 * n100 + 4 * n4 + n1 + 1)
      with ((100 * n100 + 4 * n4 + n1 + 1) + n400 * 400) by lia.
    apply Z.mod_add. lia. }
  rewrite H4, H100, H400, M4, M100, M400.
  split; [subst y; lia|].
  destruct (Z.eqb_spec ((n1 + 1) mod 4) 0) as [E4|E4];
    destruct (Z.eqb_spec ((4 * n4 + n1 + 1) mod 100) 0) as [E100|E100];
    destruct (Z.eqb_spec ((100 * n100 + 4 * n4 + n1 + 1) mod 400) 0)
      as [E400|E400];
    cbn [andb orb negb]; Z.div_mod_to_equations; lia.
Qed.
End CalendarFacts.

Section AbsDateFacts.
Import GoTime Calendar.

(** absDate, first half: the year and the day of the year of a count of
    seconds since the absolute epoch. *)
Lemma yearDay_spec (a : Z) :
  0 <= a < 18446744073709551616 ->
  yearStart (fst (yearDay a)) + snd (yearDay a)
  = a / secondsPerDay - absoluteUnixDay
  /\ 0 <= snd (yearDay a) < yearLength (fst (yearDay a))
  /\ absoluteZeroYear <= fst (yearDay a) <= 292277027200.
Proof.
  intros Ha. unfold yearDay, secondsPerDay, daysPer400Years, daysPer100Years,
    daysPer4Years, absoluteZeroYear, absoluteUnixDay.
  set (D := a / 86400).
  assert (HD : 0 <= D <= 213503982334601)
    by (subst D; Z.div_mod_to_equations; lia).
  clearbody D.
  destruct (cycles_spec D ltac:(lia)) as (Hb & Hsum & Hrange).
  cbv zeta in *. rewrite !Z.shiftr_div_pow2 by lia. change (2 ^ 2) with 4.
  set (n400 := D / 146097) in *.
  rewrite (uint64_small (400 * n400)) by lia.
  rewrite (uint64_small (D - 146097 * n400)) by lia.
  set (r := D - 146097 * n400) in *.
  set (q100 := r / 36524) in *.
  rewrite (uint64_small (q100 - q100 / 4)) by lia.
  set (n100 := q100 - q100 / 4) in *.
  rewrite (uint64_small (400 * n400 + 100 * n100)) by lia.
  rewrite (uint64_small (r - 36524 * n100)) by lia.
  set (r1 := r - 36524 * n100) in *.
  set (n4 := r1 / 1461) in *.
  rewrite (uint64_small (400 * n400 + 100 * n100 + 4 * n4)) by lia.
  rewrite (uint64_small (r1 - 1461 * n4)) by lia.
  set (r2 := r1 - 1461 * n4) in *.
  set (q1 := r2 / 365) in *.
  rewrite (uint64_small (q1 - q1 / 4)) by lia.
  set (n1 := q1 - q1 / 4) in *.
  rewrite (uint64_small (400 * n400 + 100 * n100 + 4 * n4 + n1)) by lia.
  rewrite (uint64_small (r2 - 365 * n1)) by lia.
  set (y := 400 * n400 + 100 * n100 + 4 * n4 + n1) in *.
  set (d := r2 - 365 * n1) in *.
  assert (Hy : 0 <= y <= 584554049599).
  { assert (146097 * n400 <= 213503982334601) by lia. subst y. lia. }
  cbn [fst snd].
  rewrite (int64_small y) by lia.
  rewrite (int64_small (y + -292277022399)) by lia.
  rewrite (int64_small d) by (unfold yearLength in Hrange;
                              destruct (isLeap (y + 1)); lia).
  replace (y + -292277022399) with (y + 1 + 400 * (-730692556)) by lia.
  unfold yearLength in *. rewrite isLeap_400, yearStart_400.
  destruct (isLeap (y + 1)); repeat split; lia.
Qed.

(** The civil date of a count of seconds since the absolute epoch counts
    back to its day, and is a date of the calendar. *)
Lemma absDate_dayNumber (a : Z) :
  0 <= a < 18446744073709551616 ->
  forall y m d, absDate a = (y, m, d) ->
  dayNumber y m d = a / secondsPerDay - absoluteUnixDay
  /\ 1 <= m <= 12 /\ 1 <= d <= daysIn m y
  /\ absoluteZeroYear <= y <= 292277027200.
Proof.
  intros Ha y m d. unfold absDate.
  pose proof (yearDay_spec a Ha) as (Hsum & Hrange & Hyear).
  destruct (yearDay a) as [year yday]. cbn [fst snd] in *.
  pose proof (monthDay_ok (isLeap year) yday) as Hmd.
  unfold yearLength in Hrange. specialize (Hmd Hrange).
  unfold monthDayOk in Hmd.
  destruct (monthDay (isLeap year) yday) as [month day].
  intros [= <- <- <-].
  rewrite !andb_true_iff in Hmd.
  destruct Hmd as [[[[H1 H2] H3] H4] H5].
  unfold dayNumber, daysIn. rewrite (andb_comm (isLeap year)) in H5 |- *.
  rewrite (andb_comm (month =? 2)) in H4.
  rewrite (andb_comm (month =? 2) (isLeap year)).
  destruct (isLeap year); cbn [andb] in *; lia.
Qed.

(** daysSinceEpoch counts the days to the first of January of the year. *)
Lemma daysSinceEpoch_exact (year : Z) :
  absoluteZeroYear <= year <= 292277027200 ->
  daysSinceEpoch year = yearStart year + absoluteUnixDay.
Proof.
  unfold daysSinceEpoch, absoluteZeroYear, absoluteUnixDay, yearStart,
    daysPer400Years, daysPer100Years, daysPer4Years.
  intros Hyear. cbv zeta.
  rewrite (int64_small (year - -292277022399)) by lia.
  rewrite (uint64_small (year - -292277022399)) by lia.
  set (Y := year - -292277022399).
  assert (HY : 0 <= Y <= 584554049599) by (subst Y; lia).
  replace (year - 1) with (Y - 292277022400) by (subst Y; lia).
  clearbody Y. clear Hyear year.
  set (n400 := Y / 400).
  assert (Hn400 : 0 <= n400 /\ 400 * n400 <= Y < 400 * n400 + 400)
    by (subst n400; Z.div_mod_to_equations; lia).
  rewrite (uint64_small (Y - 400 * n400)) by lia.
  rewrite (uint64_small (146097 * n400)) by lia.
  set (r := Y - 400 * n400).
  assert (Hr : 0 <= r < 400) by (subst r; lia).
  set (n100 := r / 100).
  assert (Hn100 : 0 <= n100 /\ 100 * n100 <= r < 100 * n100 + 100)
    by (subst n100; Z.div_mod_to_equations; lia).
  rewrite (uint64_small (r - 100 * n100)) by lia.
  rewrite (uint64_small (146097 * n400 + 36524 * n100)) by lia.
  set (r1 := r - 100 * n100).
  assert (Hr1 : 0 <= r1 < 100) by (subst r1; lia).
  set (n4 := r1 / 4).
  assert (Hn4 : 0 <= n4 /\ 4 * n4 <= r1 < 4 * n4 + 4)
    by (subst n4; Z.div_mod_to_equations; lia).
  rewrite (uint64_small (r1 - 4 * n4)) by lia.
  rewrite (uint64_small (146097 * n400 + 36524 * n100 + 1461 * n4)) by lia.
  rewrite uint64_small by lia.
  assert (EY : Y = 400 * n400 + 100 * n100 + 4 * n4 + (r1 - 4 * n4))
    by (subst r1 r; lia).
  set (n1 := r1 - 4 * n4) in *.
  assert (Hn1 : 0 <= n1 < 4) by (subst n1; lia).
  clearbody n1. clearbody n4. clearbody r1. clearbody n100. clearbody r.
  clearbody n400.
  rewrite EY.
  replace ((400 * n400 + 100 * n100 + 4 * n4 + n1 - 292277022400) / 4)
    with (100 * n400 + 25 * n100 + n4 - 73069255600)
    by (apply Z.div_unique with (r := n1); lia).
  replace ((400 * n400 + 100 * n100 + 4 * n4 + n1 - 292277022400) / 100)
    with (4 * n400 + n100 - 2922770224)
    by (apply Z.div_unique with (r := 4 * n4 + n1); lia).
  replace ((400 * n400 + 100 * n100 + 4 * n4 + n1 - 292277022400) / 400)
    with (n400 - 730692556)
    by (apply Z.div_unique with (r := 100 * n100 + 4 * n4 + n1); lia).
  lia.
Qed.
End AbsDateFacts.

(** ** Instants: time.Date, AddDate and After *)

Section TimeFacts.
Import GoTime Calendar.

Lemma wallSec_range (t : Time) :
  -9223372036854775808 <= wallSec t < 9223372036854775808.
Proof.
  unfold wallSec. destruct (lookup (loc t) (unixSec t)) as [[offset s] e].
  apply int64_range.
Qed.

Lemma abs_range (t : Time) : 0 <= abs t < 18446744073709551616.
Proof. apply uint64_range. Qed.

(** The absolute seconds of a Time are its wall clock counted from the
    absolute epoch, unless the wall clock is before that epoch. *)
Lemma abs_cases (t : Time) :
  (-9223372028715321600 <= wallSec t
   /\ abs t = wallSec t + 9223372028715321600)
  \/ (wallSec t < -9223372028715321600
      /\ abs t = wallSec t + 9223372028715321600 + 18446744073709551616).
Proof.
  unfold abs, uint64, unixToInternal, internalToAbsolute, absoluteToInternal.
  pose proof (wallSec_range t) as Hw.
  change (62135596800 + - -9223371966579724800) with 9223372028715321600.
  destruct (Z_lt_le_dec (wallSec t) (-9223372028715321600)) as [Hlt|Hge].
  - right. split; [exact Hlt|].
    symmetry. apply Z.mod_unique with (q := -1); lia.
  - left. split; [exact Hge|]. apply Z.mod_small. lia.
Qed.

(** The wall clock of a valid reading of the clock in a valid zone. *)
Lemma wallSec_valid (t : Time) :
  validTime t -> validZone (loc t) ->
  wallSec t = unixSec t + fst (fst (lookup (loc t) (unixSec t)))
  /\ abs t = wallSec t + 9223372028715321600.
Proof.
  intros [_ Hsec] Hzone. pose proof (Hzone (unixSec t)) as Hoff.
  unfold reach in Hsec.
  assert (Hwall : wallSec t
                  = unixSec t + fst (fst (lookup (loc t) (unixSec t)))).
  { unfold wallSec.
    destruct (lookup (loc t) (unixSec t)) as [[offset s] e]. cbn [fst] in *.
    apply int64_small. lia. }
  split; [exact Hwall|].
  destruct (abs_cases t) as [[_ Habs]|[Hlt _]]; [exact Habs|lia].
Qed.

(** t.Date(): the civil date of the day of the wall clock. *)
Lemma DateOf_spec (t : Time) (y m d : Z) :
  DateOf t = (y, m, d) ->
  dayNumber y m d = abs t / secondsPerDay - absoluteUnixDay
  /\ 1 <= m <= 12 /\ 1 <= d <= daysIn m y
  /\ absoluteZeroYear <= y <= 292277027200.
Proof. apply absDate_dayNumber, abs_range. Qed.

(** t.Clock(): hour, minute and second of the wall clock. *)
Lemma ClockOf_spec (t : Time) (h mi s : Z) :
  ClockOf t = (h, mi, s) ->
  0 <= h < 24 /\ 0 <= mi < 60 /\ 0 <= s < 60
  /\ h * secondsPerHour + mi * secondsPerMinute + s
     = abs t mod secondsPerDay.
Proof.
  unfold ClockOf, absClock, secondsPerHour, secondsPerMinute, secondsPerDay.
  pose proof (Z.mod_pos_bound (abs t) 86400 ltac:(lia)) as Hs.
  set (r := abs t mod 86400) in *. clearbody r.
  rewrite (int64_small r) by lia.
  assert (Hq : Z.quot r 3600 = r / 3600) by (apply Z.quot_div_nonneg; lia).
  rewrite Hq.
  assert (Hh : 0 <= r / 3600 < 24) by (Z.div_mod_to_equations; lia).
  rewrite (int64_small (r - r / 3600 * 3600))
    by (Z.div_mod_to_equations; lia).
  set (r' := r - r / 3600 * 3600).
  assert (Hr' : 0 <= r' < 3600) by (subst r'; Z.div_mod_to_equations; lia).
  assert (Hq' : Z.quot r' 60 = r' / 60) by (apply Z.quot_div_nonneg; lia).
  rewrite Hq'.
  rewrite (int64_small (r' - r' / 60 * 60)) by (Z.div_mod_to_equations; lia).
  intros [= <- <- <-]. subst r'. Z.div_mod_to_equations. lia.
Qed.

Lemma daysBefore_range (m : Z) : 0 <= m <= 11 -> 0 <= daysBefore m <= 334.
Proof.
  intros Hm.
  assert (m = 0 \/ m = 1 \/ m = 2 \/ m = 3 \/ m = 4 \/ m = 5 \/ m = 6
          \/ m = 7 \/ m = 8 \/ m = 9 \/ m = 10 \/ m = 11) as Hcases by lia.
  destruct Hcases as [->|[->|[->|[->|[->|[->|[->|[->|[->|[->|[->| ->]]]]]]]]]]];
    vm_compute; split; discriminate.
Qed.

Lemma daysIn_upper (month year : Z) :
  1 <= month <= 12 -> daysIn month year <= 31.
Proof.
  intros Hm. unfold daysIn.
  assert (month = 1 \/ month = 2 \/ month = 3 \/ month = 4 \/ month = 5
          \/ month = 6 \/ month = 7 \/ month = 8 \/ month = 9 \/ month = 10
          \/ month = 11 \/ month = 12) as Hcases by lia.
  destruct Hcases as [->|[->|[->|[->|[->|[->|[->|[->|[->|[->|[->| ->]]]]]]]]]]];
    destruct (isLeap year); vm_compute; intros Hgt; discriminate Hgt.
Qed.

(** The first of January of a year package time can name is a day
    since the absolute epoch that fits in 64 bits. *)
Lemma yearStart_range (year : Z) :
  absoluteZeroYear <= year <= 292277027200 ->
  0 <= yearStart year + absoluteUnixDay <= 213510000000000.
Proof.
  unfold yearStart, absoluteZeroYear, absoluteUnixDay. cbv zeta. intros Hy.
  Z.div_mod_to_equations. lia.
Qed.

Lemma zoneUnix_UTC (unix : Z) : zoneUnix UTC unix = unix.
Proof. reflexivity. Qed.

(** time.Date takes one of the offsets of the location off the wall
    clock. *)
Lemma zoneUnix_offset (l : Location) (unix : Z) :
  validZone l ->
  -9100000000000000000 <= unix <= 9100000000000000000 ->
  exists offset,
    -2147483648 <= offset <= 2147483647
    /\ zoneUnix l unix = unix - offset.
Proof.
  intros Hzone Hunix. unfold zoneUnix.
  pose proof (Hzone unix) as H1.
  destruct (lookup l unix) as [[offset start] end_]. cbn [fst] in H1.
  destruct (Z.eqb_spec offset 0) as [->|Hne]; cbn [negb].
  - exists 0. split; lia.
  - rewrite (int64_small (unix - offset)) by lia.
    destruct ((unix - offset <? start) || (end_ <=? unix - offset)).
    + pose proof (Hzone (unix - offset)) as H2.
      exists (fst (fst (lookup l (unix - offset)))).
      split; [exact H2|]. apply int64_small. lia.
    + exists offset. split; [exact H1|]. apply int64_small. lia.
Qed.


(** time.Date on fields that are in range, for a day within reach. *)
Lemma Date_in_range (year month day hour min sec ns : Z) (l : Location) :
  1 <= month <= 12 -> 0 <= hour < 24 -> 0 <= min < 60 -> 0 <= sec < 60 ->
  0 <= ns < 1000000000 ->
  absoluteZeroYear <= year <= 292277027200 ->
  -9100000000000000000
  <= dayNumber year month day * secondsPerDay
     + hour * secondsPerHour + min * secondsPerMinute + sec
  <= 9100000000000000000 ->
  Date year month day hour min sec ns l =
  {| unixSec := zoneUnix l (dayNumber year month day * secondsPerDay
                            + hour * secondsPerHour
                            + min * secondsPerMinute + sec);
     nsec := ns; loc := l |}.
Proof.
  intros Hm Hh Hmi Hs Hns Hyear Hday. unfold Date.
  rewrite (int64_small (month - 1)) by lia.
  rewrite (norm_in_range year (month - 1) 12) by lia.
  rewrite (int64_small (month - 1 + 1)) by lia.
  rewrite (norm_in_range sec ns 1000000000) by lia.
  rewrite (norm_in_range min sec 60) by lia.
  rewrite (norm_in_range hour min 60) by lia.
  rewrite (norm_in_range day hour 24) by lia.
  replace (month - 1 + 1) with month by lia.
  rewrite daysSinceEpoch_exact by assumption.
  pose proof (daysBefore_range (month - 1) ltac:(lia)) as Hdb.
  pose proof (yearStart_range year Hyear) as Hys.
  unfold dayNumber, absoluteUnixDay, secondsPerDay, secondsPerHour,
    secondsPerMinute, absoluteToInternal, internalToUnix, unixToInternal in *.
  set (ys := yearStart year) in *. clearbody ys.
  set (db := daysBefore (month - 1)) in *. clearbody db.
  rewrite (uint64_small (ys + 106751991073094 + db)) by lia.
  assert (Hleap :
    (if isLeap year && (3 <=? month)
     then uint64 (ys + 106751991073094 + db + 1)
     else ys + 106751991073094 + db)
    = ys + 106751991073094 + db
      + (if isLeap year && (3 <=? month) then 1 else 0)).
  { destruct (isLeap year && (3 <=? month)); [apply uint64_small|]; lia. }
  rewrite Hleap. clear Hleap.
  set (lp := if isLeap year && (3 <=? month) then 1 else 0) in *.
  assert (Hlp : 0 <= lp <= 1)
    by (subst lp; destruct (isLeap year && (3 <=? month)); lia).
  clearbody lp.
  rewrite (uint64_small (ys + 106751991073094 + db + lp + (day - 1))) by lia.
  rewrite (uint64_small ((ys + 106751991073094 + db + lp + (day - 1)) * 86400))
    by lia.
  rewrite (int64_small (hour * 3600 + min * 60 + sec)) by lia.
  rewrite uint64_small by lia.
  rewrite int64_small by lia.
  f_equal. f_equal. lia.
Qed.

(** AddDate(0, 0, days) keeps the wall clock and moves the calendar day
    by [days]: the instant is the one time.Date reads off the wall clock
    [days] times 24 hours on. *)
Lemma AddDate_days (t : Time) (days : Z) :
  validTime t -> validZone (loc t) -> inReach t days ->
  AddDate t 0 0 days = shifted t days.
Proof.
  intros Hvalid Hzone Hdays. unfold AddDate, shifted.
  destruct (wallSec_valid t Hvalid Hzone) as [Ewall Habs].
  pose proof (Hzone (unixSec t)) as Hoff.
  destruct Hvalid as [Hns Hsec].
  destruct (DateOf t) as [[y m] d] eqn:Hdate.
  destruct (ClockOf t) as [[h mi] s] eqn:Hclock.
  apply DateOf_spec in Hdate as (Hday & Hm & Hd & Hy).
  apply ClockOf_spec in Hclock as (Hh & Hmi & Hs & Hsum).
  rewrite Habs in Hday, Hsum.
  unfold inReach, reach in *.
  unfold absoluteUnixDay, absoluteZeroYear, secondsPerDay in *.
  replace (wallSec t + 9223372028715321600)
    with (wallSec t + 106751991073094 * 86400) in Hday, Hsum by lia.
  rewrite Z.div_add in Hday by discriminate.
  rewrite Z.mod_add in Hsum by discriminate.
  pose proof (daysIn_upper m y Hm) as Hin.
  rewrite (int64_small (y + 0)), (int64_small (m + 0)),
    (int64_small (d + days)) by lia.
  rewrite !Z.add_0_r.
  assert (Hn : dayNumber y m (d + days) = wallSec t / 86400 + days)
    by (revert Hday; unfold dayNumber; lia).
  pose proof (Z.div_mod (wallSec t) 86400 ltac:(discriminate)) as Hdm.
  unfold secondsPerHour, secondsPerMinute in *.
  assert (Hwall : dayNumber y m (d + days) * 86400 + h * 3600 + mi * 60 + s
                  = wallSec t + days * 86400) by lia.
  rewrite Date_in_range;
    unfold absoluteZeroYear, secondsPerDay, secondsPerHour, secondsPerMinute;
    try lia.
  now rewrite Hwall.
Qed.

(** t.sec() of an instant that is far from the ends of time. *)
Lemma sec_exact (t : Time) :
  -9150000000000000000 <= unixSec t <= 9150000000000000000 ->
  sec t = unixSec t + unixToInternal.
Proof.
  intros Ht. unfold sec, unixToInternal. apply int64_small. lia.
Qed.

(** After, on the seconds and nanoseconds of the two instants. *)
Lemma After_true (t u : Time) :
  After t u = true <->
  sec u < sec t \/ (sec t = sec u /\ nsec u < nsec t).
Proof.
  unfold After. cbv zeta. rewrite orb_true_iff, andb_true_iff.
  rewrite !Z.ltb_lt, Z.eqb_eq. reflexivity.
Qed.

Lemma zeroTime_is_year_1 : zeroTime = Date 1 1 1 0 0 0 0 UTC.
Proof. reflexivity. Qed.
End TimeFacts.

(** ** time.Parse with the layout 2006-01-02 *)

Section ParseFacts.
Import GoTime GoStrings GoTimeFormat Calendar.

(** A digit is no sign. *)
Lemma atoi_digit (c : ascii) (s : string) :
  isDigitChar c = true ->
  atoi (String c s)
  = match snd (leadingInt (String c s) 0) with
    | EmptyString => Some (fst (leadingInt (String c s) 0))
    | _ => None
    end.
Proof.
  intros Hc. unfold atoi.
  destruct c as [[] [] [] [] [] [] [] []]; try discriminate Hc;
    destruct (leadingInt _ 0) as [q rem]; destruct rem; reflexivity.
Qed.

Lemma leadingInt_digit (c : ascii) (s : string) (x : Z) :
  isDigitChar c = true ->
  leadingInt (String c s) x = leadingInt s (x * 10 + digitVal c).
Proof. intros Hc. cbn [leadingInt]. now rewrite Hc. Qed.

Lemma digitVal_range (c : ascii) :
  isDigitChar c = true -> 0 <= digitVal c <= 9.
Proof.
  unfold isDigitChar, digitVal. cbv zeta.
  rewrite andb_true_iff, !Z.leb_le. lia.
Qed.

(** The element 2006 of the layout gives a year from 0 to 9999. *)
Lemma getLongYear_range (value rest : string) (year : Z) :
  getLongYear value = Some (year, rest) -> 0 <= year <= 9999.
Proof.
  unfold getLongYear.
  destruct value as [|c3 [|c2 [|c1 [|c0 value]]]]; try discriminate.
  destruct (len _ <? 4); cbn [orb]; [discriminate|].
  destruct (isDigit _ 0) eqn:H3; cbn [negb]; [|discriminate].
  assert (Hslice :
    slice (String c3 (String c2 (String c1 (String c0 value)))) 0 4
    = String c3 (String c2 (String c1 (String c0 EmptyString))))
    by (destruct value; reflexivity).
  rewrite Hslice. change (isDigitChar c3 = true) in H3.
  rewrite atoi_digit, leadingInt_digit by exact H3.
  cbn [leadingInt].
  destruct (isDigitChar c2) eqn:H2; [|discriminate].
  destruct (isDigitChar c1) eqn:H1; [|discriminate].
  destruct (isDigitChar c0) eqn:H0; [|discriminate].
  cbn [fst snd]. intros [= <- _].
  pose proof (digitVal_range _ H3). pose proof (digitVal_range _ H2).
  pose proof (digitVal_range _ H1). pose proof (digitVal_range _ H0).
  lia.
Qed.

(** Parse answers with a date of the calendar at 00:00:00 UTC, or with
    the zero Time and an error. *)
Lemma Parse_cases (value : string) :
  (exists year month day,
      0 <= year <= 9999 /\ 1 <= month <= 12 /\ 1 <= day <= daysIn month year
      /\ Parse value = (Date year month day 0 0 0 0 UTC, None))
  \/ (exists e, Parse value = (zeroTime, Some e)).
Proof.
  unfold Parse.
  destruct (getLongYear value) as [[year v1]|] eqn:Hyear; [|right; eauto].
  apply getLongYear_range in Hyear.
  destruct (skip v1 "-") as [v2 [|]]; [|right; eauto].
  destruct (getnum v2 true) as [[month v3]|]; [|right; eauto].
  destruct (Z.leb_spec month 0) as [Hm0|Hm0]; cbn [orb]; [right; eauto|].
  destruct (Z.ltb_spec 12 month) as [Hm12|Hm12]; [right; eauto|].
  destruct (skip v3 "-") as [v4 [|]]; [|right; eauto].
  destruct (getnum v4 true) as [[day v5]|]; [|right; eauto].
  destruct v5 as [|c v5]; [|right; eauto].
  destruct (Z.ltb_spec day 1) as [Hd1|Hd1]; cbn [orb]; [right; eauto|].
  destruct (Z.ltb_spec (daysIn month year) day) as [Hd2|Hd2]; [right; eauto|].
  left. exists year, month, day. repeat split; lia || reflexivity.
Qed.

Lemma Parse_error (value : string) (t : Time) (e : ParseError) :
  Parse value = (t, Some e) -> t = zeroTime.
Proof.
  destruct (Parse_cases value) as [(y & m & d & _ & _ & _ & Hp)|[e' Hp]];
    rewrite Hp; intros [= <-]; try discriminate; reflexivity.
Qed.

(** The first instant in UTC of a date of the calendar with a year of
    four digits. *)
Lemma Date_midnight (year month day : Z) :
  0 <= year <= 9999 -> 1 <= month <= 12 -> 1 <= day <= daysIn month year ->
  Date year month day 0 0 0 0 UTC
  = {| unixSec := dayNumber year month day * secondsPerDay; nsec := 0;
       loc := UTC |}
    /\ -719528 <= dayNumber year month day <= 2932897.
Proof.
  intros Hy Hm Hd. pose proof (daysIn_upper month year Hm) as Hup.
  assert (Hrange : -719528 <= dayNumber year month day <= 2932897).
  { pose proof (daysBefore_range (month - 1) ltac:(lia)) as Hdb.
    unfold dayNumber, yearStart. cbv zeta.
    destruct (isLeap year && (3 <=? month)); Z.div_mod_to_equations; lia. }
  split; [|exact Hrange].
  rewrite Date_in_range
    by (unfold absoluteZeroYear, secondsPerDay, secondsPerHour,
          secondsPerMinute; lia).
  rewrite zoneUnix_UTC. f_equal.
  unfold secondsPerHour, secondsPerMinute. lia.
Qed.

End ParseFacts.

(** ** Strings *)

Section StringFacts.
Import GoStrings.

Lemma append_assoc (a b c : string) : (a +++ b) +++ c = a +++ b +++ c.
Proof. induction a as [|ch a IH]; cbn; [reflexivity|now rewrite IH]. Qed.

Lemma append_empty_r (a : string) : a +++ EmptyString = a.
Proof. induction a as [|ch a IH]; cbn; [reflexivity|now rewrite IH]. Qed.

(** strings.Join puts the separator before every element but the
    first. *)
Lemma Join_cons (e : string) (rest : list string) (sep : string) :
  Join (e :: rest) sep = e +++ appendAll (map (fun s => sep +++ s) rest).
Proof.
  revert e. induction rest as [|e' rest IH]; intros e.
  - cbn. now rewrite append_empty_r.
  - change (Join (e :: e' :: rest) sep) with (e +++ sep +++ Join (e' :: rest) sep).
    rewrite IH. cbn [map appendAll]. now rewrite append_assoc.
Qed.
End StringFacts.

(** ** The functions of the program, run *)

Section RunFacts.
Context {W : Type} {H : Host W}.
Import GoStrings GoTime GoTimeFormat GoNet.

Lemma after_nil (st : St W) : after st (world st) [] = st.
Proof. destruct st. unfold after. cbn. now rewrite app_nil_r. Qed.

Lemma after_after (st : St W) (w w' : W) (evs evs' : list Event) :
  after (after st w evs) w' evs' = after st w' (evs ++ evs').
Proof. unfold after. cbn. now rewrite app_assoc. Qed.

Lemma bind_returns {A B} (c : M W A) (k : A -> M W B) st a st' :
  c st = (Returns a, st') -> bind c k st = k a st'.
Proof. intros Hc. unfold bind. now rewrite Hc. Qed.

Lemma emit_run (e : Event) (st : St W) :
  emit e st = (Returns tt, after st (world st) [e]).
Proof. reflexivity. Qed.

Lemma withWorld_run {A} (f : W -> A * W) (st : St W) :
  withWorld f st
  = (Returns (fst (f (world st))), after st (snd (f (world st))) []).
Proof.
  unfold withWorld, after. destruct (f (world st)) as [a w]. cbn.
  now rewrite app_nil_r.
Qed.

Lemma slogLog_run l msg attrs (st : St W) :
  slogLog l msg attrs st
  = (Returns tt,
     after st (world st)
           (logged (programLevel st) (handlerJSON st) l msg attrs)).
Proof.
  unfold slogLog, logged.
  destruct (levelValue (programLevel st) <=? levelValue l).
  - apply emit_run.
  - now rewrite after_nil.
Qed.

Lemma timeNow_run (st : St W) :
  timeNow st
  = (Returns (fst (hostNow (world st))),
     after st (snd (hostNow (world st))) [EvNow (fst (hostNow (world st)))]).
Proof.
  unfold timeNow.
  rewrite (bind_returns _ _ _ _ _ (withWorld_run hostNow st)).
  rewrite (bind_returns _ _ _ _ _ (emit_run _ _)).
  unfold ret. now rewrite after_after.
Qed.

(** isDateWithinDays reads the clock once, logs a date that does not
    parse, and answers in both cases. *)
Lemma isDateWithinDays_run (targetDate : string) (days : Z) (st : St W) :
  let now := fst (hostNow (world st)) in
  isDateWithinDays targetDate days st
  = (Returns (withinDays now targetDate days),
     after st (snd (hostNow (world st)))
           ([EvNow now]
            ++ parseLog (programLevel st) (handlerJSON st) targetDate)).
Proof.
  cbv zeta. unfold isDateWithinDays, withinDays, parseLog.
  rewrite (bind_returns _ _ _ _ _ (timeNow_run st)).
  destruct (Parse targetDate) as [expires [e|]]; cbn [fst snd].
  - unfold slogError.
    rewrite (bind_returns _ _ _ _ _ (slogLog_run _ _ _ _)).
    unfold ret. now rewrite after_after.
  - unfold bind, ret. now rewrite app_nil_r.
Qed.

Lemma appendDNSNames_map (names summary : list string) :
  appendDNSNames summary names
  = summary ++ map (fun dnsName => "    " +++ dnsName) names.
Proof.
  revert summary. induction names as [|n names IH]; intros summary; cbn.
  - now rewrite app_nil_r.
  - rewrite IH, <- app_assoc. reflexivity.
Qed.

(** The summary getDomain joins is the summary written out. *)
Lemma summary_render commonName isExpiringSoon expires dnsNames :
  Join (appendDNSNames
          [commonName;
           "  Expiring Soon: " +++ fmtBool isExpiringSoon;
           "  Expires:       " +++ expires;
           "  DNS Alt Names:"]
          dnsNames) nl
  = render commonName isExpiringSoon expires dnsNames.
Proof.
  rewrite appendDNSNames_map. cbn [app].
  rewrite Join_cons. unfold render. cbn [map appendAll].
  rewrite map_map, !append_assoc. reflexivity.
Qed.
End RunFacts.

Section ProgramFacts.
Context {W : Type} {H : Host W}.
Import GoStrings GoTime GoTimeFormat GoNet.

Lemma if_true_false (b : bool) : (if b then true else false) = b.
Proof. now destruct b. Qed.

(** tls.Dial answers with what the network answered, or with the error
    of an address that does not split; it does not panic. *)
Lemma tlsDial_run (endpoint : string) (st : St W) :
  exists r w',
    tlsDial "tcp" (endpoint +++ ":443") {| InsecureSkipVerify := true |} st
    = (Returns match r with
               | Ok cs => Ok {| RemoteAddr := endpoint +++ ":443"; State := cs |}
               | Err e => Err e
               end,
       after st w'
             (connectEvents endpoint
              ++ [EvDial "tcp" (endpoint +++ ":443") r]))
    /\ (forall cs, r = Ok cs ->
        exists w host port config dialer,
          hostConnect w host port config dialer = (Ok cs, w')).
Proof.
  unfold tlsDial, tlsDialWithDialer, connectEvents.
  destruct (SplitHostPort (endpoint +++ ":443")) as [[host port]|e].
  - set (ans := hostConnect (world st) host port
                            {| InsecureSkipVerify := true |}
                            {| Timeout := 0 |}).
    exists (fst ans), (snd ans).
    split;
      [|intros cs Hcs; exists (world st), host, port,
          {| InsecureSkipVerify := true |}, {| Timeout := 0 |};
        fold ans; rewrite <- Hcs; apply surjective_pairing].
    unfold bind at 1. unfold bind at 1.
    rewrite emit_run.
    rewrite withWorld_run. cbn [world after]. fold ans.
    rewrite after_after.
    rewrite (bind_returns _ _ _ _ _ (emit_run _ _)).
    rewrite after_after. cbn [app].
    destruct (fst ans); reflexivity.
  - exists (Err (dialError "tcp" e)), (world st).
    split; [|discriminate].
    unfold bind at 1. unfold ret at 1.
    rewrite (bind_returns _ _ _ _ _ (emit_run _ _)).
    reflexivity.
Qed.

(** getDomain answers with the error of the dial, or with the Domain of
    the leaf certificate at the time the clock gave; it panics on a
    handshake without certificates only. *)
Lemma getDomain_run (config : Config) (endpoint : string) (st : St W) :
  presentsChain W ->
  (exists err w',
      getDomain config endpoint st
      = (Returns (Err err),
         after st w'
               (connectEvents endpoint
                ++ [EvDial "tcp" (endpoint +++ ":443") (Err err)])))
  \/ (exists leaf chain now w',
         let d := buildDomain (Threshold config) leaf now in
         getDomain config endpoint st
         = (Returns (Ok d),
            after st w'
                  (connectEvents endpoint
                   ++ [EvDial "tcp" (endpoint +++ ":443")
                              (Ok {| PeerCertificates := leaf :: chain |})]
                   ++ [EvNow now]
                   ++ parseLog (programLevel st) (handlerJSON st)
                               (Format (NotAfter leaf))
                   ++ [EvClose (endpoint +++ ":443")]))).
Proof.
  intros Hchain. unfold getDomain.
  destruct (tlsDial_run endpoint st) as (r & w' & Hdial & Hnet).
  rewrite (bind_returns _ _ _ _ _ Hdial).
  destruct r as [cs|err].
  - right.
    assert (Hcs : PeerCertificates cs <> []).
    { destruct (Hnet cs eq_refl) as (w0 & host & port & c & d & Hans).
      apply (Hchain _ _ _ _ _ _ _ Hans). }
    destruct cs as [[|leaf chain]]; [now contradiction Hcs|].
    set (st1 := after st w' _).
    exists leaf, chain, (fst (hostNow (world st1))), (snd (hostNow (world st1))).
    cbv zeta. unfold defer.
    cbn [State PeerCertificates first].
    unfold ret at 1.
    rewrite (bind_returns _ _ _ _ _ (eq_refl : ret leaf st1 = (Returns leaf, st1))).
    rewrite (bind_returns _ _ _ _ _ (isDateWithinDays_run _ _ _)).
    cbn [app]. rewrite summary_render.
    unfold ret, connClose. rewrite emit_run. cbn [RemoteAddr].
    subst st1. rewrite !after_after.
    cbn [programLevel handlerJSON after world].
    unfold buildDomain. rewrite !if_true_false.
    generalize (parseLog (programLevel st) (handlerJSON st)
                         (Format (NotAfter leaf))).
    intros parseEvents. rewrite <- !app_assoc. reflexivity.
  - left. exists err, w'. reflexivity.
Qed.

(** sendEmail hands one message to the SMTP server and returns, whatever
    the server answers. *)
Lemma sendEmail_run (config : Config) (subject contents : string) (st : St W) :
  exists r w',
    sendEmail config subject contents st
    = (Returns tt,
       after st w'
             (mailEvents config (programLevel st) (handlerJSON st)
                         subject contents r)).
Proof.
  unfold sendEmail, mailEvents, slogDebug, slogError, DialAndSend.
  set (m := {| From := _ |}).
  rewrite (bind_returns _ _ _ _ _ (slogLog_run _ _ _ _)).
  set (st1 := after st _ _).
  exists (fst (hostSend (world st1) (Server (SMTP config)) (Port (SMTP config)) m)),
         (snd (hostSend (world st1) (Server (SMTP config)) (Port (SMTP config)) m)).
  unfold bind at 1. unfold bind at 1.
  rewrite withWorld_run.
  rewrite (bind_returns _ _ _ _ _ (emit_run _ _)).
  unfold ret at 1.
  destruct (fst (hostSend _ _ _ _)) as [err|].
  - rewrite slogLog_run. subst st1. rewrite !after_after.
    cbn [programLevel handlerJSON after world app]. reflexivity.
  - unfold ret. subst st1. rewrite !after_after.
    cbn [programLevel handlerJSON after world app]. reflexivity.
Qed.
End ProgramFacts.

(** ** The loop of main, and main *)

Section MainFacts.
Context {W : Type} {H : Host W}.
Import GoStrings GoTime GoTimeFormat GoNet.

(** The loop takes one turn per configured domain, in order, whatever the
    dials answer, and returns the domains that answered. *)
Lemma checkDomains_run (config : Config) (flags : Flags) :
  presentsChain W ->
  forall (cfgDomains : list string) (domains : list Domain) (st : St W),
  exists probes w',
    checkDomains config flags cfgDomains domains st
    = (Returns (domains ++ domainsOf (Threshold config) probes),
       after st w'
             (flat_map (probeEvents config (programLevel st) (handlerJSON st))
                       probes))
    /\ map endpointOf probes = cfgDomains
    /\ Forall (consistent config flags) probes.
Proof.
  intros Hchain cfgDomains.
  induction cfgDomains as [|cfgDomain rest IH]; intros domains st.
  - exists [], (world st). cbn [checkDomains flat_map domainsOf map].
    rewrite app_nil_r, after_nil. repeat split. constructor.
  - cbn [checkDomains]. unfold slogDebug at 1.
    rewrite (bind_returns _ _ _ _ _ (slogLog_run _ _ _ _)).
    set (st1 := after st _ _).
    destruct (getDomain_run config cfgDomain st1 Hchain)
      as [(err & w1 & Hget)|(leaf & chain & now & w1 & Hget)].
    + rewrite (bind_returns _ _ _ _ _ Hget).
      unfold slogError at 1.
      rewrite (bind_returns _ _ _ _ _ (slogLog_run _ _ _ _)).
      set (st2 := after (after st1 _ _) _ _).
      destruct (IH domains st2) as (probes & w' & Hrest & Hmap & Hcons).
      exists (Unreachable cfgDomain err :: probes), w'.
      split; [|split].
      * rewrite Hrest. subst st2 st1.
        cbn [programLevel handlerJSON after world].
        rewrite !after_after.
        cbn [flat_map probeEvents domainsOf domainOf].
        rewrite <- !app_assoc. reflexivity.
      * cbn [map endpointOf]. now rewrite Hmap.
      * constructor; [exact I|exact Hcons].
    + cbv zeta in Hget.
      remember (buildDomain (Threshold config) leaf now) as d eqn:Hd.
      rewrite (bind_returns _ _ _ _ _ Hget).
      unfold slogDebug at 1.
      rewrite (bind_returns _ _ _ _ _ (slogLog_run _ _ _ _)).
      set (st2 := after (after st1 _ _) _ _).
      destruct (IsExpiringSoon d && negb (printFlag flags)) eqn:Halert.
      * destruct (sendEmail_run config
                    ("certificate expiration warning: " +++ cfgDomain)
                    (Summary d) st2) as (r & w2 & Hsend).
        rewrite (bind_returns _ _ _ _ _ Hsend).
        set (st3 := after st2 _ _).
        destruct (IH (domains ++ [d]) st3) as (probes & w' & Hrest & Hmap & Hcons).
        exists (Probed cfgDomain leaf chain now (Some r) :: probes), w'.
        split; [|split].
        -- rewrite Hrest. subst st3 st2 st1.
           cbn [programLevel handlerJSON after world].
           rewrite !after_after.
           cbn [flat_map probeEvents domainsOf domainOf].
           rewrite <- Hd. unfold alertSubject.
           generalize (parseLog (programLevel st) (handlerJSON st)
                                (Format (NotAfter leaf))).
           intros parseEvents.
           rewrite <- !app_assoc. reflexivity.
        -- cbn [map endpointOf]. now rewrite Hmap.
        -- constructor; [|exact Hcons].
           cbn [consistent]. rewrite <- Hd. unfold alerted. rewrite Halert.
           split; [discriminate|reflexivity].
      * rewrite (bind_returns _ _ _ _ _
                   (eq_refl : ret tt st2 = (Returns tt, st2))).
        destruct (IH (domains ++ [d]) st2) as (probes & w' & Hrest & Hmap & Hcons).
        exists (Probed cfgDomain leaf chain now None :: probes), w'.
        split; [|split].
        -- rewrite Hrest. subst st2 st1.
           cbn [programLevel handlerJSON after world].
           rewrite !after_after.
           cbn [flat_map probeEvents domainsOf domainOf].
           rewrite <- Hd.
           generalize (parseLog (programLevel st) (handlerJSON st)
                                (Format (NotAfter leaf))).
           intros parseEvents.
           rewrite <- !app_assoc. reflexivity.
        -- cbn [map endpointOf]. now rewrite Hmap.
        -- constructor; [|exact Hcons].
           cbn [consistent]. rewrite <- Hd. unfold alerted. rewrite Halert.
           split; [discriminate|intros Hnone; now contradiction Hnone].
Qed.
End MainFacts.

Section MainRun.
Context {W : Type} {H : Host W}.
Import GoStrings.

Lemma appendSummaries_flat_map (domains : list Domain) :
  forall summaryLines,
    appendSummaries summaryLines domains
    = summaryLines ++ flat_map (fun d => [Summary d; EmptyString]) domains.
Proof.
  induction domains as [|d domains IH]; intros summaryLines;
    cbn [appendSummaries flat_map].
  - now rewrite app_nil_r.
  - rewrite IH, <- !app_assoc. reflexivity.
Qed.

(** A run of main: one probe per configured domain, then the summary when
    it is asked for; main returns. *)
Lemma main_run (config : Config) (flags : Flags) (w : W) :
  presentsChain W ->
  exists probes w' r,
    main config flags (start w)
    = (Returns tt,
       {| world := w'; programLevel := levelOf flags;
          handlerJSON := jsonFlag flags;
          trace :=
            flat_map (probeEvents config (levelOf flags) (jsonFlag flags))
                     probes
            ++ summaryEvents config flags (levelOf flags) (jsonFlag flags)
                 (summaryBody (domainsOf (Threshold config) probes)) r |})
    /\ map endpointOf probes = Domains config
    /\ Forall (consistent config flags) probes.
Proof.
  intros Hchain.
  set (st0 := {| world := w; programLevel := levelOf flags;
                 handlerJSON := jsonFlag flags; trace := [] |}).
  assert (Hinit :
    forall A (k : unit -> M W A),
      (setLevel LevelWarn ;; setHandler (jsonFlag flags) ;;
       _ <- (if debugFlag flags then setLevel LevelDebug else ret tt) ;; k tt)
        (start w)
      = k tt st0).
  { intros A k. subst st0. unfold levelOf.
    destruct (debugFlag flags); reflexivity. }
  unfold main.
  rewrite (Hinit _ (fun _ => _ <- checkDomains config flags (Domains config) [] ;; _)).
  destruct (checkDomains_run config flags Hchain (Domains config) [] st0)
    as (probes & w1 & Hloop & Hmap & Hcons).
  rewrite (bind_returns _ _ _ _ _ Hloop).
  cbn [app]. rewrite appendSummaries_flat_map. cbn [app].
  fold (summaryBody (domainsOf (Threshold config) probes)).
  remember (summaryBody (domainsOf (Threshold config) probes)) as body
    eqn:Hbody.
  unfold summaryEvents.
  destruct (summaryFlag flags); [destruct (printFlag flags)|].
  - exists probes, w1, None. split; [|now split].
    rewrite <- Hbody.
    unfold Println. rewrite emit_run, after_after. reflexivity.
  - destruct (sendEmail_run config "certificate summary" body
                            (after st0 w1
                               (flat_map (probeEvents config (programLevel st0)
                                                      (handlerJSON st0)) probes)))
      as (r & w2 & Hsend).
    exists probes, w2, r. split; [|now split].
    rewrite <- Hbody.
    rewrite Hsend. rewrite after_after. reflexivity.
  - exists probes, w1, None. split; [|now split].
    unfold ret. rewrite app_nil_r. reflexivity.
Qed.
End MainRun.

(** ** Reading a trace *)

Section TraceFacts.
Variable A : Type.
Variable f : Event -> list A.

Lemma seen_logged level json l msg attrs :
  (forall json l msg attrs, f (EvLog json l msg attrs) = []) ->
  flat_map f (logged level json l msg attrs) = [].
Proof.
  intros Hf. unfold logged.
  destruct (levelValue level <=? levelValue l); cbn [flat_map];
    [rewrite Hf|]; reflexivity.
Qed.

Lemma seen_parseLog level json targetDate :
  (forall json l msg attrs, f (EvLog json l msg attrs) = []) ->
  flat_map f (parseLog level json targetDate) = [].
Proof.
  intros Hf. unfold parseLog.
  destruct (snd (GoTimeFormat.Parse targetDate)); [|reflexivity].
  now apply seen_logged.
Qed.

Lemma seen_connectEvents endpoint :
  (forall host port config dialer,
      f (EvConnect host port config dialer) = []) ->
  flat_map f (connectEvents endpoint) = [].
Proof.
  intros Hf. unfold connectEvents.
  destruct (GoNet.SplitHostPort (endpoint +++ ":443")) as [[host port]|e];
    cbn [flat_map]; [rewrite Hf|]; reflexivity.
Qed.

(** Of the events of a mail, only the hand-over to the server is not a
    log record. *)
Lemma seen_mailEvents config level json subject contents r :
  (forall json l msg attrs, f (EvLog json l msg attrs) = []) ->
  flat_map f (mailEvents config level json subject contents r)
  = f (EvSend (Server (SMTP config)) (Port (SMTP config))
              {| From := SMTPFrom (SMTP config); To := SMTPTo (SMTP config);
                 Subject := subject; ContentType := "text/plain";
                 Body := contents |} r).
Proof.
  intros Hf. unfold mailEvents.
  rewrite !flat_map_app, seen_logged by exact Hf.
  cbn [flat_map app]. rewrite app_nil_r.
  destruct r as [err|]; [rewrite seen_logged by exact Hf|];
    cbn [flat_map]; now rewrite app_nil_r.
Qed.

(** Of the events of a probe, the log apart. *)
Lemma seen_probeEvents config level json p :
  (forall json l msg attrs, f (EvLog json l msg attrs) = []) ->
  (forall host port config dialer,
      f (EvConnect host port config dialer) = []) ->
  flat_map f (probeEvents config level json p)
  = match p with
    | Unreachable endpoint err =>
        f (EvDial "tcp" (endpoint +++ ":443") (Err err))
    | Probed endpoint leaf chain now delivery =>
        f (EvDial "tcp" (endpoint +++ ":443")
                  (Ok {| PeerCertificates := leaf :: chain |}))
        ++ f (EvNow now)
        ++ f (EvClose (endpoint +++ ":443"))
        ++ match delivery with
           | Some r =>
               f (EvSend (Server (SMTP config)) (Port (SMTP config))
                         {| From := SMTPFrom (SMTP config);
                            To := SMTPTo (SMTP config);
                            Subject := alertSubject endpoint;
                            ContentType := "text/plain";
                            Body := Summary (buildDomain (Threshold config)
                                                         leaf now) |} r)
           | None => []
           end
    end.
Proof.
  intros Hlog Hconn. destruct p as [endpoint err|endpoint leaf chain now delivery];
    unfold probeEvents.
  - rewrite !flat_map_app, !seen_logged, seen_connectEvents by assumption.
    cbn [flat_map app]. now rewrite !app_nil_r.
  - cbv zeta.
    rewrite !flat_map_app, !seen_logged, seen_connectEvents, seen_parseLog
      by assumption.
    cbn [flat_map app]. rewrite !app_nil_r.
    destruct delivery as [r|]; [rewrite seen_mailEvents by assumption|];
      reflexivity.
Qed.
End TraceFacts.

Section LogFacts.
Variable msg : string.

Lemma flat_map_flat_map {A B C} (g : B -> list C) (h : A -> list B) (l : list A) :
  flat_map g (flat_map h l) = flat_map (fun a => flat_map g (h a)) l.
Proof.
  induction l as [|a l IH]; cbn [flat_map]; [reflexivity|].
  now rewrite flat_map_app, IH.
Qed.

Lemma errorsLogged_app tr1 tr2 :
  errorsLogged msg (tr1 ++ tr2) = errorsLogged msg tr1 ++ errorsLogged msg tr2.
Proof. apply flat_map_app. Qed.

Lemma errorsLogged_debug level json m attrs :
  errorsLogged msg (logged level json LevelDebug m attrs) = [].
Proof.
  unfold logged. now destruct (levelValue level <=? levelValue LevelDebug).
Qed.

Lemma errorsLogged_error level json m k err :
  levelValue level <= levelValue LevelError ->
  errorsLogged msg (logged level json LevelError m [(k, AString err)])
  = if String.eqb m msg then [err] else [].
Proof.
  intros Hl. unfold logged.
  destruct (Z.leb_spec (levelValue level) (levelValue LevelError)); [|lia].
  unfold errorsLogged. cbn [flat_map]. now rewrite app_nil_r.
Qed.

Lemma errorsLogged_parseLog level json targetDate :
  errorsLogged msg (parseLog level json targetDate) = [].
Proof.
  unfold parseLog. destruct (snd (GoTimeFormat.Parse targetDate)); [|reflexivity].
  unfold logged. now destruct (levelValue level <=? levelValue LevelError).
Qed.

Lemma errorsLogged_connectEvents endpoint :
  errorsLogged msg (connectEvents endpoint) = [].
Proof.
  unfold connectEvents.
  now destruct (GoNet.SplitHostPort (endpoint +++ ":443")) as [[host port]|e].
Qed.

Lemma errorsLogged_mailEvents config level json subject contents r :
  levelValue level <= levelValue LevelError ->
  errorsLogged msg (mailEvents config level json subject contents r)
  = match r with
    | Some err => if String.eqb "failed to send email" msg then [err] else []
    | None => []
    end.
Proof.
  intros Hl. unfold mailEvents.
  rewrite !errorsLogged_app, errorsLogged_debug.
  destruct r as [err|]; [rewrite errorsLogged_error by exact Hl|]; reflexivity.
Qed.

Lemma errorsLogged_probeEvents config level json p :
  levelValue level <= levelValue LevelError ->
  errorsLogged msg (probeEvents config level json p)
  = match p with
    | Unreachable _ err =>
        if String.eqb "failed to dial domain" msg then [err] else []
    | Probed _ _ _ _ (Some (Some err)) =>
        if String.eqb "failed to send email" msg then [err] else []
    | Probed _ _ _ _ _ => []
    end.
Proof.
  intros Hl. destruct p as [endpoint err|endpoint leaf chain now delivery];
    unfold probeEvents.
  - rewrite !errorsLogged_app, errorsLogged_debug, errorsLogged_connectEvents,
      errorsLogged_error by exact Hl.
    reflexivity.
  - cbv zeta.
    rewrite !errorsLogged_app, !errorsLogged_debug, errorsLogged_connectEvents,
      errorsLogged_parseLog.
    destruct delivery as [r|]; [|reflexivity].
    rewrite errorsLogged_mailEvents by exact Hl.
    now destruct r.
Qed.
End LogFacts.

Lemma levelOf_logs_errors (flags : Flags) :
  levelValue (levelOf flags) <= levelValue LevelError.
Proof. unfold levelOf. destruct (debugFlag flags); cbn; lia. Qed.

(** ** The trace of a run of main *)

Section RunTrace.
Context {W : Type} {H : Host W}.

Lemma main_trace (config : Config) (flags : Flags) (w : W) :
  presentsChain W ->
  exists probes r,
    outcomeOf config flags w = Returns tt
    /\ traceOf config flags w
       = flat_map (probeEvents config (levelOf flags) (jsonFlag flags)) probes
         ++ summaryEvents config flags (levelOf flags) (jsonFlag flags)
              (summaryBody (domainsOf (Threshold config) probes)) r
    /\ map endpointOf probes = Domains config
    /\ Forall (consistent config flags) probes.
Proof.
  intros Hchain.
  destruct (main_run config flags w Hchain) as (probes & w' & r & Hrun & Hmap & Hcons).
  exists probes, r. unfold outcomeOf, traceOf. rewrite Hrun.
  now repeat split.
Qed.
End RunTrace.

Section ProbesSeen.
Variables (config : Config) (flags : Flags) (level : Level) (json : bool).

Lemma seen_summaryEvents {A} (f : Event -> list A) body r :
  (forall json l msg attrs, f (EvLog json l msg attrs) = []) ->
  flat_map f (summaryEvents config flags level json body r)
  = if summaryFlag flags then
      if printFlag flags then f (EvStdout (body +++ nl))
      else f (EvSend (Server (SMTP config)) (Port (SMTP config))
                     {| From := SMTPFrom (SMTP config);
                        To := SMTPTo (SMTP config);
                        Subject := summarySubject;
                        ContentType := "text/plain";
                        Body := body |} r)
    else [].
Proof.
  intros Hlog. unfold summaryEvents.
  destruct (summaryFlag flags); [|reflexivity].
  destruct (printFlag flags).
  - cbn [flat_map]. now rewrite app_nil_r.
  - now apply seen_mailEvents.
Qed.

Lemma dials_probes (probes : list Probe) :
  dials (flat_map (probeEvents config level json) probes) = map dialOf probes.
Proof.
  unfold dials. rewrite flat_map_flat_map.
  induction probes as [|p probes IH]; cbn [flat_map map]; [reflexivity|].
  rewrite IH, seen_probeEvents by reflexivity.
  destruct p as [endpoint err|endpoint leaf chain now [r|]]; reflexivity.
Qed.

Lemma dials_summaryEvents body r :
  dials (summaryEvents config flags level json body r) = [].
Proof.
  unfold dials. rewrite seen_summaryEvents by reflexivity.
  destruct (summaryFlag flags), (printFlag flags); reflexivity.
Qed.

Lemma dialErrors_probes (probes : list Probe) :
  flat_map (fun d : string * Result ConnectionState =>
              match snd d with
              | Err err => [err]
              | Ok _ => []
              end) (map dialOf probes)
  = probeErrors probes.
Proof.
  unfold probeErrors.
  induction probes as [|p probes IH]; cbn [flat_map map]; [reflexivity|].
  rewrite IH. now destruct p.
Qed.

Lemma dial_errors_logged (probes : list Probe) :
  levelValue level <= levelValue LevelError ->
  errorsLogged "failed to dial domain"
               (flat_map (probeEvents config level json) probes)
  = probeErrors probes.
Proof.
  intros Hl. unfold probeErrors.
  induction probes as [|p probes IH]; cbn [flat_map]; [reflexivity|].
  rewrite errorsLogged_app, IH, errorsLogged_probeEvents by exact Hl.
  destruct p as [endpoint err|endpoint leaf chain now [[err|]|]]; reflexivity.
Qed.

Lemma send_errors_logged (probes : list Probe) :
  levelValue level <= levelValue LevelError ->
  errorsLogged "failed to send email"
               (flat_map (probeEvents config level json) probes)
  = deliveryErrors (flat_map (probeEvents config level json) probes).
Proof.
  intros Hl. unfold deliveryErrors.
  induction probes as [|p probes IH]; cbn [flat_map]; [reflexivity|].
  rewrite errorsLogged_app, flat_map_app, IH, errorsLogged_probeEvents
    by exact Hl.
  rewrite seen_probeEvents by reflexivity.
  destruct p as [endpoint err|endpoint leaf chain now [[err|]|]]; reflexivity.
Qed.

Lemma summary_errors_logged body r msg :
  levelValue level <= levelValue LevelError ->
  errorsLogged msg (summaryEvents config flags level json body r)
  = if String.eqb "failed to send email" msg
    then deliveryErrors (summaryEvents config flags level json body r)
    else [].
Proof.
  intros Hl. unfold deliveryErrors.
  rewrite seen_summaryEvents by reflexivity. unfold summaryEvents.
  destruct (summaryFlag flags); [|now destruct (String.eqb _ _)].
  destruct (printFlag flags); [now destruct (String.eqb _ _)|].
  rewrite errorsLogged_mailEvents by exact Hl.
  destruct r as [err|]; now destruct (String.eqb _ _).
Qed.
End ProbesSeen.

(** In the scripted world every handshake presents its leaf. *)
Lemma script_presentsChain : presentsChain Script.
Proof.
  intros w host port config dialer cs w'. cbn [hostConnect scriptHost].
  destruct (String.eqb port "443"); [|discriminate].
  induction (scriptSites w) as [|[h [leaf chain]] sites IH]; cbn [lookupSite].
  - discriminate.
  - destruct (String.eqb h host); [|exact IH].
    intros [= <- _]. discriminate.
Qed.

(** * The properties of the run *)

Section Resilience.
Context {W : Type} {H : Host W}.

(** C4.  Whatever dials fail, main returns, and on the way it has dialed
    every configured domain, in the configured order, on port 443, and has
    logged the error of every dial that failed, in that order, under
    "failed to dial domain": no failure ends the loop. *)
Theorem main_dials_every_domain (config : Config) (flags : Flags) (w : W) :
  presentsChain W ->
  outcomeOf config flags w = Returns tt
  /\ map fst (dials (traceOf config flags w))
     = map (fun domain => domain +++ ":443") (Domains config)
  /\ errorsLogged "failed to dial domain" (traceOf config flags w)
     = dialErrors (traceOf config flags w).
Proof.
  intros Hchain.
  destruct (main_trace config flags w Hchain)
    as (probes & r & Hout & Htrace & Hmap & _).
  split; [exact Hout|]. rewrite Htrace.
  unfold dialErrors. unfold dials at 1 2.
  rewrite flat_map_app. fold (dials (flat_map (probeEvents config (levelOf flags) (jsonFlag flags)) probes)).
  fold (dials (summaryEvents config flags (levelOf flags) (jsonFlag flags)
                 (summaryBody (domainsOf (Threshold config) probes)) r)).
  rewrite dials_probes, dials_summaryEvents, app_nil_r.
  split.
  - rewrite <- Hmap, !map_map. reflexivity.
  - rewrite errorsLogged_app, dial_errors_logged, summary_errors_logged
      by apply levelOf_logs_errors.
    cbn [String.eqb Ascii.eqb Bool.eqb]. cbv iota.
    now rewrite app_nil_r, dialErrors_probes.
Qed.

(** C8.  sendEmail returns whatever the SMTP server answers; main
    returns, has dialed every configured domain, and has logged the error
    of every delivery that failed under "failed to send email". *)
Theorem main_survives_failed_deliveries (config : Config) (flags : Flags)
        (w : W) :
  presentsChain W ->
  (forall subject contents st,
      fst (sendEmail config subject contents st) = Returns tt)
  /\ outcomeOf config flags w = Returns tt
  /\ map fst (dials (traceOf config flags w))
     = map (fun domain => domain +++ ":443") (Domains config)
  /\ errorsLogged "failed to send email" (traceOf config flags w)
     = deliveryErrors (traceOf config flags w).
Proof.
  intros Hchain. split.
  { intros subject contents st.
    destruct (sendEmail_run config subject contents st) as (r & w' & Hsend).
    now rewrite Hsend. }
  destruct (main_trace config flags w Hchain)
    as (probes & r & Hout & Htrace & Hmap & _).
  split; [exact Hout|]. rewrite Htrace. split.
  - unfold dials. rewrite flat_map_app.
    fold (dials (flat_map (probeEvents config (levelOf flags) (jsonFlag flags)) probes)).
    fold (dials (summaryEvents config flags (levelOf flags) (jsonFlag flags)
                   (summaryBody (domainsOf (Threshold config) probes)) r)).
    rewrite dials_probes, dials_summaryEvents, app_nil_r.
    rewrite <- Hmap, !map_map. reflexivity.
  - rewrite errorsLogged_app, send_errors_logged, summary_errors_logged
      by apply levelOf_logs_errors.
    unfold deliveryErrors at 3. rewrite flat_map_app. reflexivity.
Qed.
End Resilience.

Lemma main_dials_every_domain_witness :
  presentsChain Script
  /\ outcomeOf configExample (flagsExample true false) (scriptExample None)
     = Returns tt
  /\ map fst (dials (traceOf configExample (flagsExample true false)
                             (scriptExample None)))
     = map (fun domain => domain +++ ":443") (Domains configExample)
  /\ errorsLogged "failed to dial domain"
       (traceOf configExample (flagsExample true false) (scriptExample None))
     = dialErrors (traceOf configExample (flagsExample true false)
                           (scriptExample None)).
Proof.
  split; [exact script_presentsChain|].
  exact (main_dials_every_domain configExample (flagsExample true false)
           (scriptExample None) script_presentsChain).
Defined.

Lemma main_survives_failed_deliveries_witness :
  presentsChain Script
  /\ (forall subject contents st,
         fst (sendEmail configExample subject contents st) = Returns tt)
  /\ outcomeOf configExample (flagsExample true false)
               (scriptExample (Some "dial tcp: connection refused"))
     = Returns tt
  /\ map fst (dials (traceOf configExample (flagsExample true false)
                       (scriptExample (Some "dial tcp: connection refused"))))
     = map (fun domain => domain +++ ":443") (Domains configExample)
  /\ errorsLogged "failed to send email"
       (traceOf configExample (flagsExample true false)
                (scriptExample (Some "dial tcp: connection refused")))
     = deliveryErrors
         (traceOf configExample (flagsExample true false)
                  (scriptExample (Some "dial tcp: connection refused"))).
Proof.
  split; [exact script_presentsChain|].
  exact (main_survives_failed_deliveries configExample
           (flagsExample true false)
           (scriptExample (Some "dial tcp: connection refused"))
           script_presentsChain).
Defined.

(** ** Mails and output of a run *)

Section MailsSeen.
Variables (config : Config) (flags : Flags) (level : Level) (json : bool).

Lemma mails_probes (probes : list Probe) :
  Forall (consistent config flags) probes ->
  mails (flat_map (probeEvents config level json) probes)
  = map alertFor
        (filter (fun ed => alerted flags (snd ed))
                (answered (Threshold config) probes)).
Proof.
  intros Hcons. unfold mails. rewrite flat_map_flat_map.
  induction Hcons as [|p probes Hp _ IH]; cbn [flat_map]; [reflexivity|].
  rewrite IH, seen_probeEvents by reflexivity. unfold answered.
  cbn [flat_map]. rewrite filter_app, map_app. f_equal.
  destruct p as [endpoint err|endpoint leaf chain now delivery];
    [reflexivity|].
  cbn [consistent] in Hp. cbn [filter snd app].
  destruct (alerted flags (buildDomain (Threshold config) leaf now)).
  - destruct delivery as [r|]; [reflexivity|].
    now destruct (proj1 Hp eq_refl).
  - destruct delivery as [r|]; [|reflexivity].
    assert (Hne : Some r <> None) by discriminate.
    apply Hp in Hne. discriminate.
Qed.

Lemma mails_summaryEvents body r :
  mails (summaryEvents config flags level json body r)
  = if summaryFlag flags && negb (printFlag flags)
    then [(summarySubject, body)] else [].
Proof.
  unfold mails. rewrite seen_summaryEvents by reflexivity.
  destruct (summaryFlag flags), (printFlag flags); reflexivity.
Qed.

Lemma printed_probes (probes : list Probe) :
  printed (flat_map (probeEvents config level json) probes) = [].
Proof.
  unfold printed. rewrite flat_map_flat_map.
  induction probes as [|p probes IH]; cbn [flat_map]; [reflexivity|].
  rewrite IH, seen_probeEvents by reflexivity.
  destruct p as [endpoint err|endpoint leaf chain now [r|]]; reflexivity.
Qed.

Lemma printed_summaryEvents body r :
  printed (summaryEvents config flags level json body r)
  = if summaryFlag flags && printFlag flags then [body +++ nl] else [].
Proof.
  unfold printed. rewrite seen_summaryEvents by reflexivity.
  destruct (summaryFlag flags), (printFlag flags); reflexivity.
Qed.

Lemma clockReads_probes (probes : list Probe) :
  clockReads (flat_map (probeEvents config level json) probes)
  = flat_map clockOf probes.
Proof.
  unfold clockReads. rewrite flat_map_flat_map.
  induction probes as [|p probes IH]; cbn [flat_map]; [reflexivity|].
  rewrite IH, seen_probeEvents by reflexivity.
  destruct p as [endpoint err|endpoint leaf chain now [r|]]; reflexivity.
Qed.

Lemma clockReads_summaryEvents body r :
  clockReads (summaryEvents config flags level json body r) = [].
Proof.
  unfold clockReads. rewrite seen_summaryEvents by reflexivity.
  destruct (summaryFlag flags), (printFlag flags); reflexivity.
Qed.

(** No alert has the subject of the summary. *)
Lemma mailedAs_alerts (eds : list (string * Domain)) :
  flat_map (fun m : string * string =>
              if String.eqb (fst m) summarySubject then [snd m] else [])
           (map alertFor eds) = [].
Proof.
  induction eds as [|ed eds IH]; cbn [map flat_map]; [reflexivity|].
  rewrite IH. reflexivity.
Qed.

Lemma domainsOf_answered (probes : list Probe) :
  domainsOf (Threshold config) probes
  = map snd (answered (Threshold config) probes).
Proof.
  unfold domainsOf, answered.
  induction probes as [|p probes IH]; cbn [flat_map map]; [reflexivity|].
  rewrite map_app, IH. now destruct p.
Qed.

Lemma summaryBody_answered (probes : list Probe) :
  summaryBody (domainsOf (Threshold config) probes)
  = GoStrings.Join
      (flat_map (fun ed : string * Domain => [Summary (snd ed); EmptyString])
                (answered (Threshold config) probes)) nl.
Proof.
  unfold summaryBody. rewrite domainsOf_answered. f_equal.
  induction (answered (Threshold config) probes) as [|ed eds IH];
    cbn [flat_map map]; [reflexivity|].
  now rewrite IH.
Qed.
End MailsSeen.

Section RunOutput.
Context {W : Type} {H : Host W}.

(** What a run of main shows: its dials, clock readings, mails and
    output, by the probes of the run. *)
Lemma main_shows (config : Config) (flags : Flags) (w : W) :
  presentsChain W ->
  exists probes,
    map endpointOf probes = Domains config
    /\ Forall (consistent config flags) probes
    /\ dials (traceOf config flags w) = map dialOf probes
    /\ clockReads (traceOf config flags w) = flat_map clockOf probes
    /\ mails (traceOf config flags w)
       = map alertFor
             (filter (fun ed => alerted flags (snd ed))
                     (answered (Threshold config) probes))
         ++ (if summaryFlag flags && negb (printFlag flags)
             then [(summarySubject,
                    summaryBody (domainsOf (Threshold config) probes))]
             else [])
    /\ printed (traceOf config flags w)
       = if summaryFlag flags && printFlag flags
         then [summaryBody (domainsOf (Threshold config) probes) +++ nl]
         else [].
Proof.
  intros Hchain.
  destruct (main_trace config flags w Hchain)
    as (probes & r & _ & Htrace & Hmap & Hcons).
  exists probes. rewrite Htrace.
  split; [exact Hmap|]. split; [exact Hcons|].
  unfold dials, clockReads, mails, printed. rewrite !flat_map_app.
  fold (dials (flat_map (probeEvents config (levelOf flags) (jsonFlag flags)) probes)).
  fold (clockReads (flat_map (probeEvents config (levelOf flags) (jsonFlag flags)) probes)).
  fold (mails (flat_map (probeEvents config (levelOf flags) (jsonFlag flags)) probes)).
  fold (printed (flat_map (probeEvents config (levelOf flags) (jsonFlag flags)) probes)).
  generalize (summaryBody (domainsOf (Threshold config) probes)) as body.
  intros body.
  fold (dials (summaryEvents config flags (levelOf flags) (jsonFlag flags) body r)).
  fold (clockReads (summaryEvents config flags (levelOf flags) (jsonFlag flags) body r)).
  fold (mails (summaryEvents config flags (levelOf flags) (jsonFlag flags) body r)).
  fold (printed (summaryEvents config flags (levelOf flags) (jsonFlag flags) body r)).
  rewrite dials_probes, dials_summaryEvents, clockReads_probes,
    clockReads_summaryEvents, (mails_probes _ _ _ _ _ Hcons),
    mails_summaryEvents, printed_probes, printed_summaryEvents, !app_nil_r.
  repeat split.
Qed.
End RunOutput.

Section Reports.
Context {W : Type} {H : Host W}.

Lemma mailedAs_app subject tr1 tr2 :
  mailedAs subject (tr1 ++ tr2) = mailedAs subject tr1 ++ mailedAs subject tr2.
Proof.
  unfold mailedAs, mails. now rewrite !flat_map_app.
Qed.

(** C3.  When the summary is asked for, its body is the summaries of the
    domains whose dial was answered, in the configured order, each followed
    by an empty line, and nothing of the domains whose dial failed; it is
    printed once, or mailed once under "certificate summary", whatever
    alerts were sent. *)
Theorem summary_lists_answered_domains (config : Config) (flags : Flags)
        (w : W) :
  presentsChain W ->
  summaryFlag flags = true ->
  exists probes,
    map endpointOf probes = Domains config
    /\ dials (traceOf config flags w) = map dialOf probes
    /\ clockReads (traceOf config flags w) = flat_map clockOf probes
    /\ (if printFlag flags
        then printed (traceOf config flags w)
             = [summaryBody (domainsOf (Threshold config) probes) +++ nl]
             /\ mailedAs summarySubject (traceOf config flags w) = []
        else printed (traceOf config flags w) = []
             /\ mailedAs summarySubject (traceOf config flags w)
                = [summaryBody (domainsOf (Threshold config) probes)]).
Proof.
  intros Hchain Hsummary.
  destruct (main_shows config flags w Hchain)
    as (probes & Hmap & _ & Hdials & Hclock & Hmails & Hprinted).
  exists probes. repeat (split; [assumption|]).
  unfold mailedAs. rewrite Hmails, Hprinted, Hsummary, flat_map_app,
    mailedAs_alerts.
  destruct (printFlag flags); cbn [andb negb flat_map app]; split; reflexivity.
Qed.

(** C5.  When printing, no mail is handed to the SMTP server, whichever
    domains expire soon and whether or not the summary is asked for; the
    summary, when asked for, is what is printed. *)
Theorem print_only_sends_no_mail (config : Config) (flags : Flags) (w : W) :
  presentsChain W ->
  printFlag flags = true ->
  mails (traceOf config flags w) = []
  /\ exists probes,
       map endpointOf probes = Domains config
       /\ dials (traceOf config flags w) = map dialOf probes
       /\ printed (traceOf config flags w)
          = if summaryFlag flags
            then [summaryBody (domainsOf (Threshold config) probes) +++ nl]
            else [].
Proof.
  intros Hchain Hprint.
  destruct (main_shows config flags w Hchain)
    as (probes & Hmap & _ & Hdials & _ & Hmails & Hprinted).
  split.
  - rewrite Hmails, Hprint, andb_false_r, app_nil_r. clear Hmails.
    induction (answered (Threshold config) probes) as [|ed eds IH];
      [reflexivity|].
    cbn [filter]. unfold alerted at 1. rewrite Hprint, andb_false_r.
    exact IH.
  - exists probes. repeat (split; [assumption|]).
    now rewrite Hprinted, Hprint, andb_true_r.
Qed.

(** C9.  When the summary is asked for and no dial was answered, also
    when no domain is configured, the summary still goes out once, with an
    empty body: an empty line is printed, or a mail with an empty body is
    sent, and no other mail is. *)
Theorem summary_of_no_domain_is_empty (config : Config) (flags : Flags)
        (w : W) :
  presentsChain W ->
  summaryFlag flags = true ->
  allDialsFailed (traceOf config flags w) ->
  if printFlag flags
  then printed (traceOf config flags w) = [nl]
       /\ mails (traceOf config flags w) = []
  else printed (traceOf config flags w) = []
       /\ mails (traceOf config flags w) = [(summarySubject, EmptyString)].
Proof.
  intros Hchain Hsummary Hfailed.
  destruct (main_shows config flags w Hchain)
    as (probes & _ & _ & Hdials & _ & Hmails & Hprinted).
  assert (Hnone : answered (Threshold config) probes = []).
  { unfold allDialsFailed in Hfailed. rewrite Hdials in Hfailed.
    clear Hdials Hmails Hprinted.
    induction probes as [|p probes IH]; [reflexivity|].
    destruct p as [endpoint err|endpoint leaf chain now delivery].
    - apply IH. intros addr cs Hin. apply (Hfailed addr cs). now right.
    - exfalso.
      apply (Hfailed (endpoint +++ ":443")
                     {| PeerCertificates := leaf :: chain |}).
      now left. }
  rewrite Hmails, Hprinted, Hsummary, domainsOf_answered, Hnone.
  destruct (printFlag flags); split; reflexivity.
Qed.

(** C10.  The body of the alert for a domain is the summary getDomain
    built for it, and the same string is the entry of the domain in the body
    of the summary: the mails of a run are the alerts of the domains that
    answered and expire soon, then the summary of the domains that
    answered. *)
Theorem alert_body_is_summary_entry (config : Config) (flags : Flags) (w : W) :
  presentsChain W ->
  exists probes,
    map endpointOf probes = Domains config
    /\ dials (traceOf config flags w) = map dialOf probes
    /\ mails (traceOf config flags w)
       = map alertFor
             (filter (fun ed => alerted flags (snd ed))
                     (answered (Threshold config) probes))
         ++ (if summaryFlag flags && negb (printFlag flags)
             then [(summarySubject,
                    GoStrings.Join
                      (flat_map (fun ed : string * Domain =>
                                   [Summary (snd ed); EmptyString])
                                (answered (Threshold config) probes)) nl)]
             else []).
Proof.
  intros Hchain.
  destruct (main_shows config flags w Hchain)
    as (probes & Hmap & _ & Hdials & _ & Hmails & _).
  exists probes. repeat (split; [assumption|]).
  now rewrite Hmails, summaryBody_answered.
Qed.
End Reports.

Lemma summary_lists_answered_domains_witness :
  presentsChain Script
  /\ summaryFlag (flagsExample true false) = true
  /\ exists probes,
       map endpointOf probes = Domains configExample
       /\ dials (traceOf configExample (flagsExample true false)
                         (scriptExample None))
          = map dialOf probes
       /\ clockReads (traceOf configExample (flagsExample true false)
                              (scriptExample None))
          = flat_map clockOf probes
       /\ printed (traceOf configExample (flagsExample true false)
                           (scriptExample None)) = []
       /\ mailedAs summarySubject
                   (traceOf configExample (flagsExample true false)
                            (scriptExample None))
          = [summaryBody (domainsOf (Threshold configExample) probes)].
Proof.
  split; [exact script_presentsChain|]. split; [reflexivity|].
  exact (summary_lists_answered_domains configExample (flagsExample true false)
           (scriptExample None) script_presentsChain eq_refl).
Defined.

Lemma print_only_sends_no_mail_witness :
  presentsChain Script
  /\ printFlag (flagsExample true true) = true
  /\ mails (traceOf configExample (flagsExample true true)
                    (scriptExample None)) = []
  /\ exists probes,
       map endpointOf probes = Domains configExample
       /\ dials (traceOf configExample (flagsExample true true)
                         (scriptExample None))
          = map dialOf probes
       /\ printed (traceOf configExample (flagsExample true true)
                           (scriptExample None))
          = [summaryBody (domainsOf (Threshold configExample) probes) +++ nl].
Proof.
  split; [exact script_presentsChain|]. split; [reflexivity|].
  exact (print_only_sends_no_mail configExample (flagsExample true true)
           (scriptExample None) script_presentsChain eq_refl).
Defined.

Lemma summary_of_no_domain_is_empty_witness :
  presentsChain Script
  /\ summaryFlag (flagsExample true false) = true
  /\ allDialsFailed (traceOf configDown (flagsExample true false)
                             (scriptExample None))
  /\ printed (traceOf configDown (flagsExample true false)
                      (scriptExample None)) = []
  /\ mails (traceOf configDown (flagsExample true false) (scriptExample None))
     = [(summarySubject, EmptyString)].
Proof.
  assert (Hfailed : allDialsFailed (traceOf configDown (flagsExample true false)
                                            (scriptExample None))).
  { intros addr cs Hin. vm_compute in Hin.
    destruct Hin as [Hin|[Hin|[]]]; discriminate Hin. }
  split; [exact script_presentsChain|]. split; [reflexivity|].
  split; [exact Hfailed|].
  exact (summary_of_no_domain_is_empty configDown (flagsExample true false)
           (scriptExample None) script_presentsChain eq_refl Hfailed).
Defined.

Lemma alert_body_is_summary_entry_witness :
  presentsChain Script
  /\ exists probes,
       map endpointOf probes = Domains configExample
       /\ dials (traceOf configExample (flagsExample true false)
                         (scriptExample None))
          = map dialOf probes
       /\ mails (traceOf configExample (flagsExample true false)
                         (scriptExample None))
          = map alertFor
                (filter (fun ed => alerted (flagsExample true false) (snd ed))
                        (answered (Threshold configExample) probes))
            ++ [(summarySubject,
                 GoStrings.Join
                   (flat_map (fun ed : string * Domain =>
                                [Summary (snd ed); EmptyString])
                             (answered (Threshold configExample) probes)) nl)].
Proof.
  split; [exact script_presentsChain|].
  exact (alert_body_is_summary_entry configExample (flagsExample true false)
           (scriptExample None) script_presentsChain).
Defined.

(** * The decision of isDateWithinDays *)

Section ShiftedFacts.
Import GoTime GoTimeFormat Calendar.

(** The instant AddDate makes is the wall clock, moved, less one of the
    offsets of the location. *)
Lemma shifted_range (now : Time) (days : Z) :
  validTime now -> validZone (loc now) -> inReach now days ->
  unixSec now + days * secondsPerDay - 4294967295
  <= unixSec (shifted now days)
  <= unixSec now + days * secondsPerDay + 4294967296.
Proof.
  intros Hvalid Hzone Hdays.
  destruct (wallSec_valid now Hvalid Hzone) as [Ewall _].
  pose proof (Hzone (unixSec now)) as Hoff.
  unfold shifted, inReach, reach, secondsPerDay in *. cbn [unixSec].
  destruct (zoneUnix_offset (loc now) (wallSec now + days * 86400) Hzone
              ltac:(lia)) as (offset & Hoffset & ->).
  lia.
Qed.


(** After a date of four digits, on the seconds since the Unix epoch. *)
Lemma After_shifted (now u : Time) (days : Z) :
  validTime now -> validZone (loc now) -> inReach now days ->
  -9150000000000000000 <= unixSec u <= 9150000000000000000 ->
  After (shifted now days) u = true
  <-> unixSec u < unixSec (shifted now days)
      \/ (unixSec (shifted now days) = unixSec u /\ nsec u < nsec now).
Proof.
  intros Hvalid Hzone Hdays Hu.
  pose proof (shifted_range now days Hvalid Hzone Hdays) as Hs.
  destruct Hvalid as [_ Hsec]. unfold inReach, reach, secondsPerDay in *.
  rewrite After_true, !sec_exact by lia.
  cbn [nsec shifted]. lia.
Qed.



(** The decision against the zero Time. *)
Lemma withinDays_zeroTime (now : Time) (targetDate : string) (days : Z)
      (e : ParseError) :
  Parse targetDate = (zeroTime, Some e) ->
  validTime now -> validZone (loc now) -> inReach now days ->
  0 <= unixSec now -> 0 <= days ->
  withinDays now targetDate days = true.
Proof.
  intros Hparse Hvalid Hzone Hreach Hnow Hdays. unfold withinDays.
  rewrite Hparse. cbn [fst].
  rewrite AddDate_days by assumption.
  apply After_shifted;
    [assumption|assumption|assumption|vm_compute; split; discriminate|].
  pose proof (shifted_range now days Hvalid Hzone Hreach) as Hs.
  left.
  unfold zeroTime, internalToUnix, unixToInternal, secondsPerDay in *.
  cbn [unixSec]. lia.
Qed.
End ShiftedFacts.

Section Decision.
Context {W : Type} {H : Host W}.
Import GoTime GoTimeFormat Calendar.



(** C2, as the code has it.  A date that does not parse is decided all
    the same, against the zero Time and after the failure is logged: for a
    clock from 1970 on and a number of days from 0 on, within reach of the
    seconds of 64 bits, isDateWithinDays reads the clock, logs one record
    at level Error and answers true.  The answer is a bool: no error comes
    back. *)
Theorem isDateWithinDays_malformed (targetDate : string) (days : Z)
        (st : St W) (t : Time) (e : ParseError) :
  Parse targetDate = (t, Some e) ->
  validTime (fst (hostNow (world st))) ->
  validZone (loc (fst (hostNow (world st)))) ->
  inReach (fst (hostNow (world st))) days ->
  0 <= unixSec (fst (hostNow (world st))) ->
  0 <= days ->
  isDateWithinDays targetDate days st
  = (Returns true,
     after st (snd (hostNow (world st)))
           ([EvNow (fst (hostNow (world st)))]
            ++ logged (programLevel st) (handlerJSON st) LevelError
                 ("failed to parse expiration date: " +++ ErrorText e +++ nl)
                 [])).
Proof.
  intros Hparse Hvalid Hzone Hreach Hnow Hdays.
  pose proof (isDateWithinDays_run targetDate days st) as Hrun.
  cbv zeta in Hrun. rewrite Hrun.
  pose proof (Parse_error _ _ _ Hparse) as ->.
  rewrite (withinDays_zeroTime _ _ _ e Hparse Hvalid Hzone Hreach Hnow Hdays).
  unfold parseLog. rewrite Hparse. reflexivity.
Qed.
End Decision.


Lemma UTC_valid : Calendar.validZone GoTime.UTC.
Proof. intros s. cbn. lia. Qed.



(** And in a zone east of UTC, in the first hours of the local day that
    is the date. *)
Lemma isDateWithinDays_false_east_of_UTC :
  GoTimeFormat.Parse "2024-01-10" = (midnightJan10, None)
  /\ Calendar.localDay earlyJan10East + 0 = Calendar.utcDay midnightJan10
  /\ fst (isDateWithinDays "2024-01-10" 0 (start (scriptAt earlyJan10East)))
     = Returns false.
Proof. vm_compute. repeat split. Qed.

(** Across the start of daylight saving time a day of AddDate has 23
    hours: on the evening of 2024-03-09 in New York the next day is not yet
    2024-03-11 in UTC, as it is at the same instant in a zone that stays five
    hours west. *)
Lemma isDateWithinDays_across_daylight_saving :
  GoTime.unixSec eveMar9NewYork = GoTime.unixSec eveMar9EST
  /\ fst (isDateWithinDays "2024-03-11" 1 (start (scriptAt eveMar9NewYork)))
     = Returns false
  /\ fst (isDateWithinDays "2024-03-11" 1 (start (scriptAt eveMar9EST)))
     = Returns true.
Proof. vm_compute. repeat split. Qed.

(** Out of reach the seconds of AddDate no longer fit in 64 bits and
    wrap around: after 2 * 10^14 days the answer is false for a date the
    clock has long reached. *)
Lemma isDateWithinDays_wraps_around :
  fst (isDateWithinDays "2024-01-10" 30 (start (scriptAt noonDec15)))
  = Returns true
  /\ fst (isDateWithinDays "2024-01-10" 200000000000000
            (start (scriptAt noonDec15)))
     = Returns false
  /\ GoTime.unixSec (GoTime.AddDate noonDec15 0 0 200000000000000)
     = -1166744072006910016.
Proof. vm_compute. repeat split. Qed.

(** C2, as it is stated, fails on a date that is malformed: the answer is
    a decision, true, and a record of the log is all that tells of the
    failure. *)
Lemma isDateWithinDays_answers_malformed :
  snd (GoTimeFormat.Parse "2024-02-30")
  = Some (GoTimeFormat.newParseError "2024-02-30" EmptyString EmptyString
                                     ": day out of range")
  /\ fst (isDateWithinDays "2024-02-30" 30 (start (scriptAt noonDec15)))
     = Returns true
  /\ logRecords
       (trace (snd (isDateWithinDays "2024-02-30" 30
                      (start (scriptAt noonDec15)))))
     = [(false, LevelError)].
Proof. vm_compute. repeat split. Qed.

Lemma isDateWithinDays_malformed_witness :
  GoTimeFormat.Parse "2024-02-30"
  = (GoTime.zeroTime,
     Some (GoTimeFormat.newParseError "2024-02-30" EmptyString EmptyString
                                      ": day out of range"))
  /\ Calendar.validTime (fst (hostNow (world (start (scriptAt noonDec15)))))
  /\ Calendar.validZone
       (GoTime.loc (fst (hostNow (world (start (scriptAt noonDec15))))))
  /\ Calendar.inReach (fst (hostNow (world (start (scriptAt noonDec15))))) 30
  /\ 0 <= GoTime.unixSec (fst (hostNow (world (start (scriptAt noonDec15)))))
  /\ 0 <= 30
  /\ isDateWithinDays "2024-02-30" 30 (start (scriptAt noonDec15))
     = (Returns true,
        after (start (scriptAt noonDec15))
              (snd (hostNow (world (start (scriptAt noonDec15)))))
              ([EvNow (fst (hostNow (world (start (scriptAt noonDec15)))))]
               ++ logged (programLevel (start (scriptAt noonDec15)))
                    (handlerJSON (start (scriptAt noonDec15))) LevelError
                    ("failed to parse expiration date: "
                     +++ GoTimeFormat.ErrorText
                           (GoTimeFormat.newParseError
                              "2024-02-30" EmptyString EmptyString
                              ": day out of range")
                     +++ nl) [])).
Proof.
  assert (Hvalid : Calendar.validTime
                     (fst (hostNow (world (start (scriptAt noonDec15))))))
    by (vm_compute; repeat split; discriminate).
  assert (Hreach : Calendar.inReach
                     (fst (hostNow (world (start (scriptAt noonDec15))))) 30)
    by (vm_compute; split; discriminate).
  assert (Hnow : 0 <= GoTime.unixSec
                        (fst (hostNow (world (start (scriptAt noonDec15))))))
    by (vm_compute; discriminate).
  assert (Hdays : 0 <= 30) by lia.
  split; [reflexivity|]. split; [exact Hvalid|]. split; [exact UTC_valid|].
  split; [exact Hreach|]. split; [exact Hnow|]. split; [exact Hdays|].
  exact (isDateWithinDays_malformed
           "2024-02-30" 30 (start (scriptAt noonDec15)) GoTime.zeroTime
           (GoTimeFormat.newParseError "2024-02-30" EmptyString EmptyString
                                       ": day out of range")
           eq_refl Hvalid UTC_valid Hreach Hnow Hdays).
Defined.

(** * The address getDomain dials *)

Section AddressFacts.
Import GoStrings GoNet.

Lemma IndexByteString_lower (s : string) (c : ascii) :
  -1 <= IndexByteString s c.
Proof.
  induction s as [|b s IH]; cbn [IndexByteString]; [lia|].
  destruct (Ascii.eqb b c); [lia|].
  destruct (Z.ltb_spec (IndexByteString s c) 0); lia.
Qed.

Lemma IndexByteString_append_absent (s t : string) (c : ascii) :
  IndexByteString s c < 0 -> IndexByteString t c < 0 ->
  IndexByteString (s +++ t) c < 0.
Proof.
  intros Hs Ht. induction s as [|b s IH]; cbn [append IndexByteString] in *;
    [exact Ht|].
  destruct (Ascii.eqb b c); [lia|].
  destruct (Z.ltb_spec (IndexByteString s c) 0) as [Hlt|Hge]; [|lia].
  specialize (IH Hlt).
  destruct (Z.ltb_spec (IndexByteString (s +++ t) c) 0); lia.
Qed.

(** The last colon of an address that ends in :443 is the one of :443. *)
Lemma last_colon_443 (s : string) : last (s +++ ":443") ":" = len s.
Proof.
  unfold len. induction s as [|b s IH]; [reflexivity|].
  cbn [append last String.length]. rewrite IH.
  destruct (Z.leb_spec 0 (Z.of_nat (String.length s))); lia.
Qed.

Lemma substring_prefix (s t : string) :
  substring 0 (String.length s) (s +++ t) = s.
Proof.
  induction s as [|b s IH]; cbn [append String.length substring].
  - now destruct t.
  - now rewrite IH.
Qed.

Lemma substring_suffix (s t : string) :
  substring (String.length s) (String.length t) (s +++ t) = t.
Proof.
  induction s as [|b s IH]; cbn [append String.length substring].
  - rewrite <- (append_empty_r t) at 2. rewrite substring_prefix.
    reflexivity.
  - exact IH.
Qed.

Lemma length_append (s t : string) :
  String.length (s +++ t) = (String.length s + String.length t)%nat.
Proof.
  induction s as [|b s IH]; cbn [append String.length]; [reflexivity|].
  now rewrite IH.
Qed.

Lemma slice_prefix (s t : string) : slice (s +++ t) 0 (len s) = s.
Proof.
  unfold slice, len. rewrite Z.sub_0_r, Nat2Z.id. cbn [Z.to_nat].
  apply substring_prefix.
Qed.

Lemma sliceFrom_0 (s : string) : sliceFrom s 0 = s.
Proof.
  unfold sliceFrom. rewrite <- (append_empty_r s) at 1.
  apply slice_prefix.
Qed.

Lemma sliceFrom_port (s : string) : sliceFrom (s +++ ":443") (len s + 1) = "443".
Proof.
  unfold sliceFrom, slice, len.
  replace (s +++ ":443") with ((s +++ ":") +++ "443")
    by now rewrite append_assoc.
  rewrite length_append.
  replace (Z.to_nat (Z.of_nat (String.length s) + 1))
    with (String.length (s +++ ":"))
    by (rewrite length_append; cbn [String.length]; lia).
  replace (Z.to_nat (Z.of_nat (String.length (s +++ ":") + String.length "443")
                     - (Z.of_nat (String.length s) + 1)))
    with (String.length "443")
    by (rewrite length_append; cbn [String.length]; lia).
  apply substring_suffix.
Qed.

(** The first byte of host:443 is the first byte of the host, or the
    colon. *)
Lemma byteIs_0_append (s : string) (c : ascii) :
  byteIs (s +++ ":443") 0 c
  = match s with
    | EmptyString => Ascii.eqb ":" c
    | String b _ => Ascii.eqb b c
    end.
Proof. now destruct s. Qed.

Lemma byteIs_0_absent (s : string) (c : ascii) :
  IndexByteString s c < 0 -> byteIs s 0 c = false.
Proof.
  destruct s as [|b s]; [reflexivity|].
  unfold byteIs, byteAt. cbn [Z.ltb Z.compare Z.to_nat String.get IndexByteString].
  destruct (Ascii.eqb b c); [lia|reflexivity].
Qed.

(** A bare host is dialed on port 443. *)
Lemma SplitHostPort_bare (host : string) :
  bareHost host = true ->
  SplitHostPort (host +++ ":443") = Ok (host, "443").
Proof.
  unfold bareHost. rewrite !andb_true_iff, !Z.ltb_lt.
  intros [[Hcolon Hopen] Hclose]. unfold SplitHostPort.
  rewrite last_colon_443.
  destruct (Z.ltb_spec (len host) 0) as [Hneg|_]; [unfold len in Hneg; lia|].
  rewrite byteIs_0_append.
  assert (Hfirst : match host with
                   | EmptyString => Ascii.eqb ":" "["
                   | String b _ => Ascii.eqb b "["
                   end = false).
  { destruct host as [|b host]; [reflexivity|].
    cbn [IndexByteString] in Hopen.
    destruct (Ascii.eqb b "["); [lia|reflexivity]. }
  rewrite Hfirst, slice_prefix.
  destruct (Z.leb_spec 0 (IndexByteString host ":")) as [Hge|_]; [lia|].
  rewrite sliceFrom_0.
  destruct (Z.leb_spec 0 (IndexByteString (host +++ ":443") "[")) as [Hge|_].
  { pose proof (IndexByteString_append_absent host ":443" "[" Hopen
                  ltac:(reflexivity)). lia. }
  destruct (Z.leb_spec 0 (IndexByteString (host +++ ":443") "]")) as [Hge|_].
  { pose proof (IndexByteString_append_absent host ":443" "]" Hclose
                  ltac:(reflexivity)). lia. }
  now rewrite sliceFrom_port.
Qed.

(** An endpoint that has a port already makes an address with two. *)
Lemma SplitHostPort_port (endpoint : string) :
  hasPort endpoint = true ->
  SplitHostPort (endpoint +++ ":443")
  = Err ("address " +++ endpoint +++ ":443: too many colons in address").
Proof.
  unfold hasPort. rewrite andb_true_iff, negb_true_iff, Z.leb_le.
  intros [Hcolon Hfirst]. unfold SplitHostPort.
  rewrite last_colon_443.
  destruct (Z.ltb_spec (len endpoint) 0) as [Hneg|_];
    [unfold len in Hneg; lia|].
  rewrite byteIs_0_append.
  destruct endpoint as [|b endpoint]; [cbn in Hcolon; lia|].
  unfold byteIs, byteAt in Hfirst.
  cbn [Z.ltb Z.compare Z.to_nat String.get] in Hfirst. rewrite Hfirst.
  rewrite slice_prefix.
  destruct (Z.leb_spec 0 (IndexByteString (String b endpoint) ":")); [|lia].
  unfold addrErr, tooManyColons. cbn [append].
  now rewrite !append_assoc.
Qed.
End AddressFacts.

Section Dialing.
Context {W : Type} {H : Host W}.
Import GoStrings GoTime GoTimeFormat GoNet.

(** An address that does not split fails the dial before the network is
    asked. *)
Lemma getDomain_bad_address (config : Config) (endpoint : string) (st : St W)
      (e : error) :
  SplitHostPort (endpoint +++ ":443") = Err e ->
  getDomain config endpoint st
  = (Returns (Err (dialError "tcp" e)),
     after st (world st)
           [EvDial "tcp" (endpoint +++ ":443") (Err (dialError "tcp" e))]).
Proof.
  intros Hsplit.
  assert (Hdial :
    tlsDial "tcp" (endpoint +++ ":443") {| InsecureSkipVerify := true |} st
    = (Returns (Err (dialError "tcp" e)),
       after st (world st)
             [EvDial "tcp" (endpoint +++ ":443") (Err (dialError "tcp" e))])).
  { unfold tlsDial, tlsDialWithDialer. rewrite Hsplit.
    rewrite (bind_returns _ _ _ _ _
               (eq_refl : ret (Err (dialError "tcp" e)) st = (Returns _, st))).
    now rewrite (bind_returns _ _ _ _ _ (emit_run _ _)). }
  unfold getDomain. now rewrite (bind_returns _ _ _ _ _ Hdial).
Qed.

Lemma connects_connectEvents (endpoint : string) :
  connects (connectEvents endpoint)
  = match SplitHostPort (endpoint +++ ":443") with
    | Ok (host, port) => [(host, port, 0)]
    | Err _ => []
    end.
Proof.
  unfold connectEvents.
  now destruct (SplitHostPort (endpoint +++ ":443")) as [[host port]|e].
Qed.

(** What getDomain shows of its dial: one dial, of the endpoint with :443
    appended, and at most one connection, with no timeout. *)
Lemma getDomain_shows (config : Config) (endpoint : string) (st : St W) :
  presentsChain W ->
  (exists r,
      dials (trace (snd (getDomain config endpoint st)))
      = dials (trace st) ++ [(endpoint +++ ":443", r)])
  /\ connects (trace (snd (getDomain config endpoint st)))
     = connects (trace st) ++ connects (connectEvents endpoint).
Proof.
  intros Hchain.
  destruct (getDomain_run config endpoint st Hchain)
    as [(err & w' & Hget)|(leaf & chain & now & w' & Hget)];
    cbv zeta in Hget; rewrite Hget; cbn [snd after trace];
    unfold dials, connects; rewrite !flat_map_app.
  - rewrite (seen_connectEvents _ _ endpoint) by reflexivity.
    split; [now exists (Err err)|].
    cbn [flat_map app]. now rewrite app_nil_r.
  - rewrite (seen_connectEvents _ _ endpoint) by reflexivity.
    rewrite !seen_parseLog by reflexivity.
    split; [now exists (Ok {| PeerCertificates := leaf :: chain |})|].
    cbn [flat_map app]. now rewrite app_nil_r.
Qed.

(** C6, as the code has it.  getDomain dials the endpoint with :443
    appended, once and with no timeout.  A bare host is so dialed on port
    443; an endpoint that has a port already is not dialed on it: the address
    has too many colons, the dial fails and the network is not asked. *)
Theorem getDomain_dials_port_443 (config : Config) (endpoint : string)
        (st : St W) :
  presentsChain W ->
  (exists r,
      dials (trace (snd (getDomain config endpoint st)))
      = dials (trace st) ++ [(endpoint +++ ":443", r)])
  /\ (bareHost endpoint = true ->
      connects (trace (snd (getDomain config endpoint st)))
      = connects (trace st) ++ [(endpoint, "443", 0)])
  /\ (hasPort endpoint = true ->
      fst (getDomain config endpoint st)
      = Returns (Err ("dial tcp: address " +++ endpoint
                      +++ ":443: too many colons in address"))
      /\ connects (trace (snd (getDomain config endpoint st)))
         = connects (trace st)).
Proof.
  intros Hchain.
  destruct (getDomain_shows config endpoint st Hchain) as [Hdials Hconnects].
  split; [exact Hdials|]. split.
  - intros Hbare. rewrite Hconnects, connects_connectEvents.
    now rewrite (SplitHostPort_bare _ Hbare).
  - intros Hport. split.
    + now rewrite (getDomain_bad_address _ _ _ _ (SplitHostPort_port _ Hport)).
    + rewrite Hconnects, connects_connectEvents.
      rewrite (SplitHostPort_port _ Hport). apply app_nil_r.
Qed.
End Dialing.

Lemma getDomain_dials_port_443_witness :
  presentsChain Script
  /\ bareHost "example.com" = true
  /\ hasPort "example.com:8443" = true
  /\ connects (trace (snd (getDomain configExample "example.com"
                                     (start (scriptExample None)))))
     = [("example.com", "443", 0)]
  /\ fst (getDomain configExample "example.com:8443"
                    (start (scriptExample None)))
     = Returns (Err ("dial tcp: address example.com:8443:443: "
                     +++ "too many colons in address"))
  /\ connects (trace (snd (getDomain configExample "example.com:8443"
                                     (start (scriptExample None)))))
     = [].
Proof.
  split; [exact script_presentsChain|]. split; [reflexivity|].
  split; [reflexivity|].
  split.
  - exact (proj1 (proj2 (getDomain_dials_port_443
                           configExample "example.com"
                           (start (scriptExample None)) script_presentsChain))
                 eq_refl).
  - exact (proj2 (proj2 (getDomain_dials_port_443
                           configExample "example.com:8443"
                           (start (scriptExample None)) script_presentsChain))
                 eq_refl).
Defined.

(** C6, as it is stated, fails on an endpoint with a port, also where
    every host answers on every port: the port is not dialed, and nothing
    is; and a bare host is dialed with no timeout. *)
Lemma getDomain_rejects_host_port :
  hasPort "example.com:8443" = true
  /\ fst (@getDomain unit openHost configExample "example.com:8443" (start tt))
     = Returns (Err ("dial tcp: address example.com:8443:443: "
                     +++ "too many colons in address"))
  /\ connects (trace (snd (@getDomain unit openHost configExample
                                      "example.com:8443" (start tt))))
     = []
  /\ connects (trace (snd (@getDomain unit openHost configExample
                                      "example.com" (start tt))))
     = [("example.com", "443", 0)].
Proof. vm_compute. repeat split. Qed.

(** * The summary of a domain *)

Section DomainFields.
Variables (a : string) (b : list string) (c : string) (d : bool) (e : string).

Lemma CommonName_mk : CommonName (Build_Domain a b c d e) = a.
Proof. reflexivity. Qed.
Lemma DNSNames_mk : DNSNames (Build_Domain a b c d e) = b.
Proof. reflexivity. Qed.
Lemma Expires_mk : Expires (Build_Domain a b c d e) = c.
Proof. reflexivity. Qed.
Lemma IsExpiringSoon_mk : IsExpiringSoon (Build_Domain a b c d e) = d.
Proof. reflexivity. Qed.
Lemma Summary_mk : Summary (Build_Domain a b c d e) = e.
Proof. reflexivity. Qed.
End DomainFields.

Lemma buildDomain_eq (threshold : Z) (cert : Certificate) (now : GoTime.Time) :
  buildDomain threshold cert now
  = Build_Domain
      (SubjectCommonName cert) (CertDNSNames cert)
      (GoTimeFormat.Format (NotAfter cert))
      (withinDays now (GoTimeFormat.Format (NotAfter cert)) threshold)
      (render (SubjectCommonName cert)
              (withinDays now (GoTimeFormat.Format (NotAfter cert)) threshold)
              (GoTimeFormat.Format (NotAfter cert)) (CertDNSNames cert)).
Proof. reflexivity. Qed.

Section Rendering.
Context {W : Type} {H : Host W}.
Import GoStrings GoTime GoTimeFormat GoNet.

(** A Domain getDomain returns is the Domain of the leaf certificate the
    dial was answered with. *)
Lemma getDomain_returns_domain (config : Config) (endpoint : string)
      (st st' : St W) (d : Domain) :
  getDomain config endpoint st = (Returns (Ok d), st') ->
  exists leaf chain now,
    d = buildDomain (Threshold config) leaf now
    /\ In (endpoint +++ ":443", Ok {| PeerCertificates := leaf :: chain |})
          (dials (trace st'))
    /\ In now (clockReads (trace st')).
Proof.
  unfold getDomain.
  destruct (tlsDial_run endpoint st) as (r & w' & Hdial & _).
  rewrite (bind_returns _ _ _ _ _ Hdial).
  destruct r as [[[|leaf chain]]|err].
  - unfold defer. cbn [State PeerCertificates first].
    unfold bind, panic, connClose. rewrite emit_run. discriminate.
  - set (st1 := after st w' _).
    unfold defer. cbn [State PeerCertificates first].
    rewrite (bind_returns _ _ _ _ _
               (eq_refl : ret leaf st1 = (Returns leaf, st1))).
    rewrite (bind_returns _ _ _ _ _ (isDateWithinDays_run _ _ _)).
    generalize (parseLog (programLevel st1) (handlerJSON st1)
                         (Format (NotAfter leaf))).
    intros parseEvents.
    cbn [app]. rewrite summary_render.
    unfold ret, connClose. rewrite emit_run. cbn [RemoteAddr].
    rewrite !if_true_false. subst st1. rewrite !after_after.
    cbn [world].
    intros [= <- <-].
    exists leaf, chain, (fst (hostNow w')).
    split; [now rewrite buildDomain_eq|].
    cbn [after trace]. unfold dials, clockReads.
    split; apply in_flat_map.
    + exists (EvDial "tcp" (endpoint +++ ":443")
                     (Ok {| PeerCertificates := leaf :: chain |})).
      split; [|now left].
      apply in_or_app. right. apply in_or_app. left.
      apply in_or_app. right. now left.
    + exists (EvNow (fst (hostNow w'))).
      split; [|now left].
      apply in_or_app. right. apply in_or_app. right.
      left. reflexivity.
  - unfold ret. discriminate.
Qed.

(** C7.  The summary of a Domain getDomain returns is written from the
    four facts of the Domain alone, and so is the same for the same facts:
    the common name, the flag, the date, and a line per alternate name in the
    order of the certificate; the facts are those of the leaf certificate
    of the dial, the date in the layout 2006-01-02. *)
Theorem getDomain_summary_is_rendered (config : Config) (endpoint : string)
        (st st' : St W) (d : Domain) :
  getDomain config endpoint st = (Returns (Ok d), st') ->
  Summary d
  = CommonName d +++ nl
    +++ "  Expiring Soon: " +++ fmtBool (IsExpiringSoon d) +++ nl
    +++ "  Expires:       " +++ Expires d +++ nl
    +++ "  DNS Alt Names:"
    +++ appendAll (map (fun dnsName => nl +++ "    " +++ dnsName) (DNSNames d))
  /\ exists leaf chain,
       In (endpoint +++ ":443", Ok {| PeerCertificates := leaf :: chain |})
          (dials (trace st'))
       /\ CommonName d = SubjectCommonName leaf
       /\ DNSNames d = CertDNSNames leaf
       /\ Expires d = Format (NotAfter leaf).
Proof.
  intros Hget.
  destruct (getDomain_returns_domain _ _ _ _ _ Hget)
    as (leaf & chain & now & -> & Hin & _).
  rewrite buildDomain_eq.
  rewrite CommonName_mk, DNSNames_mk, Expires_mk, IsExpiringSoon_mk, Summary_mk.
  split; [reflexivity|].
  exists leaf, chain. now repeat split.
Qed.
End Rendering.

Lemma getDomain_summary_is_rendered_witness :
  getDomain configExample "other.test" (start (scriptExample None))
  = (Returns (Ok (buildDomain 30 certOther noonDec15)),
     snd (getDomain configExample "other.test" (start (scriptExample None))))
  /\ Summary (buildDomain 30 certOther noonDec15)
     = CommonName (buildDomain 30 certOther noonDec15) +++ nl
       +++ "  Expiring Soon: "
       +++ GoStrings.fmtBool (IsExpiringSoon (buildDomain 30 certOther noonDec15))
       +++ nl
       +++ "  Expires:       " +++ Expires (buildDomain 30 certOther noonDec15)
       +++ nl
       +++ "  DNS Alt Names:"
       +++ appendAll (map (fun dnsName => nl +++ "    " +++ dnsName)
                          (DNSNames (buildDomain 30 certOther noonDec15))).
Proof.
  assert (Hget :
    getDomain configExample "other.test" (start (scriptExample None))
    = (Returns (Ok (buildDomain 30 certOther noonDec15)),
       snd (getDomain configExample "other.test"
                      (start (scriptExample None)))))
    by (vm_compute; reflexivity).
  split; [exact Hget|].
  exact (proj1 (getDomain_summary_is_rendered _ _ _ _ _ Hget)).
Defined.

(** The summary of the example, as it is mailed. *)
Example summary_of_other_test :
  Summary (buildDomain 30 certOther noonDec15)
  = "other.test" +++ nl
    +++ "  Expiring Soon: false" +++ nl
    +++ "  Expires:       2025-06-30" +++ nl
    +++ "  DNS Alt Names:" +++ nl
    +++ "    b.other.test" +++ nl
    +++ "    a.other.test".
Proof. vm_compute. reflexivity. Qed.

(** * More on the decision of isDateWithinDays *)

Section DecisionOrder.
Context {W : Type} {H : Host W}.
Import GoTime GoTimeFormat Calendar.


End DecisionOrder.







(** * Connections, mails and log records of a run *)

Section EventsOfARun.
Variables (config : Config) (flags : Flags) (level : Level) (json : bool).

Lemma closes_probes (probes : list Probe) :
  closes (flat_map (probeEvents config level json) probes)
  = flat_map (fun d : string * Result ConnectionState =>
                match snd d with
                | Ok _ => [fst d]
                | Err _ => []
                end) (map dialOf probes).
Proof.
  unfold closes. rewrite flat_map_flat_map.
  induction probes as [|p probes IH]; cbn [flat_map map]; [reflexivity|].
  rewrite IH, seen_probeEvents by reflexivity.
  destruct p as [endpoint err|endpoint leaf chain now [r|]]; reflexivity.
Qed.

Lemma closes_summaryEvents body r :
  closes (summaryEvents config flags level json body r) = [].
Proof.
  unfold closes. rewrite seen_summaryEvents by reflexivity.
  destruct (summaryFlag flags), (printFlag flags); reflexivity.
Qed.

Lemma Forall_flat_map_each {A B} (P : B -> Prop) (g : A -> list B) (l : list A) :
  (forall a, Forall P (g a)) -> Forall P (flat_map g l).
Proof.
  intros Hg. induction l as [|a l IH]; cbn [flat_map]; [constructor|].
  apply Forall_app. split; [apply Hg|exact IH].
Qed.

Lemma sends_probeEvents (p : Probe) :
  Forall (configuredMail config) (sends (probeEvents config level json p)).
Proof.
  unfold sends. rewrite seen_probeEvents by reflexivity.
  destruct p as [endpoint err|endpoint leaf chain now [r|]]; cbn [app];
    repeat constructor.
Qed.

Lemma sends_summaryEvents body r :
  Forall (configuredMail config)
         (sends (summaryEvents config flags level json body r)).
Proof.
  unfold sends. rewrite seen_summaryEvents by reflexivity.
  destruct (summaryFlag flags), (printFlag flags); repeat constructor.
Qed.

Lemma runLog_logged_debug msg attrs :
  Forall (runLog level json) (logged level json LevelDebug msg attrs).
Proof.
  unfold logged.
  destruct (Z.leb_spec (levelValue level) (levelValue LevelDebug));
    constructor; [|constructor].
  split; [reflexivity|]. right. split; [reflexivity|].
  destruct level; cbn in *; (reflexivity || lia).
Qed.

Lemma runLog_logged_error msg attrs :
  Forall (runLog level json) (logged level json LevelError msg attrs).
Proof.
  unfold logged.
  destruct (levelValue level <=? levelValue LevelError);
    constructor; [|constructor].
  split; [reflexivity|now left].
Qed.

Lemma runLog_parseLog targetDate :
  Forall (runLog level json) (parseLog level json targetDate).
Proof.
  unfold parseLog. destruct (snd (GoTimeFormat.Parse targetDate));
    [apply runLog_logged_error|constructor].
Qed.

Lemma runLog_connectEvents endpoint :
  Forall (runLog level json) (connectEvents endpoint).
Proof.
  unfold connectEvents.
  destruct (GoNet.SplitHostPort (endpoint +++ ":443")) as [[host port]|e];
    repeat constructor.
Qed.

Lemma runLog_mailEvents subject contents r :
  Forall (runLog level json) (mailEvents config level json subject contents r).
Proof.
  unfold mailEvents. repeat (apply Forall_app; split).
  - apply runLog_logged_debug.
  - repeat constructor.
  - destruct r; [apply runLog_logged_error|constructor].
Qed.

Lemma runLog_probeEvents (p : Probe) :
  Forall (runLog level json) (probeEvents config level json p).
Proof.
  destruct p as [endpoint err|endpoint leaf chain now delivery];
    unfold probeEvents; cbv zeta; repeat (apply Forall_app; split);
    try apply runLog_logged_debug; try apply runLog_logged_error;
    try apply runLog_connectEvents; try apply runLog_parseLog;
    try (repeat constructor; fail).
  destruct delivery; [apply runLog_mailEvents|constructor].
Qed.

Lemma runLog_summaryEvents body r :
  Forall (runLog level json) (summaryEvents config flags level json body r).
Proof.
  unfold summaryEvents.
  destruct (summaryFlag flags); [|constructor].
  destruct (printFlag flags); [repeat constructor|apply runLog_mailEvents].
Qed.

Lemma runLog_logRecords (tr : list Event) :
  Forall (runLog level json) tr ->
  Forall (fun r : bool * Level =>
            fst r = json
            /\ (snd r = LevelError
                \/ (snd r = LevelDebug /\ level = LevelDebug)))
         (logRecords tr).
Proof.
  intros Hall. unfold logRecords.
  induction Hall as [|e tr He _ IH]; cbn [flat_map]; [constructor|].
  apply Forall_app. split; [|exact IH].
  destruct e; try (constructor; fail).
  constructor; [exact He|constructor].
Qed.
End EventsOfARun.

Section RunEvents.
Context {W : Type} {H : Host W}.

(** X3.  A run of main closes every connection it opened, once, in the
    order of the dials, and closes nothing else: the closed addresses are
    those of the dials that were answered with a connection. *)
Theorem main_closes_what_it_opened (config : Config) (flags : Flags) (w : W) :
  presentsChain W ->
  closes (traceOf config flags w) = opened (traceOf config flags w).
Proof.
  intros Hchain.
  destruct (main_trace config flags w Hchain)
    as (probes & r & _ & Htrace & _ & _).
  rewrite Htrace. unfold opened, closes, dials. rewrite !flat_map_app.
  fold (closes (flat_map (probeEvents config (levelOf flags) (jsonFlag flags)) probes)).
  fold (dials (flat_map (probeEvents config (levelOf flags) (jsonFlag flags)) probes)).
  generalize (summaryBody (domainsOf (Threshold config) probes)) as body.
  intros body.
  fold (closes (summaryEvents config flags (levelOf flags) (jsonFlag flags) body r)).
  fold (dials (summaryEvents config flags (levelOf flags) (jsonFlag flags) body r)).
  rewrite closes_probes, closes_summaryEvents, dials_probes,
    dials_summaryEvents, !app_nil_r.
  reflexivity.
Qed.

(** X4.  Every mail of a run, alert or summary, is handed to the SMTP
    server and port of the configuration, from its sender to its recipients,
    as text/plain. *)
Theorem main_mails_as_configured (config : Config) (flags : Flags) (w : W) :
  presentsChain W ->
  Forall (configuredMail config) (sends (traceOf config flags w)).
Proof.
  intros Hchain.
  destruct (main_trace config flags w Hchain)
    as (probes & r & _ & Htrace & _ & _).
  rewrite Htrace. unfold sends. rewrite flat_map_app, flat_map_flat_map.
  apply Forall_app. split.
  - apply Forall_flat_map_each. intros p. apply sends_probeEvents.
  - apply sends_summaryEvents.
Qed.

(** X5.  Every record a run of main logs is written by the handler the
    -json flag chose and is of level Error, or of level Debug when -debug
    is set: without -debug the log of a run holds errors only. *)
Theorem main_logs_errors_unless_debug (config : Config) (flags : Flags)
        (w : W) :
  presentsChain W ->
  Forall (fun r : bool * Level =>
            fst r = jsonFlag flags
            /\ (snd r = LevelError
                \/ (snd r = LevelDebug /\ debugFlag flags = true)))
         (logRecords (traceOf config flags w)).
Proof.
  intros Hchain.
  destruct (main_trace config flags w Hchain)
    as (probes & r & _ & Htrace & _ & _).
  rewrite Htrace.
  assert (Hall : Forall (runLog (levelOf flags) (jsonFlag flags))
                        (flat_map (probeEvents config (levelOf flags)
                                               (jsonFlag flags)) probes
                         ++ summaryEvents config flags (levelOf flags)
                              (jsonFlag flags)
                              (summaryBody (domainsOf (Threshold config) probes))
                              r)).
  { apply Forall_app. split.
    - apply Forall_flat_map_each. intros p. apply runLog_probeEvents.
    - apply runLog_summaryEvents. }
  apply runLog_logRecords in Hall.
  revert Hall. apply Forall_impl. intros [j l] [Hj Hl]. split; [exact Hj|].
  destruct Hl as [Hl|[Hl Hlevel]]; [now left|right].
  split; [exact Hl|]. unfold levelOf in Hlevel.
  destruct (debugFlag flags); [reflexivity|discriminate].
Qed.
End RunEvents.

Lemma main_closes_what_it_opened_witness :
  presentsChain Script
  /\ closes (traceOf configExample (flagsExample true false)
                     (scriptExample None))
     = opened (traceOf configExample (flagsExample true false)
                       (scriptExample None)).
Proof.
  split; [exact script_presentsChain|].
  exact (main_closes_what_it_opened configExample (flagsExample true false)
           (scriptExample None) script_presentsChain).
Defined.

Lemma main_mails_as_configured_witness :
  presentsChain Script
  /\ Forall (configuredMail configExample)
            (sends (traceOf configExample (flagsExample true false)
                            (scriptExample None))).
Proof.
  split; [exact script_presentsChain|].
  exact (main_mails_as_configured configExample (flagsExample true false)
           (scriptExample None) script_presentsChain).
Defined.

Lemma main_logs_errors_unless_debug_witness :
  presentsChain Script
  /\ Forall (fun r : bool * Level =>
               fst r = jsonFlag (flagsExample true false)
               /\ (snd r = LevelError
                   \/ (snd r = LevelDebug
                       /\ debugFlag (flagsExample true false) = true)))
            (logRecords (traceOf configExample (flagsExample true false)
                                 (scriptExample None))).
Proof.
  split; [exact script_presentsChain|].
  exact (main_logs_errors_unless_debug configExample (flagsExample true false)
           (scriptExample None) script_presentsChain).
Defined.

(** * A handshake without certificates *)

Section EmptyChain.
Context {W : Type} {H : Host W}.
Import GoStrings GoNet.

Lemma bind_panics {A B} (c : M W A) (k : A -> M W B) st msg st' :
  c st = (Panics msg, st') -> bind c k st = (Panics msg, st').
Proof. intros Hc. unfold bind. now rewrite Hc. Qed.

(** getDomain indexes the chain without looking at its length: on a
    connection without certificates it panics, after closing the
    connection. *)
Lemma getDomain_panics_on_empty_chain (config : Config) (endpoint : string)
      (st : St W) (host port : string) (w' : W) :
  SplitHostPort (endpoint +++ ":443") = Ok (host, port) ->
  hostConnect (world st) host port {| InsecureSkipVerify := true |}
              {| Timeout := 0 |}
  = (Ok {| PeerCertificates := [] |}, w') ->
  getDomain config endpoint st
  = (Panics "runtime error: index out of range [0] with length 0",
     after st w'
           [EvConnect host port {| InsecureSkipVerify := true |}
                      {| Timeout := 0 |};
            EvDial "tcp" (endpoint +++ ":443")
                   (Ok {| PeerCertificates := [] |});
            EvClose (endpoint +++ ":443")]).
Proof.
  intros Hsplit Hconnect.
  assert (Hdial :
    tlsDial "tcp" (endpoint +++ ":443") {| InsecureSkipVerify := true |} st
    = (Returns (Ok {| RemoteAddr := endpoint +++ ":443";
                      State := {| PeerCertificates := [] |} |}),
       after st w'
             [EvConnect host port {| InsecureSkipVerify := true |}
                        {| Timeout := 0 |};
              EvDial "tcp" (endpoint +++ ":443")
                     (Ok {| PeerCertificates := [] |})])).
  { unfold tlsDial, tlsDialWithDialer. rewrite Hsplit.
    unfold bind at 1. unfold bind at 1.
    rewrite emit_run, withWorld_run. cbn [world after].
    rewrite Hconnect. cbn [fst snd]. rewrite after_after.
    rewrite (bind_returns _ _ _ _ _ (emit_run _ _)).
    now rewrite after_after. }
  unfold getDomain. rewrite (bind_returns _ _ _ _ _ Hdial).
  unfold defer. cbn [State PeerCertificates first].
  rewrite (bind_panics _ _ _ _ _ (eq_refl : panic _ _ = (Panics _, _))).
  unfold connClose. rewrite emit_run. cbn [RemoteAddr world after].
  now rewrite after_after.
Qed.

(** X6.  If the handshake with the first configured domain presents no
    certificate, main panics there: the connection is closed, no other domain
    is dialed, no mail is sent and nothing is printed, whatever the flags. *)
Theorem main_panics_on_empty_chain (config : Config) (flags : Flags) (w w' : W)
        (endpoint host port : string) (rest : list string) :
  Domains config = endpoint :: rest ->
  SplitHostPort (endpoint +++ ":443") = Ok (host, port) ->
  hostConnect w host port {| InsecureSkipVerify := true |} {| Timeout := 0 |}
  = (Ok {| PeerCertificates := [] |}, w') ->
  outcomeOf config flags w
  = Panics "runtime error: index out of range [0] with length 0"
  /\ dials (traceOf config flags w)
     = [(endpoint +++ ":443", Ok {| PeerCertificates := [] |})]
  /\ closes (traceOf config flags w) = [endpoint +++ ":443"]
  /\ mails (traceOf config flags w) = []
  /\ printed (traceOf config flags w) = [].
Proof.
  intros Hdomains Hsplit Hconnect.
  set (st0 := {| world := w; programLevel := levelOf flags;
                 handlerJSON := jsonFlag flags; trace := [] |}).
  set (events :=
         logged (levelOf flags) (jsonFlag flags) LevelDebug
                ("checking domain: " +++ endpoint) []
         ++ [EvConnect host port {| InsecureSkipVerify := true |}
                       {| Timeout := 0 |};
             EvDial "tcp" (endpoint +++ ":443")
                    (Ok {| PeerCertificates := [] |});
             EvClose (endpoint +++ ":443")]).
  assert (Hrun :
    main config flags (start w)
    = (Panics "runtime error: index out of range [0] with length 0",
       after st0 w' events)).
  { assert (Hinit :
      forall A (k : unit -> M W A),
        (setLevel LevelWarn ;; setHandler (jsonFlag flags) ;;
         _ <- (if debugFlag flags then setLevel LevelDebug else ret tt) ;; k tt)
          (start w)
        = k tt st0).
    { intros A k. subst st0. unfold levelOf.
      destruct (debugFlag flags); reflexivity. }
    unfold main.
    rewrite (Hinit _ (fun _ => _ <- checkDomains config flags (Domains config) [] ;; _)).
    apply bind_panics. rewrite Hdomains. cbn [checkDomains].
    unfold slogDebug at 1.
    rewrite (bind_returns _ _ _ _ _ (slogLog_run _ _ _ _)).
    apply bind_panics.
    set (st1 := after st0 (world st0) _).
    rewrite (getDomain_panics_on_empty_chain config endpoint st1 host port w'
               Hsplit Hconnect).
    subst events st1. now rewrite after_after. }
  unfold outcomeOf, traceOf. rewrite Hrun. cbn [fst snd after trace st0 app].
  split; [reflexivity|].
  subst events. unfold dials, closes, mails, printed.
  rewrite !flat_map_app, !seen_logged by reflexivity.
  repeat split.
Qed.
End EmptyChain.

Lemma main_panics_on_empty_chain_witness :
  Domains configExample = "example.com" :: ["down.test"; "other.test"]
  /\ GoNet.SplitHostPort ("example.com" +++ ":443") = Ok ("example.com", "443")
  /\ @hostConnect unit emptyChainHost tt "example.com" "443"
       {| InsecureSkipVerify := true |} {| Timeout := 0 |}
     = (Ok {| PeerCertificates := [] |}, tt)
  /\ @outcomeOf unit emptyChainHost configExample (flagsExample true false) tt
     = Panics "runtime error: index out of range [0] with length 0"
  /\ dials (@traceOf unit emptyChainHost configExample
                     (flagsExample true false) tt)
     = [("example.com" +++ ":443", Ok {| PeerCertificates := [] |})]
  /\ closes (@traceOf unit emptyChainHost configExample
                      (flagsExample true false) tt)
     = ["example.com" +++ ":443"]
  /\ mails (@traceOf unit emptyChainHost configExample
                     (flagsExample true false) tt) = []
  /\ printed (@traceOf unit emptyChainHost configExample
                       (flagsExample true false) tt) = [].
Proof.
  split; [reflexivity|]. split; [reflexivity|]. split; [reflexivity|].
  exact (@main_panics_on_empty_chain unit emptyChainHost configExample
           (flagsExample true false) tt tt "example.com" "example.com" "443"
           ["down.test"; "other.test"] eq_refl eq_refl eq_refl).
Defined.

(** * The start of main *)

(** X7.  getConfigPath answers with the -config flag whenever it is not
    empty, whatever the environment; and its answer is empty only when the
    flag is empty and CERT_MONITOR_CONFIG_PATH is set to the empty string,
    which hides the default path. *)
Theorem getConfigPath_precedence (os : Startup) (configFlag : string) :
  (configFlag <> EmptyString -> getConfigPath os configFlag = configFlag)
  /\ (getConfigPath os configFlag = EmptyString
      <-> configFlag = EmptyString
          /\ LookupEnv os "CERT_MONITOR_CONFIG_PATH" = Some EmptyString).
Proof.
  unfold getConfigPath.
  destruct (String.eqb_spec configFlag EmptyString) as [->|Hflag]; cbn [negb].
  - split; [intros Hne; now contradiction Hne|].
    destruct (LookupEnv os "CERT_MONITOR_CONFIG_PATH") as [p|].
    + split; [intros ->; now split|intros [_ [= ->]]; reflexivity].
    + split; [discriminate|intros [_ Hnone]; discriminate].
  - split; [reflexivity|]. split; [intros ->; now contradiction Hflag|].
    intros [-> _]. now contradiction Hflag.
Qed.

Section StartOfMain.
Context {W : Type} {H : Host W}.

Lemma mainProcess_start (flags : Flags) (w : W) {A} (k : M W A) :
  (setLevel LevelWarn ;; setHandler (jsonFlag flags) ;;
   (if debugFlag flags then setLevel LevelDebug else ret tt) ;; k) (start w)
  = k {| world := w; programLevel := levelOf flags;
         handlerJSON := jsonFlag flags; trace := [] |}.
Proof. unfold levelOf. destruct (debugFlag flags); reflexivity. Qed.

(** X8.  When the configuration file cannot be read, or does not parse,
    main exits with status 1 after logging one record, at level Error: the
    world is as it was, nothing was dialed, mailed or printed. *)
Theorem mainProcess_exits_without_config (os : Startup) (configFlag : string)
        (flags : Flags) (w : W) :
  loaded os configFlag = None ->
  fst (mainProcess os configFlag flags (start w)) = Returns 1
  /\ world (snd (mainProcess os configFlag flags (start w))) = w
  /\ logRecords (trace (snd (mainProcess os configFlag flags (start w))))
     = [(jsonFlag flags, LevelError)]
  /\ dials (trace (snd (mainProcess os configFlag flags (start w)))) = []
  /\ mails (trace (snd (mainProcess os configFlag flags (start w)))) = []
  /\ printed (trace (snd (mainProcess os configFlag flags (start w)))) = [].
Proof.
  unfold loaded, mainProcess. intros Hnone.
  rewrite mainProcess_start.
  assert (Herr : forall msg,
    (slogError msg [] ;; ret 1)
      {| world := w; programLevel := levelOf flags;
         handlerJSON := jsonFlag flags; trace := [] |}
    = (Returns 1,
       {| world := w; programLevel := levelOf flags;
          handlerJSON := jsonFlag flags;
          trace := [EvLog (jsonFlag flags) LevelError msg []] |})).
  { intros msg. unfold slogError.
    rewrite (bind_returns _ _ _ _ _ (slogLog_run _ _ _ _)).
    unfold ret, after, logged. cbn [world programLevel handlerJSON trace app].
    unfold levelOf. now destruct (debugFlag flags). }
  destruct (ReadFile os (getConfigPath os configFlag)) as [d|e].
  - destruct (Unmarshal os d) as [config|e]; [discriminate|].
    rewrite Herr. now repeat split.
  - rewrite Herr. now repeat split.
Qed.

End StartOfMain.

Lemma mainProcess_exits_without_config_witness :
  loaded (startupExample "/etc/cert-monitor/config.yml" None) "missing.yml"
  = None
  /\ fst (mainProcess (startupExample "/etc/cert-monitor/config.yml" None)
                      "missing.yml" (flagsExample true false)
                      (start (scriptExample None)))
     = Returns 1
  /\ world (snd (mainProcess (startupExample "/etc/cert-monitor/config.yml" None)
                             "missing.yml" (flagsExample true false)
                             (start (scriptExample None))))
     = scriptExample None
  /\ logRecords
       (trace (snd (mainProcess
                      (startupExample "/etc/cert-monitor/config.yml" None)
                      "missing.yml" (flagsExample true false)
                      (start (scriptExample None)))))
     = [(jsonFlag (flagsExample true false), LevelError)]
  /\ dials
       (trace (snd (mainProcess
                      (startupExample "/etc/cert-monitor/config.yml" None)
                      "missing.yml" (flagsExample true false)
                      (start (scriptExample None))))) = []
  /\ mails
       (trace (snd (mainProcess
                      (startupExample "/etc/cert-monitor/config.yml" None)
                      "missing.yml" (flagsExample true false)
                      (start (scriptExample None))))) = []
  /\ printed
       (trace (snd (mainProcess
                      (startupExample "/etc/cert-monitor/config.yml" None)
                      "missing.yml" (flagsExample true false)
                      (start (scriptExample None))))) = [].
Proof.
  split; [reflexivity|].
  exact (mainProcess_exits_without_config
           (startupExample "/etc/cert-monitor/config.yml" None) "missing.yml"
           (flagsExample true false) (scriptExample None) eq_refl).
Defined.

Lemma getConfigPath_precedence_witness :
  "conf.yml" <> EmptyString
  /\ getConfigPath (startupExample "conf.yml" (Some "env.yml")) "conf.yml"
     = "conf.yml".
Proof.
  assert (Hne : "conf.yml" <> EmptyString) by discriminate.
  split; [exact Hne|].
  exact (proj1 (getConfigPath_precedence
                  (startupExample "conf.yml" (Some "env.yml")) "conf.yml")
               Hne).
Defined.

(** * Format and Parse with the layout 2006-01-02 *)

Section Digits.
Import GoStrings GoTime GoTimeFormat Calendar.

Lemma digitChar_digit (k : Z) :
  0 <= k <= 9 -> isDigitChar (digitChar k) = true /\ digitVal (digitChar k) = k.
Proof.
  intros Hk.
  assert (k = 0 \/ k = 1 \/ k = 2 \/ k = 3 \/ k = 4 \/ k = 5 \/ k = 6 \/ k = 7
          \/ k = 8 \/ k = 9) as Hcases by lia.
  repeat (destruct Hcases as [->|Hcases]; [now split|]). subst k. now split.
Qed.

Lemma substring_all (s : string) : substring 0 (String.length s) s = s.
Proof.
  rewrite <- (append_empty_r s) at 2. apply substring_prefix.
Qed.

Lemma getLongYear_digits (c3 c2 c1 c0 : ascii) (rest : string) :
  isDigitChar c3 = true -> isDigitChar c2 = true ->
  isDigitChar c1 = true -> isDigitChar c0 = true ->
  getLongYear (String c3 (String c2 (String c1 (String c0 rest))))
  = Some (((digitVal c3 * 10 + digitVal c2) * 10 + digitVal c1) * 10
          + digitVal c0, rest).
Proof.
  intros H3 H2 H1 H0. unfold getLongYear.
  set (value := String c3 (String c2 (String c1 (String c0 rest)))).
  assert (Hlen : len value = 4 + len rest)
    by (unfold len, value; cbn [String.length]; lia).
  destruct (Z.ltb_spec (len value) 4) as [Hshort|_];
    [unfold len in *; lia|].
  assert (Hfirst : isDigit value 0 = true) by exact H3.
  rewrite Hfirst. cbn [orb negb].
  assert (Hslice : slice value 0 4
                   = String c3 (String c2 (String c1 (String c0 EmptyString))))
    by (unfold value; destruct rest; reflexivity).
  rewrite Hslice, atoi_digit by exact H3.
  rewrite !leadingInt_digit by assumption. cbn [leadingInt fst snd].
  assert (Hrest : sliceFrom value 4 = rest).
  { unfold sliceFrom, slice. rewrite Hlen.
    replace (Z.to_nat (4 + len rest - 4)) with (String.length rest)
      by (unfold len; lia).
    unfold value. change (Z.to_nat 4) with 4%nat. cbn [substring].
    apply substring_all. }
  rewrite Hrest. reflexivity.
Qed.

Lemma getnum_digits (a b : ascii) (rest : string) :
  isDigitChar a = true -> isDigitChar b = true ->
  getnum (String a (String b rest)) true
  = Some (digitVal a * 10 + digitVal b, rest).
Proof.
  intros Ha Hb. unfold getnum.
  assert (H0 : isDigit (String a (String b rest)) 0 = true) by exact Ha.
  assert (H1 : isDigit (String a (String b rest)) 1 = true) by exact Hb.
  now rewrite H0, H1.
Qed.

(** A date of the calendar, written with four, two and two digits, parses
    to its first instant in UTC. *)
Lemma Parse_digits (year month day : Z) :
  0 <= year <= 9999 -> 1 <= month <= 12 -> 1 <= day <= daysIn month year ->
  day <= 99 ->
  Parse (digits4 year +++ "-" +++ digits2 month +++ "-" +++ digits2 day)
  = (Date year month day 0 0 0 0 UTC, None).
Proof.
  intros Hy Hm Hd Hd99.
  assert (Hy3 : 0 <= year / 1000 <= 9) by (Z.div_mod_to_equations; lia).
  assert (Hy2 : 0 <= year / 100 mod 10 <= 9) by (Z.div_mod_to_equations; lia).
  assert (Hy1 : 0 <= year / 10 mod 10 <= 9) by (Z.div_mod_to_equations; lia).
  assert (Hy0 : 0 <= year mod 10 <= 9) by (Z.div_mod_to_equations; lia).
  assert (Hm1 : 0 <= month / 10 <= 9) by (Z.div_mod_to_equations; lia).
  assert (Hm0 : 0 <= month mod 10 <= 9) by (Z.div_mod_to_equations; lia).
  assert (Hd1 : 0 <= day / 10 <= 9) by (Z.div_mod_to_equations; lia).
  assert (Hd0 : 0 <= day mod 10 <= 9) by (Z.div_mod_to_equations; lia).
  destruct (digitChar_digit _ Hy3) as [Dy3 Vy3].
  destruct (digitChar_digit _ Hy2) as [Dy2 Vy2].
  destruct (digitChar_digit _ Hy1) as [Dy1 Vy1].
  destruct (digitChar_digit _ Hy0) as [Dy0 Vy0].
  destruct (digitChar_digit _ Hm1) as [Dm1 Vm1].
  destruct (digitChar_digit _ Hm0) as [Dm0 Vm0].
  destruct (digitChar_digit _ Hd1) as [Dd1 Vd1].
  destruct (digitChar_digit _ Hd0) as [Dd0 Vd0].
  unfold digits4, digits2. cbn [append]. unfold Parse.
  rewrite getLongYear_digits by assumption.
  rewrite Vy3, Vy2, Vy1, Vy0.
  replace (((year / 1000 * 10 + year / 100 mod 10) * 10 + year / 10 mod 10) * 10
           + year mod 10) with year by (Z.div_mod_to_equations; lia).
  cbn [skip Ascii.eqb Bool.eqb]. cbv iota.
  rewrite getnum_digits by assumption. rewrite Vm1, Vm0.
  replace (month / 10 * 10 + month mod 10) with month
    by (Z.div_mod_to_equations; lia).
  destruct (Z.leb_spec month 0) as [Hbad|_]; [lia|].
  destruct (Z.ltb_spec 12 month) as [Hbad|_]; [lia|]. cbn [orb].
  cbn [skip Ascii.eqb Bool.eqb]. cbv iota.
  rewrite getnum_digits by assumption. rewrite Vd1, Vd0.
  replace (day / 10 * 10 + day mod 10) with day
    by (Z.div_mod_to_equations; lia).
  destruct (Z.ltb_spec day 1) as [Hbad|_]; [lia|].
  destruct (Z.ltb_spec (daysIn month year) day) as [Hbad|_]; [lia|].
  reflexivity.
Qed.
End Digits.

Section FormatFacts.
Import GoStrings GoTime GoTimeFormat Calendar.

Lemma appendInt_4 (y : Z) : 0 <= y <= 9999 -> appendInt y 4 = digits4 y.
Proof.
  intros Hy. apply String.eqb_eq.
  apply (allFrom_spec (Z.to_nat 10000) 0
           (fun y => String.eqb (appendInt y 4) (digits4 y)));
    [vm_compute; reflexivity|lia].
Qed.

Lemma appendInt_2 (x : Z) : 0 <= x <= 99 -> appendInt x 2 = digits2 x.
Proof.
  intros Hx. apply String.eqb_eq.
  apply (allFrom_spec (Z.to_nat 100) 0
           (fun x => String.eqb (appendInt x 2) (digits2 x)));
    [vm_compute; reflexivity|lia].
Qed.

(** The day of a Time in its location, as time.Date makes it from the
    civil date. *)
Lemma Date_of_DateOf (t : Time) (year month day : Z) :
  DateOf t = (year, month, day) ->
  0 <= year <= 9999 ->
  Date year month day 0 0 0 0 UTC = midnightUTC (localDay t).
Proof.
  intros Hdate Hyear.
  apply DateOf_spec in Hdate as (Hday & Hm & Hd & _).
  destruct (Date_midnight year month day Hyear Hm Hd) as [-> Hrange].
  unfold midnightUTC, localDay. f_equal.
  pose proof (wallSec_range t) as Hwall.
  unfold absoluteUnixDay, secondsPerDay in *.
  destruct (abs_cases t) as [[_ Habs]|[Hlt Habs]]; rewrite Habs in Hday.
  - replace (wallSec t + 9223372028715321600)
      with (wallSec t + 106751991073094 * 86400) in Hday by lia.
    rewrite Z.div_add in Hday by discriminate. lia.
  - exfalso. rewrite Hday in Hrange. Z.div_mod_to_equations. lia.
Qed.

(** X10.  A Time whose year is from 0 to 9999 is formatted with the
    layout 2006-01-02 to ten bytes that time.Parse takes back, without an
    error, to 00:00:00 UTC of the calendar day the Time has in its own
    location: the string getDomain stores in Expires always parses in
    isDateWithinDays, and the time of day of NotAfter is gone. *)
Theorem Format_parses_back (t : Time) :
  0 <= yearOf t <= 9999 ->
  String.length (Format t) = 10%nat
  /\ Parse (Format t) = (midnightUTC (localDay t), None).
Proof.
  unfold yearOf, Format. intros Hyear.
  destruct (DateOf t) as [[year month] day] eqn:Hdate. cbn [fst] in Hyear.
  pose proof (Date_of_DateOf _ _ _ _ Hdate Hyear) as Hmid.
  apply DateOf_spec in Hdate as (_ & Hm & Hd & _).
  pose proof (daysIn_upper month year Hm) as Hup.
  rewrite appendInt_4, !appendInt_2 by lia.
  split; [reflexivity|].
  rewrite Parse_digits by lia. now rewrite Hmid.
Qed.
End FormatFacts.

Lemma Format_parses_back_witness :
  0 <= yearOf (NotAfter certExample) <= 9999
  /\ String.length (GoTimeFormat.Format (NotAfter certExample)) = 10%nat
  /\ GoTimeFormat.Parse (GoTimeFormat.Format (NotAfter certExample))
     = (midnightUTC (Calendar.localDay (NotAfter certExample)), None).
Proof.
  assert (Hyear : 0 <= yearOf (NotAfter certExample) <= 9999)
    by (vm_compute; split; discriminate).
  split; [exact Hyear|].
  exact (Format_parses_back (NotAfter certExample) Hyear).
Defined.

(** * The flag of a domain, by the day of its certificate *)

Section FlagByDay.
Context {W : Type} {H : Host W}.
Import GoStrings GoTime GoTimeFormat Calendar.


End FlagByDay.

Section NoParseFailure.
Variables (config : Config) (flags : Flags) (level : Level) (json : bool).

Lemma errorMessages_app tr1 tr2 :
  errorMessages (tr1 ++ tr2) = errorMessages tr1 ++ errorMessages tr2.
Proof. apply flat_map_app. Qed.

Lemma errorMessages_logged_debug msg attrs :
  errorMessages (logged level json LevelDebug msg attrs) = [].
Proof.
  unfold logged. now destruct (levelValue level <=? levelValue LevelDebug).
Qed.

Lemma errorMessages_logged_error msg attrs :
  incl (errorMessages (logged level json LevelError msg attrs)) [msg].
Proof.
  unfold logged. destruct (levelValue level <=? levelValue LevelError);
    cbn; [apply incl_refl|apply incl_nil_l].
Qed.

Lemma errorMessages_mailEvents subject contents r :
  incl (errorMessages (mailEvents config level json subject contents r))
       ["failed to send email"].
Proof.
  unfold mailEvents.
  rewrite !errorMessages_app, errorMessages_logged_debug.
  destruct r as [err|]; [apply errorMessages_logged_error|apply incl_nil_l].
Qed.

Lemma errorMessages_connectEvents endpoint :
  errorMessages (connectEvents endpoint) = [].
Proof.
  unfold connectEvents.
  now destruct (GoNet.SplitHostPort (endpoint +++ ":443")) as [[host port]|e].
Qed.

(** The errors a probe logs are those of the dial and of the delivery,
    when the date of the certificate parses. *)
Lemma errorMessages_probeEvents (p : Probe) :
  (forall endpoint leaf chain now delivery,
      p = Probed endpoint leaf chain now delivery ->
      0 <= yearOf (NotAfter leaf) <= 9999) ->
  incl (errorMessages (probeEvents config level json p))
       ["failed to dial domain"; "failed to send email"].
Proof.
  intros Hyear.
  destruct p as [endpoint err|endpoint leaf chain now delivery];
    unfold probeEvents.
  - rewrite !errorMessages_app, errorMessages_logged_debug,
      errorMessages_connectEvents.
    cbn [app errorMessages flat_map].
    eapply incl_tran; [apply errorMessages_logged_error|].
    intros m [<-|[]]. now left.
  - cbv zeta. unfold parseLog.
    destruct (Format_parses_back (NotAfter leaf)
                (Hyear _ _ _ _ _ eq_refl)) as [_ Hparse].
    rewrite Hparse. cbn [snd].
    generalize (buildDomain (Threshold config) leaf now) as d. intros d.
    rewrite !errorMessages_app, !errorMessages_logged_debug,
      errorMessages_connectEvents.
    cbn [app errorMessages flat_map].
    destruct delivery as [r|]; [|apply incl_nil_l].
    eapply incl_tran; [apply errorMessages_mailEvents|].
    intros m [<-|[]]. right. now left.
Qed.

Lemma errorMessages_summaryEvents body r :
  incl (errorMessages (summaryEvents config flags level json body r))
       ["failed to dial domain"; "failed to send email"].
Proof.
  unfold summaryEvents.
  destruct (summaryFlag flags); [|apply incl_nil_l].
  destruct (printFlag flags); [apply incl_nil_l|].
  eapply incl_tran; [apply errorMessages_mailEvents|].
  intros m [<-|[]]. right. now left.
Qed.
End NoParseFailure.

Section RunErrors.
Context {W : Type} {H : Host W}.

(** X12.  In a run where every leaf certificate has a year of four
    digits, as X.509 has, the only errors main logs are "failed to dial
    domain" and "failed to send email": the date getDomain formats always
    parses in isDateWithinDays, whose failure branch is never taken. *)
Theorem main_never_fails_to_parse (config : Config) (flags : Flags) (w : W) :
  presentsChain W ->
  fourDigitYears (traceOf config flags w) ->
  incl (errorMessages (traceOf config flags w))
       ["failed to dial domain"; "failed to send email"].
Proof.
  intros Hchain Hyears.
  destruct (main_trace config flags w Hchain)
    as (probes & r & _ & Htrace & _ & _).
  unfold fourDigitYears in Hyears. rewrite Htrace in Hyears |- *.
  unfold dials in Hyears. rewrite flat_map_app in Hyears.
  fold (dials (flat_map (probeEvents config (levelOf flags) (jsonFlag flags))
                        probes)) in Hyears.
  rewrite dials_probes in Hyears.
  unfold errorMessages. rewrite flat_map_app.
  apply incl_app; [|apply errorMessages_summaryEvents].
  rewrite flat_map_flat_map.
  assert (Hprobes : forall p, In p probes ->
            forall endpoint leaf chain now delivery,
              p = Probed endpoint leaf chain now delivery ->
              0 <= yearOf (NotAfter leaf) <= 9999).
  { intros p Hin endpoint leaf chain now delivery ->.
    apply (Hyears (endpoint +++ ":443") leaf chain).
    apply in_or_app. left.
    apply in_map_iff. now exists (Probed endpoint leaf chain now delivery). }
  clear Hyears Htrace.
  induction probes as [|p probes IH]; cbn [flat_map]; [apply incl_nil_l|].
  apply incl_app.
  - apply errorMessages_probeEvents. apply Hprobes. now left.
  - apply IH. intros q Hq. apply Hprobes. now right.
Qed.
End RunErrors.


Lemma main_never_fails_to_parse_witness :
  presentsChain Script
  /\ fourDigitYears (traceOf configExample (flagsExample true false)
                             (scriptExample None))
  /\ incl (errorMessages (traceOf configExample (flagsExample true false)
                                  (scriptExample None)))
          ["failed to dial domain"; "failed to send email"].
Proof.
  assert (Hyears : fourDigitYears (traceOf configExample
                                           (flagsExample true false)
                                           (scriptExample None))).
  { intros addr leaf chain Hin. vm_compute in Hin.
    destruct Hin as [Hin|[Hin|[Hin|[]]]]; try discriminate Hin;
      injection Hin as <- <- <-; vm_compute; split; discriminate. }
  split; [exact script_presentsChain|]. split; [exact Hyears|].
  exact (main_never_fails_to_parse configExample (flagsExample true false)
           (scriptExample None) script_presentsChain Hyears).
Defined.

(** * An endpoint in brackets *)

Section Brackets.
Import GoStrings GoNet.

Lemma IndexByteString_append_found (s t : string) (c : ascii) :
  IndexByteString s c < 0 -> 0 <= IndexByteString t c ->
  IndexByteString (s +++ t) c = len s + IndexByteString t c.
Proof.
  intros Hs Ht. unfold len.
  induction s as [|b s IH]; cbn [append IndexByteString String.length] in *;
    [lia|].
  destruct (Ascii.eqb b c); [lia|].
  destruct (Z.ltb_spec (IndexByteString s c) 0) as [Hlt|Hge]; [|lia].
  rewrite (IH Hlt).
  destruct (Z.ltb_spec (Z.of_nat (String.length s) + IndexByteString t c) 0);
    lia.
Qed.

(** An address in brackets splits at the brackets: the host is what is
    between them, colons and all. *)
Lemma SplitHostPort_brackets (host : string) :
  noBrackets host = true ->
  SplitHostPort (("[" +++ host +++ "]") +++ ":443") = Ok (host, "443").
Proof.
  unfold noBrackets. rewrite andb_true_iff, !Z.ltb_lt.
  intros [Hopen Hclose]. unfold SplitHostPort.
  rewrite last_colon_443.
  set (hostport := ("[" +++ host +++ "]") +++ ":443").
  assert (Hlen : len ("[" +++ host +++ "]") = len host + 2).
  { unfold len. cbn [append String.length]. rewrite length_append.
    cbn [String.length]. lia. }
  assert (Htail : hostport = String "[" (host +++ "]:443")).
  { unfold hostport. cbn [append]. now rewrite append_assoc. }
  assert (Hend : IndexByteString hostport "]" = len host + 1).
  { rewrite Htail. cbn [IndexByteString Ascii.eqb Bool.eqb]. cbv iota.
    rewrite (IndexByteString_append_found host "]:443" "]" Hclose)
      by (cbn; lia).
    cbn [IndexByteString Ascii.eqb Bool.eqb]. cbv iota.
    destruct (Z.ltb_spec (len host + 0) 0); unfold len in *; lia. }
  assert (Hlenhp : len hostport = len host + 6).
  { unfold len, hostport. cbn [append String.length].
    rewrite !length_append. cbn [String.length]. lia. }
  rewrite Hlen.
  destruct (Z.ltb_spec (len host + 2) 0) as [Hneg|_];
    [unfold len in Hneg; lia|].
  assert (Hfirst : byteIs hostport 0 "[" = true) by (rewrite Htail; reflexivity).
  rewrite Hfirst, Hend.
  destruct (Z.ltb_spec (len host + 1) 0) as [Hneg|_];
    [unfold len in Hneg; lia|].
  rewrite Hlenhp.
  destruct (Z.eqb_spec (len host + 1 + 1) (len host + 6)) as [Hbad|_]; [lia|].
  destruct (Z.eqb_spec (len host + 1 + 1) (len host + 2)) as [_|Hbad]; [|lia].
  assert (Hhost : slice hostport 1 (len host + 1) = host).
  { unfold slice. rewrite Htail.
    replace (Z.to_nat (len host + 1 - 1)) with (String.length host)
      by (unfold len; lia).
    change (Z.to_nat 1) with 1%nat. cbn [substring].
    apply substring_prefix. }
  assert (Hfrom1 : sliceFrom hostport 1 = host +++ "]:443").
  { unfold sliceFrom, slice. rewrite Hlenhp, Htail.
    replace (Z.to_nat (len host + 6 - 1)) with (String.length (host +++ "]:443"))
      by (rewrite length_append; unfold len; cbn [String.length]; lia).
    change (Z.to_nat 1) with 1%nat. cbn [substring].
    apply substring_all. }
  assert (Hfromk : sliceFrom hostport (len host + 1 + 1) = ":443").
  { unfold sliceFrom, slice. rewrite Hlenhp. unfold hostport.
    replace (Z.to_nat (len host + 1 + 1))
      with (String.length ("[" +++ host +++ "]"))
      by (fold (len ("[" +++ host +++ "]")) in Hlen; unfold len in *; lia).
    replace (Z.to_nat (len host + 6 - (len host + 1 + 1)))
      with (String.length ":443") by (cbn [String.length]; lia).
    apply substring_suffix. }
  rewrite Hfrom1, Hfromk.
  destruct (Z.leb_spec 0 (IndexByteString (host +++ "]:443") "[")) as [Hge|_].
  { pose proof (IndexByteString_append_absent host "]:443" "[" Hopen
                  ltac:(reflexivity)). lia. }
  cbn [IndexByteString Ascii.eqb Bool.eqb Z.leb Z.compare Z.ltb]. cbv iota.
  rewrite Hhost.
  replace (len host + 2 + 1) with (len ("[" +++ host +++ "]") + 1) by lia.
  fold hostport. unfold hostport. now rewrite sliceFrom_port.
Qed.
End Brackets.

Section BracketDial.
Context {W : Type} {H : Host W}.

(** X13.  An endpoint in brackets, as an IPv6 literal is written, is
    dialed on port 443 of the host between the brackets, colons and all:
    getDomain asks the network for that host, once and with no timeout. *)
Theorem getDomain_dials_bracketed_host (config : Config) (host : string)
        (st : St W) :
  presentsChain W ->
  noBrackets host = true ->
  connects (trace (snd (getDomain config ("[" +++ host +++ "]") st)))
  = connects (trace st) ++ [(host, "443", 0)].
Proof.
  intros Hchain Hhost.
  destruct (getDomain_shows config ("[" +++ host +++ "]") st Hchain)
    as [_ Hconnects].
  rewrite Hconnects, connects_connectEvents.
  now rewrite (SplitHostPort_brackets host Hhost).
Qed.
End BracketDial.

Lemma getDomain_dials_bracketed_host_witness :
  presentsChain Script
  /\ noBrackets "2001:db8::1" = true
  /\ connects (trace (snd (getDomain configExample ("[" +++ "2001:db8::1" +++ "]")
                                     (start (scriptExample None)))))
     = connects (trace (start (scriptExample None)))
       ++ [("2001:db8::1", "443", 0)].
Proof.
  split; [exact script_presentsChain|]. split; [reflexivity|].
  exact (getDomain_dials_bracketed_host configExample "2001:db8::1"
           (start (scriptExample None)) script_presentsChain eq_refl).
Defined.

(** * The flags of the log *)

Section Alike.
Context {W : Type} {H : Host W}.
Import GoStrings GoTime GoTimeFormat GoNet.

Lemma effects_app (t1 t2 : list Event) :
  effects (t1 ++ t2) = effects t1 ++ effects t2.
Proof. apply filter_app. Qed.

Lemma sameEffects_refl (st : St W) : sameEffects st st.
Proof. now split. Qed.

Lemma alike_ret {A} (a : A) : alike (W := W) (ret a) (ret a).
Proof. intros st1 st2 Hsame. now split. Qed.

Lemma alike_panic {A} (msg : string) :
  alike (W := W) (A := A) (panic msg) (panic msg).
Proof. intros st1 st2 Hsame. now split. Qed.

Lemma alike_bind {A B} (c1 c2 : M W A) (k1 k2 : A -> M W B) :
  alike c1 c2 -> (forall a, alike (k1 a) (k2 a)) ->
  alike (bind c1 k1) (bind c2 k2).
Proof.
  intros Hc Hk st1 st2 Hsame. unfold bind.
  destruct (Hc st1 st2 Hsame) as [Hfst Hsnd].
  destruct (c1 st1) as [[a1|msg1] st1'], (c2 st2) as [[a2|msg2] st2'];
    cbn [fst snd] in *; try discriminate Hfst.
  - injection Hfst as ->. now apply Hk.
  - injection Hfst as ->. now split.
Qed.

Lemma alike_emit (e : Event) : alike (W := W) (emit e) (emit e).
Proof.
  intros st1 st2 [Hworld Htrace]. split; [reflexivity|].
  split; cbn [emit snd world trace]; [exact Hworld|].
  now rewrite !effects_app, Htrace.
Qed.

Lemma alike_withWorld {A} (f : W -> A * W) :
  alike (withWorld f) (withWorld f).
Proof.
  intros st1 st2 [Hworld Htrace]. unfold withWorld. rewrite Hworld.
  destruct (f (world st2)) as [a w]. now split.
Qed.

(** A record of the log, written or dropped, changes the log only. *)
Lemma alike_slogLog l1 msg1 attrs1 l2 msg2 attrs2 :
  alike (W := W) (slogLog l1 msg1 attrs1) (slogLog l2 msg2 attrs2).
Proof.
  intros st1 st2 [Hworld Htrace]. unfold slogLog, emit.
  destruct (levelValue (programLevel st1) <=? levelValue l1),
           (levelValue (programLevel st2) <=? levelValue l2);
    (split; [reflexivity|]); split; cbn [snd world trace];
    rewrite ?effects_app; cbn [effects filter isLog negb];
    rewrite ?app_nil_r; assumption.
Qed.

Lemma alike_setLevel l1 l2 : alike (W := W) (setLevel l1) (setLevel l2).
Proof. intros st1 st2 Hsame. now split. Qed.

Lemma alike_setHandler j1 j2 : alike (W := W) (setHandler j1) (setHandler j2).
Proof. intros st1 st2 Hsame. now split. Qed.

Lemma alike_defer {A} (d1 d2 : M W unit) (c1 c2 : M W A) :
  alike d1 d2 -> alike c1 c2 -> alike (defer d1 c1) (defer d2 c2).
Proof.
  intros Hd Hc st1 st2 Hsame. unfold defer.
  destruct (Hc st1 st2 Hsame) as [Hfst Hsnd].
  destruct (c1 st1) as [r1 st1'], (c2 st2) as [r2 st2'].
  cbn [fst snd] in *.
  destruct (Hd st1' st2' Hsnd) as [_ Hsnd'].
  destruct (d1 st1') as [u1 st1''], (d2 st2') as [u2 st2''].
  now split.
Qed.

Lemma alike_timeNow : alike (W := W) timeNow timeNow.
Proof.
  unfold timeNow. apply alike_bind; [apply alike_withWorld|]. intros t.
  apply alike_bind; [apply alike_emit|]. intros _. apply alike_ret.
Qed.

Lemma alike_tlsDial (network addr : string) (config : TLSConfig) :
  alike (W := W) (tlsDial network addr config) (tlsDial network addr config).
Proof.
  unfold tlsDial, tlsDialWithDialer. apply alike_bind.
  - destruct (SplitHostPort addr) as [[host port]|e]; [|apply alike_ret].
    apply alike_bind; [apply alike_emit|]. intros _. apply alike_withWorld.
  - intros r. apply alike_bind; [apply alike_emit|]. intros _.
    destruct r; apply alike_ret.
Qed.

Lemma alike_isDateWithinDays (targetDate : string) (days : Z) :
  alike (W := W) (isDateWithinDays targetDate days)
        (isDateWithinDays targetDate days).
Proof.
  unfold isDateWithinDays. apply alike_bind; [apply alike_timeNow|].
  intros today. destruct (Parse targetDate) as [expires err].
  apply alike_bind; [|intros _; apply alike_ret].
  destruct err; [apply alike_slogLog|apply alike_ret].
Qed.

Lemma alike_getDomain (config : Config) (domain : string) :
  alike (W := W) (getDomain config domain) (getDomain config domain).
Proof.
  unfold getDomain. apply alike_bind; [apply alike_tlsDial|].
  intros [conn|err]; [|apply alike_ret].
  apply alike_defer; [apply alike_emit|].
  apply alike_bind.
  - unfold first. destruct (PeerCertificates (State conn));
      [apply alike_panic|apply alike_ret].
  - intros cert. apply alike_bind; [apply alike_isDateWithinDays|].
    intros within. apply alike_ret.
Qed.

Lemma alike_sendEmail (config : Config) (subject contents : string) :
  alike (W := W) (sendEmail config subject contents)
        (sendEmail config subject contents).
Proof.
  unfold sendEmail, slogDebug, slogError, DialAndSend.
  apply alike_bind; [apply alike_slogLog|]. intros _.
  apply alike_bind.
  - apply alike_bind; [apply alike_withWorld|]. intros r.
    apply alike_bind; [apply alike_emit|]. intros _. apply alike_ret.
  - intros [err|]; [apply alike_slogLog|apply alike_ret].
Qed.

Lemma alike_checkDomains (config : Config) (flags1 flags2 : Flags) :
  printFlag flags1 = printFlag flags2 ->
  forall cfgDomains domains,
    alike (W := W) (checkDomains config flags1 cfgDomains domains)
          (checkDomains config flags2 cfgDomains domains).
Proof.
  intros Hprint cfgDomains.
  induction cfgDomains as [|cfgDomain rest IH]; intros domains;
    cbn [checkDomains]; [apply alike_ret|].
  unfold slogDebug, slogError.
  apply alike_bind; [apply alike_slogLog|]. intros _.
  apply alike_bind; [apply alike_getDomain|].
  intros [domain|err].
  - apply alike_bind; [apply alike_slogLog|]. intros _.
    apply alike_bind; [|intros _; apply IH].
    rewrite Hprint.
    destruct (IsExpiringSoon domain && negb (printFlag flags2));
      [apply alike_sendEmail|apply alike_ret].
  - apply alike_bind; [apply alike_slogLog|]. intros _. apply IH.
Qed.

Lemma alike_main (config : Config) (flags1 flags2 : Flags) :
  summaryFlag flags1 = summaryFlag flags2 ->
  printFlag flags1 = printFlag flags2 ->
  alike (W := W) (main config flags1) (main config flags2).
Proof.
  intros Hsummary Hprint. unfold main.
  apply alike_bind; [apply alike_setLevel|]. intros _.
  apply alike_bind; [apply alike_setHandler|]. intros _.
  apply alike_bind.
  { destruct (debugFlag flags1), (debugFlag flags2);
      try apply alike_setLevel; try apply alike_ret;
      intros st1 st2 Hsame; now split. }
  intros _.
  apply alike_bind; [now apply alike_checkDomains|]. intros domains.
  rewrite Hsummary, Hprint.
  destruct (summaryFlag flags2); [|apply alike_ret].
  destruct (printFlag flags2); [apply alike_emit|apply alike_sendEmail].
Qed.

(** X14.  The flags -debug and -json change the log and nothing else: two
    runs of main on the same configuration in the same world, with the
    same -summary and -print, end alike (both return or both panic with
    the same message), leave the world in the same state, and did the
    same things in the same order apart from the records they logged:
    clock reads, connections, dials, closes, mails and output. *)
Theorem main_log_flags_change_the_log_only
        (config : Config) (flags1 flags2 : Flags) (w : W) :
  summaryFlag flags1 = summaryFlag flags2 ->
  printFlag flags1 = printFlag flags2 ->
  fst (main config flags1 (start w)) = fst (main config flags2 (start w))
  /\ world (snd (main config flags1 (start w)))
     = world (snd (main config flags2 (start w)))
  /\ effects (trace (snd (main config flags1 (start w))))
     = effects (trace (snd (main config flags2 (start w)))).
Proof.
  intros Hsummary Hprint.
  destruct (alike_main config flags1 flags2 Hsummary Hprint
              (start w) (start w) (sameEffects_refl _))
    as [Hfst [Hworld Htrace]].
  now repeat split.
Qed.
End Alike.

Lemma main_log_flags_change_the_log_only_witness :
  summaryFlag (flagsExample true false) = summaryFlag (flagsDebugJSON true false)
  /\ printFlag (flagsExample true false) = printFlag (flagsDebugJSON true false)
  /\ fst (main configExample (flagsExample true false)
               (start (scriptExample None)))
     = fst (main configExample (flagsDebugJSON true false)
                 (start (scriptExample None)))
  /\ world (snd (main configExample (flagsExample true false)
                      (start (scriptExample None))))
     = world (snd (main configExample (flagsDebugJSON true false)
                        (start (scriptExample None))))
  /\ effects (trace (snd (main configExample (flagsExample true false)
                               (start (scriptExample None)))))
     = effects (trace (snd (main configExample (flagsDebugJSON true false)
                                 (start (scriptExample None))))).
Proof.
  split; [reflexivity|]. split; [reflexivity|].
  exact (main_log_flags_change_the_log_only configExample
           (flagsExample true false) (flagsDebugJSON true false)
           (scriptExample None) eq_refl eq_refl).
Defined.
